(** * ngx-page-scroll-core: the PageScrollService animation controller

    A shallow embedding of
    [projects/ngx-page-scroll-core/src/lib/providers/ngx-page-scroll.service.ts]
    and the properties of its start / tick / stop life cycle.

    JavaScript numbers are IEEE 754 binary64 values, modelled by Rocq's
    primitive floats.  Objects with identity (the scroll instances) live in
    a store indexed by references; the service keeps references, exactly as
    the [runningInstances] array does. *)

From Stdlib Require Import ZArith List String Bool Lia PeanoNat.
From Stdlib Require Import PrimFloat FloatOps SpecFloat FloatAxioms.
Import ListNotations.

Set Implicit Arguments.

(* ================================================================== *)
(** ** JavaScript values used by the service *)
(* ================================================================== *)

Module Js.

(** A property that may hold [undefined], [null] or a proper value. *)
Inductive value (A : Type) : Type :=
| undefined : value A
| null : value A
| val (a : A) : value A.

Arguments undefined {A}.
Arguments null {A}.

Definition number := float.

(** Reading a key of an object: an absent key reads as [undefined]. *)
Definition read {A : Type} (k : option (value A)) : value A :=
  match k with
  | Some v => v
  | None => undefined
  end.

(** ToNumber on a possibly missing number. *)
Definition ToNumber (v : value number) : number :=
  match v with
  | undefined => nan
  | null => zero
  | val x => x
  end.

(** Reading a number-typed key in a numeric context. *)
Definition readNumber (k : option number) : number :=
  match k with
  | Some x => x
  | None => nan
  end.

(** Reading a boolean-typed key in a condition. *)
Definition readBool (k : option bool) : bool :=
  match k with
  | Some b => b
  | None => false
  end.

(** Truthiness of a number: neither [NaN] nor a zero. *)
Definition truthyNumber (x : number) : bool :=
  negb (is_nan x || is_zero x).

Definition truthy (v : value number) : bool :=
  match v with
  | val x => truthyNumber x
  | _ => false
  end.

(** Truthiness of a string-valued property: [!namespace] is its negation. *)
Definition truthyString (v : value string) : bool :=
  match v with
  | val s => negb (String.eqb s EmptyString)
  | _ => false
  end.

(** Strict equality [===] between two string-valued properties. *)
Definition strictEqString (a b : value string) : bool :=
  match a, b with
  | undefined, undefined => true
  | null, null => true
  | val x, val y => String.eqb x y
  | _, _ => false
  end.

(** [a >= b] on numbers. *)
Definition geb (a b : number) : bool := PrimFloat.leb b a.

Definition isNaN (x : number) : bool := is_nan x.

Definition Math_abs (x : number) : number := PrimFloat.abs x.

(** [Math.round]: the nearest integer, ties towards +infinity, keeping the
    sign of a zero result; [NaN], infinities and zeros are returned as is. *)
Definition Math_round (x : number) : number :=
  match Prim2SF x with
  | S754_finite s m e =>
      if (0 <=? e)%Z then x
      else
        let v := if s then Zneg m else Zpos m in
        let k := Z.opp e in
        match Z.shiftr (2 * v + Z.pow 2 k) (k + 1) with
        | Z0 => if s then neg_zero else zero
        | Zpos p => SF2Prim (S754_finite false p 0)
        | Zneg p => SF2Prim (S754_finite true p 0)
        end
  | _ => x
  end.

(** [Array.prototype.indexOf] on an array of numbers: [None] stands for -1. *)
Fixpoint indexOfNumber (x : number) (l : list number) : option nat :=
  match l with
  | [] => None
  | y :: l' =>
      if PrimFloat.eqb y x then Some 0
      else match indexOfNumber x l' with
           | Some i => Some (S i)
           | None => None
           end
  end.

End Js.

(* ================================================================== *)
(** ** Data model *)
(* ================================================================== *)

(** References to objects: scroll instances and DOM nodes. *)
Definition Ref := nat.
Definition Node := nat.

(** Handles of interval timers.  [setInterval] returns a non-zero handle,
    so that the truthiness test of line 57 is a test for a handle being
    stored; a stored handle is [Some h], [undefined] is [None]. *)
Definition Timer := positive.

(** [EasingLogic]: (elapsed, start, distance, duration) -> position.  The
    duration argument is passed as stored in [executionDuration]. *)
Definition EasingLogic : Type :=
  float -> float -> float -> Js.value float -> float.

(** The options object.  [PageScrollOptions] extends [PageScrollConfig];
    every key is optional, [None] is an absent key.  The declarations
    (types/page-scroll.config, types/page-scroll-instance) are not among
    the sources: the keys are those the service reads. *)
Record PageScrollOptions : Type := {
  namespace : option (Js.value string);
  duration : option (Js.value float);
  speed : option (Js.value float);
  interruptible : option bool;
  isVerticalScrolling : option bool;
  scrollViews : option (Js.value (list (Js.value Node)));
  _minScrollDistance : option float;
  _interval : option float;
  _logLevel : option float;
  interruptKeys : option (list float);
  easingLogic : option EasingLogic
}.

(** One key of an object spread [{...a, ...b}]: [b]'s key wins when present. *)
Definition spreadKey {A : Type} (a b : option A) : option A :=
  match b with
  | Some v => Some v
  | None => a
  end.

(** [{...a, ...b}] *)
Definition spread (a b : PageScrollOptions) : PageScrollOptions :=
  {| namespace := spreadKey (namespace a) (namespace b);
     duration := spreadKey (duration a) (duration b);
     speed := spreadKey (speed a) (speed b);
     interruptible := spreadKey (interruptible a) (interruptible b);
     isVerticalScrolling := spreadKey (isVerticalScrolling a) (isVerticalScrolling b);
     scrollViews := spreadKey (scrollViews a) (scrollViews b);
     _minScrollDistance := spreadKey (_minScrollDistance a) (_minScrollDistance b);
     _interval := spreadKey (_interval a) (_interval b);
     _logLevel := spreadKey (_logLevel a) (_logLevel b);
     interruptKeys := spreadKey (interruptKeys a) (interruptKeys b);
     easingLogic := spreadKey (easingLogic a) (easingLogic b) |}.

(** The fields of a [PageScrollInstance] the service reads and writes. *)
Record PageScrollInstance : Type := {
  pageScrollOptions : PageScrollOptions;
  startScrollPosition : float;
  targetScrollPosition : float;
  distanceToScroll : float;
  executionDuration : Js.value float;
  startTime : float;
  endTime : float;
  timer : option Timer;
  interruptListenersAttached : bool
}.

Definition set_pageScrollOptions (o : PageScrollOptions) (i : PageScrollInstance) :=
  {| pageScrollOptions := o;
     startScrollPosition := startScrollPosition i;
     targetScrollPosition := targetScrollPosition i;
     distanceToScroll := distanceToScroll i;
     executionDuration := executionDuration i;
     startTime := startTime i;
     endTime := endTime i;
     timer := timer i;
     interruptListenersAttached := interruptListenersAttached i |}.

Definition set_startScrollPosition (x : float) (i : PageScrollInstance) :=
  {| pageScrollOptions := pageScrollOptions i;
     startScrollPosition := x;
     targetScrollPosition := targetScrollPosition i;
     distanceToScroll := distanceToScroll i;
     executionDuration := executionDuration i;
     startTime := startTime i;
     endTime := endTime i;
     timer := timer i;
     interruptListenersAttached := interruptListenersAttached i |}.

Definition set_targetScrollPosition (x : float) (i : PageScrollInstance) :=
  {| pageScrollOptions := pageScrollOptions i;
     startScrollPosition := startScrollPosition i;
     targetScrollPosition := x;
     distanceToScroll := distanceToScroll i;
     executionDuration := executionDuration i;
     startTime := startTime i;
     endTime := endTime i;
     timer := timer i;
     interruptListenersAttached := interruptListenersAttached i |}.

Definition set_distanceToScroll (x : float) (i : PageScrollInstance) :=
  {| pageScrollOptions := pageScrollOptions i;
     startScrollPosition := startScrollPosition i;
     targetScrollPosition := targetScrollPosition i;
     distanceToScroll := x;
     executionDuration := executionDuration i;
     startTime := startTime i;
     endTime := endTime i;
     timer := timer i;
     interruptListenersAttached := interruptListenersAttached i |}.

Definition set_executionDuration (x : Js.value float) (i : PageScrollInstance) :=
  {| pageScrollOptions := pageScrollOptions i;
     startScrollPosition := startScrollPosition i;
     targetScrollPosition := targetScrollPosition i;
     distanceToScroll := distanceToScroll i;
     executionDuration := x;
     startTime := startTime i;
     endTime := endTime i;
     timer := timer i;
     interruptListenersAttached := interruptListenersAttached i |}.

Definition set_startTime (x : float) (i : PageScrollInstance) :=
  {| pageScrollOptions := pageScrollOptions i;
     startScrollPosition := startScrollPosition i;
     targetScrollPosition := targetScrollPosition i;
     distanceToScroll := distanceToScroll i;
     executionDuration := executionDuration i;
     startTime := x;
     endTime := endTime i;
     timer := timer i;
     interruptListenersAttached := interruptListenersAttached i |}.

Definition set_endTime (x : float) (i : PageScrollInstance) :=
  {| pageScrollOptions := pageScrollOptions i;
     startScrollPosition := startScrollPosition i;
     targetScrollPosition := targetScrollPosition i;
     distanceToScroll := distanceToScroll i;
     executionDuration := executionDuration i;
     startTime := startTime i;
     endTime := x;
     timer := timer i;
     interruptListenersAttached := interruptListenersAttached i |}.

Definition set_timer (x : option Timer) (i : PageScrollInstance) :=
  {| pageScrollOptions := pageScrollOptions i;
     startScrollPosition := startScrollPosition i;
     targetScrollPosition := targetScrollPosition i;
     distanceToScroll := distanceToScroll i;
     executionDuration := executionDuration i;
     startTime := startTime i;
     endTime := endTime i;
     timer := x;
     interruptListenersAttached := interruptListenersAttached i |}.

Definition set_interruptListenersAttached (x : bool) (i : PageScrollInstance) :=
  {| pageScrollOptions := pageScrollOptions i;
     startScrollPosition := startScrollPosition i;
     targetScrollPosition := targetScrollPosition i;
     distanceToScroll := distanceToScroll i;
     executionDuration := executionDuration i;
     startTime := startTime i;
     endTime := endTime i;
     timer := timer i;
     interruptListenersAttached := x |}.

(** The result of [extractScrollTargetPosition]. *)
Record ScrollTargetPosition : Type := {
  top : float;
  left : float
}.

(** The event an interrupt listener hands to the reporter: [event.type]
    and the two fields the reporter reads, [keyCode] of a keyboard event
    and [target]. *)
Record InterruptEvent : Type := {
  type : string;
  keyCode : float;
  target : Node
}.

(** What the outside world observes of a run. *)
Inductive Effect : Type :=
| Fired (r : Ref) (success : bool)
| ListenersAttached (r : Ref)
| ListenersDetached (r : Ref)
| IntervalSet (h : Timer) (r : Ref) (delay : float)
| IntervalCleared (h : Timer)
| ConsoleWarn (msg : string)
| ConsoleLog (msg : string).

(** Modelled from the spec: the PageScrollInstance class
    (types/page-scroll-instance) is not among the sources.  Its methods
    that touch the document are an interface over an abstract document
    state [World]; each receives the instance it is called on (its
    reference and its current fields).
    - [getScrollPropertyValue]: the scroll offset of one scroll view along
      the configured axis;
    - [getCurrentOffset]: the configured scroll offset;
    - [extractScrollTargetPosition]: the resolved target coordinates;
    - [setScrollPosition]: applies a position to every scroll view and tells
      whether the write worked for at least one of them;
    - [contains]: [Node.contains] of the document. *)
Class PageScrollInstanceMethods (World : Type) : Type := {
  getScrollPropertyValue : Ref -> PageScrollInstance -> Node -> World -> Js.value float;
  getCurrentOffset : Ref -> PageScrollInstance -> World -> float;
  extractScrollTargetPosition : Ref -> PageScrollInstance -> World -> ScrollTargetPosition;
  setScrollPosition : Ref -> PageScrollInstance -> float -> World -> bool * World;
  contains : Node -> Node -> World -> bool
}.

(* ================================================================== *)
(** ** The service and the world it runs in *)
(* ================================================================== *)

Section Service.

Context {World : Type} {methods : PageScrollInstanceMethods World}.

(** The service's two fields, [config] and [runningInstances], together
    with what it acts upon: the store of instance objects, the interval
    timers of the runtime, the document, [isDevMode()] and the effects
    emitted so far (oldest first). *)
Record System : Type := {
  config : PageScrollOptions;
  runningInstances : list Ref;
  store : Ref -> PageScrollInstance;
  intervals : list (Timer * Ref);
  nextTimer : Timer;
  document : World;
  devMode : bool;
  effects : list Effect
}.

Definition with_runningInstances (l : list Ref) (s : System) : System :=
  {| config := config s; runningInstances := l; store := store s;
     intervals := intervals s; nextTimer := nextTimer s;
     document := document s; devMode := devMode s; effects := effects s |}.

Definition with_store (st : Ref -> PageScrollInstance) (s : System) : System :=
  {| config := config s; runningInstances := runningInstances s; store := st;
     intervals := intervals s; nextTimer := nextTimer s;
     document := document s; devMode := devMode s; effects := effects s |}.

Definition with_intervals (l : list (Timer * Ref)) (n : Timer) (s : System) : System :=
  {| config := config s; runningInstances := runningInstances s; store := store s;
     intervals := l; nextTimer := n;
     document := document s; devMode := devMode s; effects := effects s |}.

Definition with_document (w : World) (s : System) : System :=
  {| config := config s; runningInstances := runningInstances s; store := store s;
     intervals := intervals s; nextTimer := nextTimer s;
     document := w; devMode := devMode s; effects := effects s |}.

(** Appends one effect to the trace. *)
Definition emit (e : Effect) (s : System) : System :=
  {| config := config s; runningInstances := runningInstances s; store := store s;
     intervals := intervals s; nextTimer := nextTimer s;
     document := document s; devMode := devMode s; effects := effects s ++ [e] |}.

(** Assignment to fields of the object behind reference [r]. *)
Definition update (r : Ref) (f : PageScrollInstance -> PageScrollInstance)
  (s : System) : System :=
  with_store (fun r' => if Nat.eqb r' r then f (store s r') else store s r') s.

(** How a call ends: it returns a value, an uncaught [TypeError] leaves the
    system in the state reached, or the loop model ran out of fuel. *)
Inductive Outcome (A : Type) : Type :=
| Returned (a : A) (s : System)
| Threw (s : System)
| Stalled.

Arguments Threw {A} s.
Arguments Stalled {A}.

Definition bind {A B : Type} (m : Outcome A) (k : A -> System -> Outcome B)
  : Outcome B :=
  match m with
  | Returned a s => k a s
  | Threw s => Threw s
  | Stalled => Stalled
  end.

(** The state a call leaves behind, when it ends. *)
Definition finalState {A : Type} (m : Outcome A) : option System :=
  match m with
  | Returned _ s => Some s
  | Threw s => Some s
  | Stalled => None
  end.

(** *** Runtime timers *)

(** [setInterval(handler, delay, r)]: registers the handler with its
    argument and returns a fresh handle. *)
Definition setInterval (r : Ref) (delay : float) (s : System) : Timer * System :=
  (nextTimer s,
   emit (IntervalSet (nextTimer s) r delay)
     (with_intervals ((nextTimer s, r) :: intervals s) (Pos.succ (nextTimer s)) s)).

(** [clearInterval(h)] *)
Definition clearInterval (h : Timer) (s : System) : System :=
  emit (IntervalCleared h)
    (with_intervals
       (filter (fun e => negb (Pos.eqb (fst e) h)) (intervals s)) (nextTimer s) s).

(** *** Instance methods without a document *)

(** Modelled from the spec: [PageScrollInstance.fireEvent] is not among the
    sources; it delivers the completion callback with the success flag.
    What the receiver of the callback does is outside the model. *)
Definition fireEvent (r : Ref) (success : bool) (s : System) : System :=
  emit (Fired r success) s.

(** Modelled from the spec: [PageScrollInstance.attachInterruptListeners]
    is not among the sources; it registers the listeners and raises the
    interrupt-listener-attached flag. *)
Definition attachInterruptListeners (r : Ref) (s : System) : System :=
  emit (ListenersAttached r) (update r (set_interruptListenersAttached true) s).

(** Modelled from the spec: [PageScrollInstance.detachInterruptListeners]
    is not among the sources; it removes the listeners and lowers the flag. *)
Definition detachInterruptListeners (r : Ref) (s : System) : System :=
  emit (ListenersDetached r) (update r (set_interruptListenersAttached false) s).

(** *** Arrays of references *)

(** [Array.prototype.indexOf] by object identity: [None] stands for -1. *)
Fixpoint indexOf (r : Ref) (l : list Ref) : option nat :=
  match l with
  | [] => None
  | x :: l' =>
      if Nat.eqb x r then Some 0
      else match indexOf r l' with
           | Some i => Some (S i)
           | None => None
           end
  end.

(** [splice(index, 1)] *)
Fixpoint splice1 (index : nat) (l : list Ref) : list Ref :=
  match l, index with
  | [], _ => []
  | _ :: l', 0 => l'
  | x :: l', S i => x :: splice1 i l'
  end.

(** *** stopInternal (lines 47-66) *)

Definition stopInternal (interrupted : bool) (r : Ref) (s : System)
  : bool * System :=
  let s1 :=
    match indexOf r (runningInstances s) with
    | Some index => with_runningInstances (splice1 index (runningInstances s)) s
    | None => s
    end in
  let s2 :=
    if interruptListenersAttached (store s1 r)
    then detachInterruptListeners r s1
    else s1 in
  match timer (store s2 r) with
  | Some h =>
      let s3 := clearInterval h s2 in
      let s4 := update r (set_timer None) s3 in
      let s5 := fireEvent r (negb interrupted) s4 in
      (true, s5)
  | None => (false, s2)
  end.

(** *** stopAll (lines 215-231) *)

(** Whether the loop body's condition selects the instance:
    [!namespace || pageScrollInstance.pageScrollOptions.namespace === namespace]. *)
Definition selects (ns : Js.value string) (s : System) (r : Ref) : bool :=
  negb (Js.truthyString ns)
  || Js.strictEqString (Js.read (namespace (pageScrollOptions (store s r)))) ns.

(** The [for] loop with its cursor [i].  After a stop the source decrements
    and re-increments the cursor, so the same index is examined again.  One
    unit of fuel is spent per iteration. *)
Fixpoint stopAllLoop (fuel : nat) (ns : Js.value string) (i : nat)
  (stoppedSome : bool) (s : System) : Outcome bool :=
  match fuel with
  | O => Stalled
  | S fuel' =>
      match nth_error (runningInstances s) i with
      | None => Returned stoppedSome s
      | Some r =>
          if selects ns s r
          then stopAllLoop fuel' ns i true (snd (stopInternal true r s))
          else stopAllLoop fuel' ns (S i) stoppedSome s
      end
  end.

Definition stopAll (ns : Js.value string) (s : System) : Outcome bool :=
  if Nat.ltb 0 (List.length (runningInstances s))
  then stopAllLoop (S (List.length (runningInstances s))) ns 0 false s
  else Returned false s.

(** *** stop (lines 233-235) *)

Definition stop (r : Ref) (s : System) : bool * System :=
  stopInternal true r s.

(** *** start (lines 73-210) *)

(** The guard of every diagnostic:
    [_logLevel >= 2 || (_logLevel >= 1 && isDevMode())] on [this.config]. *)
Definition logs (s : System) : bool :=
  Js.geb (Js.readNumber (_logLevel (config s))) 2%float
  || (Js.geb (Js.readNumber (_logLevel (config s))) 1%float && devMode s).

Definition warn (msg : string) (s : System) : System :=
  if logs s then emit (ConsoleWarn msg) s else s.

Definition log (msg : string) (s : System) : System :=
  if logs s then emit (ConsoleLog msg) s else s.

(** The [forEach] of lines 93-108 with its flag [startScrollPositionFound]:
    the first scroll view with a truthy scroll offset gives the start
    position; [undefined] and [null] entries are skipped. *)
Fixpoint probeStartScrollPosition (r : Ref) (views : list (Js.value Node))
  (startScrollPositionFound : bool) (s : System) : System :=
  match views with
  | [] => s
  | Js.val scrollingView :: rest =>
      let scrollPosition :=
        getScrollPropertyValue r (store s r) scrollingView (document s) in
      if negb startScrollPositionFound && Js.truthy scrollPosition
      then probeStartScrollPosition r rest true
             (update r (set_startScrollPosition (Js.ToNumber scrollPosition)) s)
      else probeStartScrollPosition r rest startScrollPositionFound s
  | _ :: rest => probeStartScrollPosition r rest startScrollPositionFound s
  end.

(** Lines 88-119: start position, target position and distance. *)
Definition measure (r : Ref) (views : list (Js.value Node)) (s : System) : System :=
  let s1 := update r (set_startScrollPosition zero) s in
  let s2 := probeStartScrollPosition r views false s1 in
  let pageScrollOffset := getCurrentOffset r (store s2 r) (document s2) in
  let scrollTargetPosition :=
    extractScrollTargetPosition r (store s2 r) (document s2) in
  let s3 :=
    update r
      (set_targetScrollPosition
         (Js.Math_round
            (PrimFloat.sub
               (if Js.readBool (isVerticalScrolling (pageScrollOptions (store s2 r)))
                then top scrollTargetPosition
                else left scrollTargetPosition)
               pageScrollOffset))) s2 in
  update r
    (fun i => set_distanceToScroll
                (PrimFloat.sub (targetScrollPosition i) (startScrollPosition i)) i)
    s3.

(** Line 134 *)
Definition allReadyAtDestination (r : Ref) (s : System) : bool :=
  PrimFloat.ltb (Js.Math_abs (distanceToScroll (store s r)))
    (Js.readNumber (_minScrollDistance (pageScrollOptions (store s r)))).

(** Lines 136-145: the duration, or the one derived from the speed when a
    speed is set and no duration. *)
Definition computeExecutionDuration (r : Ref) (s : System) : System :=
  let s1 :=
    update r
      (fun i => set_executionDuration (Js.read (duration (pageScrollOptions i))) i)
      s in
  match Js.read (speed (pageScrollOptions (store s1 r))),
        Js.read (duration (pageScrollOptions (store s1 r))) with
  | Js.val v, Js.undefined
  | Js.val v, Js.null =>
      update r
        (fun i => set_executionDuration
                    (Js.val (PrimFloat.mul
                               (PrimFloat.div (Js.Math_abs (distanceToScroll i)) v)
                               1000%float)) i)
        s1
  | _, _ => s1
  end.

(** Line 149 *)
Definition tooShortInterval (r : Ref) (s : System) : bool :=
  PrimFloat.leb (Js.ToNumber (executionDuration (store s r)))
    (Js.readNumber (_interval (pageScrollOptions (store s r)))).

(** Lines 151-162: jump to the target. *)
Definition jump (allReady : bool) (r : Ref) (s : System) : System :=
  let s1 :=
    log (if allReady
         then "Scrolling not possible, as we can't get any closer to the destination"
         else "Scroll duration shorter that interval length, jumping to target") s in
  let w := snd (setScrollPosition r (store s1 r)
                  (targetScrollPosition (store s1 r)) (document s1)) in
  fireEvent r true (with_document w s1).

(** Lines 164-209: listeners, start and end time, the interval timer and the
    registration as a running instance. *)
Definition schedule (now : float) (r : Ref) (s : System) : System :=
  let s1 :=
    if Js.readBool (interruptible (pageScrollOptions (store s r)))
    then attachInterruptListeners r s
    else s in
  let s2 := update r (set_startTime now) s1 in
  let s3 :=
    update r
      (fun i => set_endTime
                  (PrimFloat.add (startTime i) (Js.ToNumber (executionDuration i))) i)
      s2 in
  let hs := setInterval r (Js.readNumber (_interval (config s3))) s3 in
  let s4 := update r (set_timer (Some (fst hs))) (snd hs) in
  with_runningInstances (runningInstances s4 ++ [r]) s4.

(** Line 75: the configuration merged under the instance's options. *)
Definition mergeOptions (r : Ref) (s : System) : System :=
  update r
    (fun i => set_pageScrollOptions (spread (config s) (pageScrollOptions i)) i)
    s.

(** Lines 80-210: what [start] does once the namespace has been cleared. *)
Definition proceed (now : float) (r : Ref) (s : System) : Outcome unit :=
  match Js.read (scrollViews (pageScrollOptions (store s r))) with
  | Js.undefined => Threw s
  | Js.null
  | Js.val [] =>
      Returned tt
        (warn "No scrollViews specified, this ngx-page-scroll does not know which DOM elements to scroll" s)
  | Js.val views =>
      let s3 := measure r views s in
      if Js.isNaN (distanceToScroll (store s3 r))
      then
        Returned tt
          (fireEvent r false
             (log "Scrolling not possible, as we can't find the specified target" s3))
      else
        let allReady := allReadyAtDestination r s3 in
        let s4 := computeExecutionDuration r s3 in
        if allReady || tooShortInterval r s4
        then Returned tt (jump allReady r s4)
        else Returned tt (schedule now r s4)
  end.

(** [start(pageScrollInstance)], called at time [now]: merge the options,
    stop the running animations of the namespace, proceed. *)
Definition start (now : float) (r : Ref) (s : System) : Outcome unit :=
  let s1 := mergeOptions r s in
  bind (stopAll (Js.read (namespace (pageScrollOptions (store s1 r)))) s1)
    (fun _ s2 => proceed now r s2).

(** *** The tick handler (lines 174-206), run at time [currentTime] *)

(** Lines 179-192: the new scroll position and the flag [stopNow]; [None]
    when the easing function is missing from the options, so that calling
    it throws. *)
Definition nextPosition (currentTime : float) (i : PageScrollInstance)
  : option (float * bool) :=
  if PrimFloat.leb (endTime i) currentTime
  then Some (targetScrollPosition i, true)
  else
    match easingLogic (pageScrollOptions i) with
    | Some ease =>
        Some (Js.Math_round
                (ease (PrimFloat.sub currentTime (startTime i))
                   (startScrollPosition i) (distanceToScroll i)
                   (executionDuration i)),
              false)
    | None => None
    end.

Definition tick (currentTime : float) (r : Ref) (s : System) : Outcome unit :=
  match nextPosition currentTime (store s r) with
  | None => Threw s
  | Some (newScrollPosition, stopNow) =>
      let written :=
        setScrollPosition r (store s r) newScrollPosition (document s) in
      let s1 := with_document (snd written) s in
      let stopNow := if negb (fst written) then true else stopNow in
      if stopNow
      then Returned tt (snd (stopInternal false r s1))
      else Returned tt s1
  end.

(** *** The interrupt reporter (lines 17-45) *)

(** [scrollViews.some(scrollingView => scrollingView.contains(target))]:
    [None] when [contains] is looked up on [undefined] or [null]. *)
Fixpoint someContains (views : list (Js.value Node)) (t : Node) (w : World)
  : option bool :=
  match views with
  | [] => Some false
  | Js.val scrollingView :: rest =>
      if contains scrollingView t w then Some true else someContains rest t w
  | _ :: _ => None
  end.

(** The value of [shouldStop] at line 41; [None] when computing it throws. *)
Definition shouldStop (event : InterruptEvent) (r : Ref) (s : System)
  : option bool :=
  if String.eqb (type event) "keyup"
  then
    match interruptKeys (config s) with
    | Some keys =>
        match Js.indexOfNumber (keyCode event) keys with
        | None => Some false
        | Some _ => Some true
        end
    | None => None
    end
  else if String.eqb (type event) "mousedown"
  then
    match Js.read (scrollViews (pageScrollOptions (store s r))) with
    | Js.val views =>
        match someContains views (target event) (document s) with
        | Some b => Some b
        | None => None
        end
    | _ => None
    end
  else Some true.

(** [onInterrupted.report(event, pageScrollInstance)] *)
Definition report (event : InterruptEvent) (r : Ref) (s : System) : Outcome unit :=
  if negb (Js.readBool (interruptible (pageScrollOptions (store s r))))
  then Returned tt s
  else
    match shouldStop event r s with
    | None => Threw s
    | Some true =>
        bind (stopAll (Js.read (namespace (pageScrollOptions (store s r)))) s)
          (fun _ s' => Returned tt s')
    | Some false => Returned tt s
    end.

(** *** The life of the system *)

(** One move: a call of the public interface, a tick of an active interval
    timer, an event on an instance whose listeners are attached, or a
    change of the document.  The options of an instance are those it was
    created with; only [start] rewrites them, by the merge of line 75. *)
Inductive Step : System -> System -> Prop :=
| step_start now r s s' :
    finalState (start now r s) = Some s' -> Step s s'
| step_stop r s :
    Step s (snd (stop r s))
| step_stopAll ns s s' :
    finalState (stopAll ns s) = Some s' -> Step s s'
| step_tick now h r s s' :
    In (h, r) (intervals s) ->
    finalState (tick now r s) = Some s' -> Step s s'
| step_event event r s s' :
    interruptListenersAttached (store s r) = true ->
    finalState (report event r s) = Some s' -> Step s s'
| step_document w s :
    Step s (with_document w s).

(** A freshly constructed service: nothing runs, no instance has a timer or
    listeners. *)
Definition Initial (s : System) : Prop :=
  runningInstances s = [] /\ intervals s = [] /\
  forall r, timer (store s r) = None /\
            interruptListenersAttached (store s r) = false.

Inductive Reachable : System -> Prop :=
| reach_initial s : Initial s -> Reachable s
| reach_step s s' : Reachable s -> Step s s' -> Reachable s'.

(** *** Vocabulary of the properties *)

(** The namespace an instance carries, as [stopAll] reads it. *)
Definition namespaceOf (s : System) (r : Ref) : Js.value string :=
  Js.read (namespace (pageScrollOptions (store s r))).

(** The array without the first occurrence of [r]: what lines 48-51 leave. *)
Definition removeOne (r : Ref) (l : list Ref) : list Ref :=
  match indexOf r l with
  | Some index => splice1 index l
  | None => l
  end.

(** The instances [stopAll] stops one after the other, each as interrupted. *)
Definition stopEach (l : list Ref) (s : System) : System :=
  fold_left (fun s' r => snd (stopInternal true r s')) l s.

(** The completion callbacks delivered to instance [r], oldest first. *)
Definition firedFor (r : Ref) (l : list Effect) : list bool :=
  flat_map (fun e => match e with
                     | Fired r' b => if Nat.eqb r' r then [b] else []
                     | _ => []
                     end) l.

(** The interval timers set, oldest first. *)
Definition timersSet (l : list Effect) : list Timer :=
  flat_map (fun e => match e with
                     | IntervalSet h _ _ => [h]
                     | _ => []
                     end) l.

(** [s'] differs from [s] at most in computed parameters of instance [r]:
    its options, timer and listener flag, every other instance and the rest
    of the system are the same. *)
Record Retunes (r : Ref) (s s' : System) : Prop := {
  retunes_config : config s' = config s;
  retunes_running : runningInstances s' = runningInstances s;
  retunes_intervals : intervals s' = intervals s;
  retunes_nextTimer : nextTimer s' = nextTimer s;
  retunes_document : document s' = document s;
  retunes_devMode : devMode s' = devMode s;
  retunes_effects : effects s' = effects s;
  retunes_other : forall x, x <> r -> store s' x = store s x;
  retunes_options :
    pageScrollOptions (store s' r) = pageScrollOptions (store s r);
  retunes_timer : timer (store s' r) = timer (store s r);
  retunes_attached :
    interruptListenersAttached (store s' r)
    = interruptListenersAttached (store s r)
}.

(** What holds of every state the system can be in. *)
Record Consistent (s : System) : Prop := {
  running_nodup : NoDup (runningInstances s);
  running_timer :
    forall r, In r (runningInstances s) <-> timer (store s r) <> None;
  attached_timer :
    forall r, interruptListenersAttached (store s r) = true ->
              timer (store s r) <> None;
  interval_timer :
    forall h r, In (h, r) (intervals s) <-> timer (store s r) = Some h;
  interval_fresh :
    forall h r, In (h, r) (intervals s) -> (h < nextTimer s)%positive;
  interval_unique :
    forall h r r', In (h, r) (intervals s) -> In (h, r') (intervals s) -> r = r';
  running_merged :
    forall r, In r (runningInstances s) ->
              spread (config s) (pageScrollOptions (store s r))
              = pageScrollOptions (store s r);
  namespace_nodup : NoDup (map (namespaceOf s) (runningInstances s))
}.

End Service.

Arguments System World : clear implicits.
Arguments Outcome World A : clear implicits.
Arguments Returned {World A} a s.
Arguments Threw {World A} s.
Arguments Stalled {World A}.

(* ================================================================== *)
(** ** A small document to run the service on *)
(* ================================================================== *)

(** Modelled from the spec: the document and the PageScrollInstance methods
    that touch it are not among the sources.  A page gives every node a
    scroll offset, says which nodes accept a new offset, which node lies
    inside which, and where each instance's scroll target is. *)
Record Page : Type := {
  offsetOf : Node -> Js.value float;
  accepts : Node -> bool;
  inside : Node -> Node -> bool;
  targetOf : Ref -> ScrollTargetPosition
}.

Definition writeOffset (n : Node) (x : float) (p : Page) : Page :=
  {| offsetOf := fun m => if Nat.eqb m n then Js.val x else offsetOf p m;
     accepts := accepts p;
     inside := inside p;
     targetOf := targetOf p |}.

(** Modelled from the spec: applies the position to every scroll view that
    is present and tells whether at least one of them took it. *)
Fixpoint writeAll (views : list (Js.value Node)) (x : float)
  (oneAlreadyWorked : bool) (p : Page) : bool * Page :=
  match views with
  | [] => (oneAlreadyWorked, p)
  | Js.val n :: rest =>
      if accepts p n
      then writeAll rest x true (writeOffset n x p)
      else writeAll rest x oneAlreadyWorked p
  | _ :: rest => writeAll rest x oneAlreadyWorked p
  end.

#[export] Instance PageMethods : PageScrollInstanceMethods Page := {
  getScrollPropertyValue := fun _ _ n p => offsetOf p n;
  getCurrentOffset := fun _ _ _ => zero;
  extractScrollTargetPosition := fun r _ p => targetOf p r;
  setScrollPosition := fun _ i x p =>
    match Js.read (scrollViews (pageScrollOptions i)) with
    | Js.val views => writeAll views x false p
    | _ => (false, p)
    end;
  contains := fun a b p => inside p a b
}.

(** A linear easing function. *)
Definition linearEasing : EasingLogic :=
  fun t b c d => PrimFloat.add (PrimFloat.div (PrimFloat.mul c t) (Js.ToNumber d)) b.

(** A service configuration with every key present. *)
Definition sampleConfig : PageScrollOptions :=
  {| namespace := Some (Js.val "default"%string);
     duration := Some (Js.val 1250%float);
     speed := Some Js.undefined;
     interruptible := Some true;
     isVerticalScrolling := Some true;
     scrollViews := None;
     _minScrollDistance := Some 2%float;
     _interval := Some 10%float;
     _logLevel := Some 1%float;
     interruptKeys := Some [33; 34; 35; 36; 38; 40]%float;
     easingLogic := Some linearEasing |}.

(** The options a caller passes: scroll views, and optionally a namespace,
    a duration and a speed. *)
Definition callerOptions (views : Js.value (list (Js.value Node)))
  (ns : option (Js.value string)) (d s : option (Js.value float))
  : PageScrollOptions :=
  {| namespace := ns;
     duration := d;
     speed := s;
     interruptible := None;
     isVerticalScrolling := None;
     scrollViews := Some views;
     _minScrollDistance := None;
     _interval := None;
     _logLevel := None;
     interruptKeys := None;
     easingLogic := None |}.

(** A newly created instance. *)
Definition newInstance (o : PageScrollOptions) : PageScrollInstance :=
  {| pageScrollOptions := o;
     startScrollPosition := zero;
     targetScrollPosition := zero;
     distanceToScroll := zero;
     executionDuration := Js.undefined;
     startTime := zero;
     endTime := zero;
     timer := None;
     interruptListenersAttached := false |}.

(** A page whose nodes are all at offset 0; node 7 refuses writes; node 3
    lies inside node 1; every scroll target is at (500, 0), except that of
    instance 9, which cannot be resolved. *)
Definition samplePage : Page :=
  {| offsetOf := fun _ => Js.val zero;
     accepts := fun n => negb (Nat.eqb n 7);
     inside := fun a b => Nat.eqb a 1 && Nat.eqb b 3;
     targetOf := fun r =>
       if Nat.eqb r 9 then {| top := nan; left := nan |}
       else {| top := 500%float; left := zero |} |}.

(** Instances 0 and 1 scroll node 1 in namespace "a"; 2 scrolls node 2 with
    the configured namespace; 3 has no scroll views; 4 scrolls the
    unwritable node 7 with a duration of 5; 5 has a [null] entry before
    node 1; 6 scrolls the unwritable node 7; 8 scrolls node 1 at speed 100
    with the duration set to [undefined]; 9 has no resolvable target; 10
    scrolls node 2 with the namespace set to [undefined]; the others
    scroll node 1. *)
Definition sampleStore (r : Ref) : PageScrollInstance :=
  newInstance
    (match r with
     | 0 | 1 => callerOptions (Js.val [Js.val 1]) (Some (Js.val "a"%string)) None None
     | 2 => callerOptions (Js.val [Js.val 2]) None None None
     | 3 => callerOptions (Js.val []) None None None
     | 4 => callerOptions (Js.val [Js.val 7]) (Some (Js.val "b"%string))
              (Some (Js.val 5%float)) None
     | 5 => callerOptions (Js.val [Js.null; Js.val 1]) (Some (Js.val "c"%string)) None None
     | 6 => callerOptions (Js.val [Js.val 7]) (Some (Js.val "d"%string)) None None
     | 8 => callerOptions (Js.val [Js.val 1]) (Some (Js.val "e"%string))
              (Some Js.undefined) (Some (Js.val 100%float))
     | 10 => callerOptions (Js.val [Js.val 2]) (Some Js.undefined) None None
     | _ => callerOptions (Js.val [Js.val 1]) None None None
     end).

Definition sampleSystem : System Page :=
  {| config := sampleConfig;
     runningInstances := [];
     store := sampleStore;
     intervals := [];
     nextTimer := 1%positive;
     document := samplePage;
     devMode := true;
     effects := [] |}.

(** The state a call leaves, or the state it was made in when the model
    gives none. *)
Definition after {A : Type} (m : Outcome Page A) (s : System Page) : System Page :=
  match finalState m with
  | Some s' => s'
  | None => s
  end.


(* ================================================================== *)
(** ** Properties *)
(* ================================================================== *)

(** The sample system after [start] was called at time 1000 on instance
    0, 5 or 6, or on instance 1 and then, at time 1001, on instance 2. *)
Definition running0 : System Page :=
  after (start 1000%float 0 sampleSystem) sampleSystem.

Definition running5 : System Page :=
  after (start 1000%float 5 sampleSystem) sampleSystem.

Definition running6 : System Page :=
  after (start 1000%float 6 sampleSystem) sampleSystem.

Definition running1 : System Page :=
  after (start 1000%float 1 sampleSystem) sampleSystem.

Definition running12 : System Page :=
  after (start 1001%float 2 running1) running1.

(** [running0] after node 1 has been scrolled to offset 499, next to the
    target of instance 0. *)
Definition running0Near : System Page :=
  with_document (writeOffset 1 499%float (document running0)) running0.

(** A mouse press on node 3, which lies inside node 1. *)
Definition pressInsideNode1 : InterruptEvent :=
  {| type := "mousedown"; keyCode := zero; target := 3 |}.

(* ================================================================== *)
(** ** The constructor and a caller of the service *)
(* ================================================================== *)

Section Callers.

Context {World : Type} {methods : PageScrollInstanceMethods World}.

(** A service with the given two fields in the world of [s]. *)
Definition with_service (c : PageScrollOptions) (l : list Ref)
  (s : System World) : System World :=
  {| config := c; runningInstances := l; store := store s;
     intervals := intervals s; nextTimer := nextTimer s;
     document := document s; devMode := devMode s; effects := effects s |}.

(** The constructor (lines 237-246) with the static [instanceCounter]: the
    new service has the custom configuration merged over
    [defaultPageScrollConfig] (config.provider, not among the sources, a
    parameter here) and an empty running set (line 15); it lives in the
    world of [world].  The result is the counter after the call and the
    new service. *)
Definition construct (instanceCounter : nat)
  (defaultPageScrollConfig customConfig : PageScrollOptions)
  (world : System World) : nat * System World :=
  let s := with_service (spread defaultPageScrollConfig customConfig) [] world in
  (S instanceCounter,
   if Nat.ltb 0 instanceCounter
   then warn "An instance of PageScrollService already exists, usually including one provider should be enough, so double check." s
   else s).

(** [ScrollDialogComponent] (scroll.dialog.component): the instance it
    created in [ngOnInit] and whether its dialog is open. *)
Record ScrollDialogComponent : Type := {
  pageScrollInstance : Ref;
  dialogOpen : bool
}.

(** [scrollIt()] *)
Definition scrollIt (now : float) (c : ScrollDialogComponent) (s : System World)
  : Outcome World unit :=
  start now (pageScrollInstance c) s.

(** [closeClick()]: closes the dialog, then stops the instance; the result
    of [stop] is dropped. *)
Definition closeClick (c : ScrollDialogComponent) (s : System World)
  : ScrollDialogComponent * System World :=
  ({| pageScrollInstance := pageScrollInstance c; dialogOpen := false |},
   snd (stop (pageScrollInstance c) s)).

(** Whether a scroll view gives no start position at lines 94-101: the
    entry is missing, or its scroll offset is [undefined], [null], [NaN] or
    a zero. *)
Definition givesNoPosition (r : Ref) (i : PageScrollInstance) (w : World)
  (v : Js.value Node) : Prop :=
  match v with
  | Js.val n => Js.truthy (getScrollPropertyValue r i n w) = false
  | _ => True
  end.

End Callers.

(** More instances: 20 scrolls node 1 with a speed of 100 and no duration
    key; 21 has no scroll views key at all; 22 scrolls node 1 with duration
    and speed both [undefined] and is not interruptible; 23 scrolls nodes
    2 and 1, in this order, after a [null] entry; the others are those of
    [sampleStore]. *)
Definition moreStore (r : Ref) : PageScrollInstance :=
  match r with
  | 20 => newInstance
            (callerOptions (Js.val [Js.val 1]) (Some (Js.val "s"%string))
               None (Some (Js.val 100%float)))
  | 21 => newInstance
            {| namespace := Some (Js.val "a"%string);
               duration := None; speed := None; interruptible := None;
               isVerticalScrolling := None; scrollViews := None;
               _minScrollDistance := None; _interval := None;
               _logLevel := None; interruptKeys := None; easingLogic := None |}
  | 22 => newInstance
            {| namespace := Some (Js.val "n"%string);
               duration := Some Js.undefined; speed := Some Js.undefined;
               interruptible := Some false;
               isVerticalScrolling := None;
               scrollViews := Some (Js.val [Js.val 1]);
               _minScrollDistance := None; _interval := None;
               _logLevel := None; interruptKeys := None; easingLogic := None |}
  | 23 => newInstance
            (callerOptions (Js.val [Js.null; Js.val 2; Js.val 1])
               (Some (Js.val "p"%string)) None None)
  | _ => sampleStore r
  end.

(** A page like [samplePage] on which node 1 is scrolled to offset 120. *)
Definition scrolledPage : Page :=
  writeOffset 1 120%float samplePage.

Definition moreSystem : System Page :=
  {| config := sampleConfig;
     runningInstances := [];
     store := moreStore;
     intervals := [];
     nextTimer := 1%positive;
     document := scrolledPage;
     devMode := true;
     effects := [] |}.

(** [moreSystem] after [start] was called at time 1000 on instance 1. *)
Definition moreRunning1 : System Page :=
  after (start 1000%float 1 moreSystem) moreSystem.

(** A wheel event. *)
Definition wheelEvent : InterruptEvent :=
  {| type := "wheel"; keyCode := zero; target := 0 |}.

(** The dialog component holding instance 0. *)
Definition sampleDialog : ScrollDialogComponent :=
  {| pageScrollInstance := 0; dialogOpen := true |}.

Unset Implicit Arguments.

(* ================================================================== *)
(** ** JavaScript arithmetic on examples *)
(* ================================================================== *)

Example Math_round_half_up : Js.Math_round 2.5%float = 3%float.
Proof. vm_compute. reflexivity. Qed.

Example Math_round_negative_half : Js.Math_round (-2.5)%float = (-2)%float.
Proof. vm_compute. reflexivity. Qed.

Example Math_round_keeps_integers :
  Js.Math_round 4503599627370497%float = 4503599627370497%float.
Proof. vm_compute. reflexivity. Qed.

Example Math_round_nan : is_nan (Js.Math_round nan) = true.
Proof. vm_compute. reflexivity. Qed.

Example Math_round_negative_zero :
  Prim2SF (Js.Math_round (-0.25)%float) = S754_zero true.
Proof. vm_compute. reflexivity. Qed.

Example undefined_is_not_at_most :
  PrimFloat.leb (Js.ToNumber Js.undefined) 10%float = false.
Proof. vm_compute. reflexivity. Qed.

Example null_is_at_most :
  PrimFloat.leb (Js.ToNumber Js.null) 10%float = true.
Proof. vm_compute. reflexivity. Qed.

Example indexOf_NaN : Js.indexOfNumber nan [nan] = None.
Proof. vm_compute. reflexivity. Qed.

Section Properties.

Context {World : Type} {methods : PageScrollInstanceMethods World}.

Implicit Types (s : System World) (r : Ref) (l : list Ref).

(** *** Arrays of references *)

Lemma removeOne_nil r : removeOne r [] = [].
Proof. reflexivity. Qed.

Lemma removeOne_cons r x l :
  removeOne r (x :: l) = if Nat.eqb x r then l else x :: removeOne r l.
Proof.
  unfold removeOne. simpl.
  destruct (Nat.eqb x r); [reflexivity|].
  destruct (indexOf r l); reflexivity.
Qed.

Lemma removeOne_notin r l : ~ In r l -> removeOne r l = l.
Proof.
  induction l as [|x l IH]; intros H; [reflexivity|].
  rewrite removeOne_cons.
  destruct (Nat.eqb_spec x r) as [->|_].
  - exfalso. apply H. now left.
  - f_equal. apply IH. intros Hin. apply H. now right.
Qed.

Lemma removeOne_app r pre suf :
  ~ In r pre -> removeOne r (pre ++ r :: suf) = pre ++ suf.
Proof.
  induction pre as [|x pre IH]; intros H; simpl.
  - rewrite removeOne_cons, Nat.eqb_refl. reflexivity.
  - rewrite removeOne_cons.
    destruct (Nat.eqb_spec x r) as [->|_].
    + exfalso. apply H. now left.
    + f_equal. apply IH. intros Hin. apply H. now right.
Qed.

Lemma removeOne_incl r l x : In x (removeOne r l) -> In x l.
Proof.
  induction l as [|y l IH]; [exact (fun H => H)|].
  rewrite removeOne_cons.
  destruct (Nat.eqb y r); simpl; intuition.
Qed.

Lemma removeOne_other r l x : x <> r -> In x l -> In x (removeOne r l).
Proof.
  intros Hx. induction l as [|y l IH]; [exact (fun H => H)|].
  rewrite removeOne_cons.
  destruct (Nat.eqb_spec y r) as [->|_]; simpl; intuition congruence.
Qed.

Lemma removeOne_NoDup r l :
  NoDup l -> NoDup (removeOne r l) /\ ~ In r (removeOne r l).
Proof.
  induction 1 as [|x l Hx Hl IH].
  - split; [constructor | intros []].
  - rewrite removeOne_cons.
    destruct (Nat.eqb_spec x r) as [->|Hne].
    + split; assumption.
    + destruct IH as [IH1 IH2]. split.
      * constructor; [|assumption].
        intros Hin. apply Hx. eapply removeOne_incl; eassumption.
      * intros [Heq|Hin]; [congruence | contradiction].
Qed.

Lemma removeOne_filter r l :
  NoDup l -> removeOne r l = filter (fun x => negb (Nat.eqb x r)) l.
Proof.
  induction 1 as [|x l Hx Hl IH]; [reflexivity|].
  rewrite removeOne_cons. simpl.
  destruct (Nat.eqb_spec x r) as [->|Hne]; simpl.
  - symmetry. clear IH Hl. induction l as [|y l IH]; [reflexivity|].
    simpl. destruct (Nat.eqb_spec y r) as [->|_]; simpl.
    + exfalso. apply Hx. now left.
    + f_equal. apply IH. intros Hin. apply Hx. now right.
  - now rewrite IH.
Qed.

Lemma removeOne_map_NoDup {A : Type} (f : Ref -> A) r l :
  NoDup (map f l) -> NoDup (map f (removeOne r l)).
Proof.
  induction l as [|x l IH]; [exact (fun H => H)|].
  rewrite removeOne_cons. simpl. intros H.
  inversion H as [|? ? Hx Hl]; subst.
  destruct (Nat.eqb x r); [assumption|].
  simpl. constructor; [|now apply IH].
  intros Hin. apply Hx.
  apply in_map_iff in Hin. destruct Hin as [y [Hy Hin]].
  apply in_map_iff. exists y. split; [assumption|].
  eapply removeOne_incl; eassumption.
Qed.

(** *** Object spread *)

Lemma spreadKey_idempotent {A : Type} (a b : option A) :
  spreadKey a (spreadKey a b) = spreadKey a b.
Proof. destruct b; [reflexivity|]. destruct a; reflexivity. Qed.

Lemma spread_idempotent (a b : PageScrollOptions) :
  spread a (spread a b) = spread a b.
Proof.
  unfold spread. simpl. now rewrite !spreadKey_idempotent.
Qed.

Lemma strictEqString_refl (a : Js.value string) : Js.strictEqString a a = true.
Proof. destruct a; simpl; try reflexivity. apply String.eqb_refl. Qed.

Lemma strictEqString_eq (a b : Js.value string) :
  Js.strictEqString a b = true <-> a = b.
Proof.
  split; [|intros ->; apply strictEqString_refl].
  destruct a, b; simpl; try discriminate; try reflexivity.
  intros H. apply String.eqb_eq in H. now subst.
Qed.

(** *** The stop sequence *)

Ltac norm :=
  cbn [config runningInstances store intervals nextTimer document devMode effects
       with_runningInstances with_store with_intervals with_document emit update
       detachInterruptListeners attachInterruptListeners fireEvent
       clearInterval setInterval
       pageScrollOptions startScrollPosition targetScrollPosition
       distanceToScroll executionDuration startTime endTime timer
       interruptListenersAttached
       set_pageScrollOptions set_startScrollPosition set_targetScrollPosition
       set_distanceToScroll set_executionDuration set_startTime set_endTime
       set_timer set_interruptListenersAttached fst snd] in *.

Ltac stop_cases r s :=
  unfold stop, stopInternal, removeOne;
  destruct (indexOf r (runningInstances s));
  norm;
  destruct (interruptListenersAttached (store s r)) eqn:?;
  norm; rewrite ?Nat.eqb_refl; norm;
  destruct (timer (store s r)) eqn:?;
  norm.

Lemma stopInternal_fst b r s :
  fst (stopInternal b r s) = match timer (store s r) with
                             | Some _ => true
                             | None => false
                             end.
Proof. stop_cases r s; reflexivity. Qed.

Lemma stopInternal_config b r s :
  config (snd (stopInternal b r s)) = config s.
Proof. stop_cases r s; reflexivity. Qed.

Lemma stopInternal_devMode b r s :
  devMode (snd (stopInternal b r s)) = devMode s.
Proof. stop_cases r s; reflexivity. Qed.

Lemma stopInternal_document b r s :
  document (snd (stopInternal b r s)) = document s.
Proof. stop_cases r s; reflexivity. Qed.

Lemma stopInternal_nextTimer b r s :
  nextTimer (snd (stopInternal b r s)) = nextTimer s.
Proof. stop_cases r s; reflexivity. Qed.

Lemma stopInternal_running b r s :
  runningInstances (snd (stopInternal b r s)) = removeOne r (runningInstances s).
Proof. stop_cases r s; reflexivity. Qed.

Lemma stopInternal_intervals b r s :
  intervals (snd (stopInternal b r s))
  = match timer (store s r) with
    | Some h => filter (fun e => negb (Pos.eqb (fst e) h)) (intervals s)
    | None => intervals s
    end.
Proof. stop_cases r s; reflexivity. Qed.

Lemma stopInternal_effects b r s :
  effects (snd (stopInternal b r s))
  = effects s
    ++ (if interruptListenersAttached (store s r) then [ListenersDetached r] else [])
    ++ match timer (store s r) with
       | Some h => [IntervalCleared h; Fired r (negb b)]
       | None => []
       end.
Proof.
  stop_cases r s; cbn; rewrite <- ?app_assoc, ?app_nil_r; reflexivity.
Qed.

Lemma stopInternal_other b r s r' :
  r' <> r -> store (snd (stopInternal b r s)) r' = store s r'.
Proof.
  intros H. apply Nat.eqb_neq in H.
  stop_cases r s; cbn; rewrite ?H; reflexivity.
Qed.

Lemma stopInternal_timer b r s :
  timer (store (snd (stopInternal b r s)) r) = None.
Proof.
  stop_cases r s; cbn; rewrite ?Nat.eqb_refl; cbn; auto.
Qed.

Lemma stopInternal_attached b r s :
  interruptListenersAttached (store (snd (stopInternal b r s)) r) = false.
Proof.
  stop_cases r s; cbn; rewrite ?Nat.eqb_refl; cbn; auto.
Qed.

(** The stop sequence touches two fields of the instance only. *)
Lemma stopInternal_self b r s :
  store (snd (stopInternal b r s)) r
  = set_timer None (set_interruptListenersAttached false (store s r)).
Proof.
  stop_cases r s; cbn; rewrite ?Nat.eqb_refl; cbn;
    destruct (store s r); cbn in *; subst; reflexivity.
Qed.

Lemma stopInternal_options b r s r' :
  pageScrollOptions (store (snd (stopInternal b r s)) r')
  = pageScrollOptions (store s r').
Proof.
  destruct (Nat.eq_dec r' r) as [->|H].
  - now rewrite stopInternal_self.
  - now rewrite stopInternal_other.
Qed.

(** A stop of an instance that has no timer, is not registered and has no
    listeners changes nothing. *)
Lemma stopInternal_idle b r s :
  timer (store s r) = None ->
  ~ In r (runningInstances s) ->
  interruptListenersAttached (store s r) = false ->
  stopInternal b r s = (false, s).
Proof.
  intros Ht Hr Ha. unfold stopInternal.
  assert (Hi : indexOf r (runningInstances s) = None).
  { clear Ht Ha. induction (runningInstances s) as [|x l IH]; [reflexivity|].
    simpl. destruct (Nat.eqb_spec x r) as [->|_].
    - exfalso. apply Hr. now left.
    - rewrite IH; [reflexivity|]. intros Hin. apply Hr. now right. }
  rewrite Hi, Ha, Ht. reflexivity.
Qed.

(** *** The loop of stopAll *)

Lemma selects_options ns s s' x :
  pageScrollOptions (store s' x) = pageScrollOptions (store s x) ->
  selects ns s' x = selects ns s x.
Proof. unfold selects. now intros ->. Qed.

Lemma selects_stopInternal ns b r s x :
  selects ns (snd (stopInternal b r s)) x = selects ns s x.
Proof. apply selects_options, stopInternal_options. Qed.

Lemma nth_error_middle (pre suf : list Ref) x :
  nth_error (pre ++ x :: suf) (List.length pre) = Some x.
Proof.
  rewrite nth_error_app2 by lia. now rewrite Nat.sub_diag.
Qed.

(** The cursor stands behind a prefix of instances the condition rejected;
    with one unit of fuel per remaining entry, and one for the exit test,
    the loop returns, having stopped the selected instances of the suffix in
    order. *)
Lemma stopAllLoop_spec ns (p : Ref -> bool) :
  forall suf fuel pre b s,
    (forall x, selects ns s x = p x) ->
    runningInstances s = pre ++ suf ->
    (forall x, In x pre -> p x = false) ->
    List.length suf < fuel ->
    stopAllLoop fuel ns (List.length pre) b s
    = Returned (b || existsb p suf) (stopEach (filter p suf) s)
    /\ runningInstances (stopEach (filter p suf) s)
       = pre ++ filter (fun x => negb (p x)) suf.
Proof.
  induction suf as [|x suf IH]; intros fuel pre b s Hp Hrun Hpre Hfuel.
  - destruct fuel as [|fuel]; [simpl in Hfuel; lia|].
    simpl. rewrite Hrun, app_nil_r.
    replace (nth_error pre (List.length pre)) with (@None Ref)
      by (symmetry; apply nth_error_None; lia).
    now rewrite orb_false_r.
  - destruct fuel as [|fuel]; [simpl in Hfuel; lia|].
    simpl in Hfuel.
    cbn [stopAllLoop]. rewrite Hrun, nth_error_middle, Hp.
    cbn [filter existsb].
    destruct (p x) eqn:Hx.
    + assert (Hnot : ~ In x pre).
      { intros Hin. apply Hpre in Hin. congruence. }
      destruct (IH fuel pre true (snd (stopInternal true x s))) as [E1 E2];
        try assumption; try lia.
      * intros y. now rewrite selects_stopInternal.
      * now rewrite stopInternal_running, Hrun, removeOne_app.
      * unfold stopEach in *. cbn [fold_left]. rewrite E1, E2.
        now rewrite orb_true_r.
    + destruct (IH fuel (pre ++ [x]) b s) as [E1 E2];
        try assumption; try lia.
      * now rewrite <- app_assoc.
      * intros y Hy. apply in_app_or in Hy. destruct Hy as [Hy|[<-|[]]]; auto.
      * rewrite length_app, Nat.add_1_r in E1. rewrite E1, E2.
        cbn [negb]. rewrite <- app_assoc. now rewrite orb_false_l.
Qed.

(** [stopAll] always returns: it stops, in order, the running instances
    its condition selects, and tells whether there was one. *)
Lemma stopAll_spec ns s :
  stopAll ns s
  = Returned (existsb (selects ns s) (runningInstances s))
      (stopEach (filter (selects ns s) (runningInstances s)) s)
  /\ runningInstances (stopEach (filter (selects ns s) (runningInstances s)) s)
     = filter (fun x => negb (selects ns s x)) (runningInstances s).
Proof.
  unfold stopAll.
  destruct (Nat.ltb_spec 0 (List.length (runningInstances s))) as [Hpos|Hzero].
  - destruct (stopAllLoop_spec ns (selects ns s) (runningInstances s)
                (S (List.length (runningInstances s))) [] false s)
      as [E1 E2]; auto.
    intros y [].
  - destruct (runningInstances s) as [|x l] eqn:Hrun; [|simpl in Hzero; lia].
    simpl. split; [reflexivity | assumption].
Qed.

(** *** Completion callbacks of a stop *)

Lemma firedFor_app r (a b : list Effect) :
  firedFor r (a ++ b) = firedFor r a ++ firedFor r b.
Proof. unfold firedFor. apply flat_map_app. Qed.

Lemma timersSet_app (a b : list Effect) :
  timersSet (a ++ b) = timersSet a ++ timersSet b.
Proof. unfold timersSet. apply flat_map_app. Qed.

Lemma stopInternal_fired b r s x :
  firedFor x (effects (snd (stopInternal b r s)))
  = firedFor x (effects s)
    ++ (if Nat.eqb r x
        then match timer (store s r) with
             | Some _ => [negb b]
             | None => []
             end
        else []).
Proof.
  rewrite stopInternal_effects, !firedFor_app.
  f_equal.
  destruct (interruptListenersAttached (store s r)), (timer (store s r));
    cbn; destruct (Nat.eqb r x); reflexivity.
Qed.

Lemma stopInternal_timersSet b r s :
  timersSet (effects (snd (stopInternal b r s))) = timersSet (effects s).
Proof.
  rewrite stopInternal_effects, !timersSet_app.
  destruct (interruptListenersAttached (store s r)), (timer (store s r));
    cbn; now rewrite app_nil_r.
Qed.

(** *** Stopping several instances *)

Lemma stopEach_cons x l s :
  stopEach (x :: l) s = stopEach l (snd (stopInternal true x s)).
Proof. reflexivity. Qed.

Lemma stopEach_config l : forall s, config (stopEach l s) = config s.
Proof.
  induction l as [|x l IH]; intros s; [reflexivity|].
  now rewrite stopEach_cons, IH, stopInternal_config.
Qed.

Lemma stopEach_devMode l : forall s, devMode (stopEach l s) = devMode s.
Proof.
  induction l as [|x l IH]; intros s; [reflexivity|].
  now rewrite stopEach_cons, IH, stopInternal_devMode.
Qed.

Lemma stopEach_document l : forall s, document (stopEach l s) = document s.
Proof.
  induction l as [|x l IH]; intros s; [reflexivity|].
  now rewrite stopEach_cons, IH, stopInternal_document.
Qed.

Lemma stopEach_nextTimer l : forall s, nextTimer (stopEach l s) = nextTimer s.
Proof.
  induction l as [|x l IH]; intros s; [reflexivity|].
  now rewrite stopEach_cons, IH, stopInternal_nextTimer.
Qed.

Lemma stopEach_timersSet l :
  forall s, timersSet (effects (stopEach l s)) = timersSet (effects s).
Proof.
  induction l as [|x l IH]; intros s; [reflexivity|].
  now rewrite stopEach_cons, IH, stopInternal_timersSet.
Qed.

Lemma stopEach_other l r :
  forall s, ~ In r l -> store (stopEach l s) r = store s r.
Proof.
  induction l as [|x l IH]; intros s H; [reflexivity|].
  rewrite stopEach_cons, IH by (intros Hin; apply H; now right).
  apply stopInternal_other. intros ->. apply H. now left.
Qed.

Lemma stopped_twice (i : PageScrollInstance) :
  set_timer None (set_interruptListenersAttached false
    (set_timer None (set_interruptListenersAttached false i)))
  = set_timer None (set_interruptListenersAttached false i).
Proof. reflexivity. Qed.

Lemma stopEach_self l r :
  forall s, In r l ->
    store (stopEach l s) r
    = set_timer None (set_interruptListenersAttached false (store s r)).
Proof.
  induction l as [|x l IH]; intros s H; [destruct H|].
  rewrite stopEach_cons.
  destruct (in_dec Nat.eq_dec r l) as [Hin|Hout].
  - rewrite IH by assumption.
    destruct (Nat.eq_dec r x) as [->|Hne].
    + now rewrite stopInternal_self, stopped_twice.
    + now rewrite stopInternal_other.
  - rewrite stopEach_other by assumption.
    destruct H as [->|H]; [|contradiction].
    apply stopInternal_self.
Qed.

Lemma stopEach_options l r :
  forall s, pageScrollOptions (store (stopEach l s) r)
            = pageScrollOptions (store s r).
Proof.
  induction l as [|x l IH]; intros s; [reflexivity|].
  now rewrite stopEach_cons, IH, stopInternal_options.
Qed.

Lemma existsb_eqb_In r l : existsb (Nat.eqb r) l = true <-> In r l.
Proof.
  rewrite existsb_exists. split.
  - intros [x [Hin Hx]]. apply Nat.eqb_eq in Hx. now subst.
  - intros H. exists r. split; [assumption | apply Nat.eqb_refl].
Qed.

(** Each stopped instance that had a timer receives one callback, with
    success [false]; no other callback is delivered. *)
Lemma stopEach_fired l r :
  forall s,
    firedFor r (effects (stopEach l s))
    = firedFor r (effects s)
      ++ (if existsb (Nat.eqb r) l
          then match timer (store s r) with
               | Some _ => [false]
               | None => []
               end
          else []).
Proof.
  induction l as [|x l IH]; intros s.
  - simpl. now rewrite app_nil_r.
  - rewrite stopEach_cons, IH, stopInternal_fired, <- app_assoc. f_equal.
    cbn [existsb]. rewrite (Nat.eqb_sym r x).
    destruct (Nat.eqb_spec x r) as [->|Hne].
    + rewrite stopInternal_timer. cbn [orb negb].
      destruct (existsb (Nat.eqb r) l); now rewrite app_nil_r.
    + rewrite stopInternal_other by congruence. reflexivity.
Qed.

Lemma stopEach_intervals_incl l e :
  forall s, In e (intervals (stopEach l s)) -> In e (intervals s).
Proof.
  induction l as [|x l IH]; intros s H; [assumption|].
  rewrite stopEach_cons in H. apply IH in H.
  rewrite stopInternal_intervals in H.
  destruct (timer (store s x)); [|assumption].
  apply filter_In in H. tauto.
Qed.

Lemma stopEach_intervals_keep l h r :
  forall s,
    In (h, r) (intervals s) ->
    (forall y, In y l -> timer (store s y) <> Some h) ->
    In (h, r) (intervals (stopEach l s)).
Proof.
  induction l as [|x l IH]; intros s Hin Hl; [assumption|].
  rewrite stopEach_cons. apply IH.
  - rewrite stopInternal_intervals.
    destruct (timer (store s x)) as [h'|] eqn:Hx; [|assumption].
    apply filter_In. split; [assumption|]. cbn [fst].
    destruct (Pos.eqb_spec h h') as [->|_]; [|reflexivity].
    exfalso. apply (Hl x); [now left | assumption].
  - intros y Hy.
    destruct (Nat.eq_dec y x) as [->|Hne].
    + rewrite stopInternal_timer. discriminate.
    + rewrite stopInternal_other by assumption. apply Hl. now right.
Qed.

Lemma stopEach_intervals_cleared l h y :
  forall s,
    In y l -> timer (store s y) = Some h ->
    forall r, ~ In (h, r) (intervals (stopEach l s)).
Proof.
  induction l as [|x l IH]; intros s Hy Ht r Hin; [destruct Hy|].
  rewrite stopEach_cons in Hin.
  destruct (Nat.eq_dec y x) as [->|Hne].
  - apply stopEach_intervals_incl in Hin.
    rewrite stopInternal_intervals, Ht in Hin.
    apply filter_In in Hin. destruct Hin as [_ Hin]. cbn [fst] in Hin.
    now rewrite Pos.eqb_refl in Hin.
  - destruct Hy as [->|Hy]; [congruence|].
    revert Hin. apply IH; [assumption|].
    now rewrite stopInternal_other.
Qed.

(** *** Consistency is kept *)

Lemma namespaceOf_options s s' r :
  pageScrollOptions (store s' r) = pageScrollOptions (store s r) ->
  namespaceOf s' r = namespaceOf s r.
Proof. unfold namespaceOf. now intros ->. Qed.

(** A change that leaves the configuration, the running set, the timers,
    the two run-state fields of every instance and the options of the
    running instances alone keeps the system consistent. *)
Lemma consistent_frame s s' :
  Consistent s ->
  config s' = config s ->
  runningInstances s' = runningInstances s ->
  intervals s' = intervals s ->
  nextTimer s' = nextTimer s ->
  (forall r, timer (store s' r) = timer (store s r)) ->
  (forall r, interruptListenersAttached (store s' r)
             = interruptListenersAttached (store s r)) ->
  (forall r, In r (runningInstances s) ->
             pageScrollOptions (store s' r) = pageScrollOptions (store s r)) ->
  Consistent s'.
Proof.
  intros [C1 C2 C3 C4 C5 C6 C7 C8] Hc Hr Hi Hn Ht Ha Ho.
  constructor; rewrite ?Hr, ?Hi, ?Hn, ?Hc.
  - assumption.
  - intros r. rewrite Ht. apply C2.
  - intros r. rewrite Ht, Ha. apply C3.
  - intros h r. rewrite Ht. apply C4.
  - assumption.
  - assumption.
  - intros r Hin. rewrite (Ho r Hin). now apply C7.
  - erewrite map_ext_in; [exact C8|].
    intros r Hin. apply namespaceOf_options. now apply Ho.
Qed.

Lemma stopInternal_consistent b r s :
  Consistent s -> Consistent (snd (stopInternal b r s)).
Proof.
  intros [C1 C2 C3 C4 C5 C6 C7 C8].
  destruct (removeOne_NoDup r _ C1) as [N1 N2].
  constructor; rewrite ?stopInternal_running, ?stopInternal_config,
    ?stopInternal_nextTimer.
  - assumption.
  - intros x. destruct (Nat.eq_dec x r) as [->|Hne].
    + rewrite stopInternal_timer. split; [contradiction | congruence].
    + rewrite stopInternal_other by assumption. rewrite <- C2. split.
      * apply removeOne_incl.
      * now apply removeOne_other.
  - intros x. destruct (Nat.eq_dec x r) as [->|Hne].
    + rewrite stopInternal_attached. discriminate.
    + rewrite stopInternal_other by assumption. apply C3.
  - intros h x. rewrite stopInternal_intervals.
    destruct (Nat.eq_dec x r) as [->|Hne].
    + rewrite stopInternal_timer.
      split; [|discriminate]. intros Hin. exfalso.
      destruct (timer (store s r)) as [h0|] eqn:Ht.
      * apply filter_In in Hin. destruct Hin as [Hin Hh]. cbn [fst] in Hh.
        apply C4 in Hin. rewrite Ht in Hin. injection Hin as ->.
        now rewrite Pos.eqb_refl in Hh.
      * apply C4 in Hin. congruence.
    + rewrite stopInternal_other by assumption.
      destruct (timer (store s r)) as [h0|] eqn:Ht; [|apply C4].
      rewrite filter_In, C4. cbn [fst]. split; [tauto|].
      intros Hx. split; [assumption|].
      destruct (Pos.eqb_spec h h0) as [->|_]; [|reflexivity].
      exfalso. apply Hne. apply (C6 h0); now apply C4.
  - intros h x Hin. apply (C5 h x).
    rewrite stopInternal_intervals in Hin.
    destruct (timer (store s r)); [|assumption].
    apply filter_In in Hin. tauto.
  - intros h x y Hx Hy. rewrite stopInternal_intervals in Hx, Hy.
    destruct (timer (store s r)).
    + apply filter_In in Hx, Hy. apply (C6 h); tauto.
    + now apply (C6 h).
  - intros x Hin. rewrite stopInternal_options. apply C7.
    eapply removeOne_incl; eassumption.
  - erewrite map_ext.
    + apply removeOne_map_NoDup. exact C8.
    + intros x. apply namespaceOf_options, stopInternal_options.
Qed.

Lemma stopEach_consistent l :
  forall s, Consistent s -> Consistent (stopEach l s).
Proof.
  induction l as [|x l IH]; intros s H; [assumption|].
  rewrite stopEach_cons. now apply IH, stopInternal_consistent.
Qed.

(** *** The phases of start *)

Lemma Retunes_refl r s : Retunes r s s.
Proof. constructor; reflexivity. Qed.

Lemma Retunes_trans r s1 s2 s3 :
  Retunes r s1 s2 -> Retunes r s2 s3 -> Retunes r s1 s3.
Proof.
  intros [A1 A2 A3 A4 A5 A6 A7 A8 A9 A10 A11] [B1 B2 B3 B4 B5 B6 B7 B8 B9 B10 B11].
  constructor; try congruence.
  intros x Hx. now rewrite B8, A8.
Qed.

(** Assigning one of the computed parameters. *)
Lemma update_retunes r f s :
  (forall i, pageScrollOptions (f i) = pageScrollOptions i) ->
  (forall i, timer (f i) = timer i) ->
  (forall i, interruptListenersAttached (f i) = interruptListenersAttached i) ->
  Retunes r s (update r f s).
Proof.
  intros Ho Ht Ha. constructor; norm; rewrite ?Nat.eqb_refl; auto.
  intros x Hx. apply Nat.eqb_neq in Hx. now rewrite Hx.
Qed.

Lemma probeStartScrollPosition_retunes r views :
  forall found s, Retunes r s (probeStartScrollPosition r views found s).
Proof.
  induction views as [|v views IH]; intros found s; [apply Retunes_refl|].
  destruct v as [| |n]; cbn [probeStartScrollPosition]; try apply IH.
  destruct (negb found && Js.truthy _); [|apply IH].
  eapply Retunes_trans; [|apply IH].
  now apply update_retunes.
Qed.

Lemma measure_retunes r views s : Retunes r s (measure r views s).
Proof.
  unfold measure.
  eapply Retunes_trans; [|now apply update_retunes].
  eapply Retunes_trans; [|now apply update_retunes].
  eapply Retunes_trans; [|apply probeStartScrollPosition_retunes].
  now apply update_retunes.
Qed.

Lemma computeExecutionDuration_retunes r s :
  Retunes r s (computeExecutionDuration r s).
Proof.
  unfold computeExecutionDuration.
  destruct (Js.read (speed _)); try now apply update_retunes.
  destruct (Js.read (duration _)); try now apply update_retunes.
  all: eapply Retunes_trans; now apply update_retunes.
Qed.

Lemma retunes_consistent r s s' : Retunes r s s' -> Consistent s -> Consistent s'.
Proof.
  intros [A1 A2 A3 A4 A5 A6 A7 A8 A9 A10 A11] H.
  apply (consistent_frame s s' H); try assumption.
  - intros x. destruct (Nat.eq_dec x r) as [->|Hne]; [assumption|].
    now rewrite A8.
  - intros x. destruct (Nat.eq_dec x r) as [->|Hne]; [assumption|].
    now rewrite A8.
  - intros x _. destruct (Nat.eq_dec x r) as [->|Hne]; [assumption|].
    now rewrite A8.
Qed.

Lemma mergeOptions_consistent r s : Consistent s -> Consistent (mergeOptions r s).
Proof.
  intros H. apply (consistent_frame s _ H); try reflexivity.
  - intros x. unfold mergeOptions. norm. now destruct (Nat.eqb x r).
  - intros x. unfold mergeOptions. norm. now destruct (Nat.eqb x r).
  - intros x Hin. unfold mergeOptions. norm.
    destruct (Nat.eqb_spec x r) as [->|_]; [|reflexivity].
    norm. now apply (running_merged H).
Qed.

Lemma log_frame msg s :
  config (log msg s) = config s /\
  runningInstances (log msg s) = runningInstances s /\
  store (log msg s) = store s /\
  intervals (log msg s) = intervals s /\
  nextTimer (log msg s) = nextTimer s /\
  document (log msg s) = document s /\
  effects (log msg s)
  = effects s ++ (if logs s then [ConsoleLog msg] else []).
Proof.
  unfold log. destruct (logs s); norm; rewrite ?app_nil_r; repeat split.
Qed.

Lemma warn_frame msg s :
  config (warn msg s) = config s /\
  runningInstances (warn msg s) = runningInstances s /\
  store (warn msg s) = store s /\
  intervals (warn msg s) = intervals s /\
  nextTimer (warn msg s) = nextTimer s /\
  document (warn msg s) = document s /\
  effects (warn msg s)
  = effects s ++ (if logs s then [ConsoleWarn msg] else []).
Proof.
  unfold warn. destruct (logs s); norm; rewrite ?app_nil_r; repeat split.
Qed.

Lemma jump_frame allReady r s :
  config (jump allReady r s) = config s /\
  runningInstances (jump allReady r s) = runningInstances s /\
  store (jump allReady r s) = store s /\
  intervals (jump allReady r s) = intervals s /\
  nextTimer (jump allReady r s) = nextTimer s /\
  document (jump allReady r s)
  = snd (setScrollPosition r (store s r) (targetScrollPosition (store s r))
           (document s)) /\
  exists msg,
    effects (jump allReady r s)
    = effects s ++ (if logs s then [ConsoleLog msg] else []) ++ [Fired r true].
Proof.
  unfold jump.
  set (msg := if allReady then _ else _).
  destruct (log_frame msg s) as (L1 & L2 & L3 & L4 & L5 & L6 & L7).
  norm. rewrite L1, L2, L3, L4, L5, L6, L7.
  repeat split. exists msg. now rewrite <- app_assoc.
Qed.

Lemma schedule_frame now r s :
  config (schedule now r s) = config s /\
  runningInstances (schedule now r s) = runningInstances s ++ [r] /\
  intervals (schedule now r s) = (nextTimer s, r) :: intervals s /\
  nextTimer (schedule now r s) = Pos.succ (nextTimer s) /\
  document (schedule now r s) = document s /\
  (forall x, x <> r -> store (schedule now r s) x = store s x) /\
  pageScrollOptions (store (schedule now r s) r) = pageScrollOptions (store s r) /\
  timer (store (schedule now r s) r) = Some (nextTimer s) /\
  executionDuration (store (schedule now r s) r) = executionDuration (store s r) /\
  effects (schedule now r s)
  = effects s
    ++ (if Js.readBool (interruptible (pageScrollOptions (store s r)))
        then [ListenersAttached r] else [])
    ++ [IntervalSet (nextTimer s) r (Js.readNumber (_interval (config s)))].
Proof.
  unfold schedule.
  destruct (Js.readBool (interruptible (pageScrollOptions (store s r))));
    norm; rewrite ?Nat.eqb_refl; norm; rewrite <- ?app_assoc;
    repeat split; try reflexivity.
  all: intros x Hx; apply Nat.eqb_neq in Hx; now rewrite Hx.
Qed.

(** Scheduling an instance that is idle keeps the system consistent, when
    no running instance carries its namespace. *)
Lemma schedule_consistent now r s :
  Consistent s ->
  ~ In r (runningInstances s) ->
  spread (config s) (pageScrollOptions (store s r)) = pageScrollOptions (store s r) ->
  ~ In (namespaceOf s r) (map (namespaceOf s) (runningInstances s)) ->
  Consistent (schedule now r s).
Proof.
  intros H Hr Hm Hns.
  destruct H as [C1 C2 C3 C4 C5 C6 C7 C8].
  assert (Ht : timer (store s r) = None).
  { destruct (timer (store s r)) eqn:E; [|reflexivity].
    exfalso. apply Hr, C2. congruence. }
  destruct (schedule_frame now r s)
    as (F1 & F2 & F3 & F4 & F5 & F6 & F7 & F8 & F9 & F10).
  constructor; rewrite ?F1, ?F2, ?F3, ?F4.
  - apply NoDup_app; [assumption | repeat constructor; intros [] |].
    intros x Hx [<-|[]]. contradiction.
  - intros x. rewrite in_app_iff. destruct (Nat.eq_dec x r) as [->|Hne].
    + rewrite F8. split; [discriminate | intros _; right; now left].
    + rewrite F6 by assumption. rewrite <- C2. split; [|tauto].
      intros [Hx|[Hx|[]]]; [assumption | congruence].
  - intros x. destruct (Nat.eq_dec x r) as [->|Hne].
    + rewrite F8. discriminate.
    + rewrite F6 by assumption. apply C3.
  - intros h x. cbn [In]. destruct (Nat.eq_dec x r) as [->|Hne].
    + rewrite F8. split.
      * intros [E|Hin]; [congruence|]. apply C4 in Hin. congruence.
      * intros E. left. congruence.
    + rewrite F6 by assumption. rewrite <- C4. split; [|tauto].
      intros [E|Hin]; [congruence | assumption].
  - intros h x [E|Hin].
    + injection E as <- _. apply Pos.lt_succ_diag_r.
    + apply Pos.lt_lt_succ. eapply C5; eassumption.
  - intros h x y [Ex|Hx] [Ey|Hy].
    + congruence.
    + injection Ex as <- _. apply C5 in Hy. lia.
    + injection Ey as <- _. apply C5 in Hx. lia.
    + eapply C6; eassumption.
  - intros x Hx. apply in_app_or in Hx. destruct (Nat.eq_dec x r) as [->|Hne].
    + now rewrite F7.
    + rewrite F6 by assumption. apply C7.
      destruct Hx as [Hx|[Hx|[]]]; [assumption | congruence].
  - rewrite map_app. cbn [map].
    assert (E : forall x, namespaceOf (schedule now r s) x = namespaceOf s x).
    { intros x. apply namespaceOf_options.
      destruct (Nat.eq_dec x r) as [->|Hne]; [assumption|].
      now rewrite F6. }
    rewrite E. erewrite map_ext by exact E.
    apply NoDup_app; [assumption | repeat constructor; intros [] |].
    intros x Hx [<-|[]]. contradiction.
Qed.

(** *** start as a whole *)

Lemma stopAll_returns ns s : exists b s', stopAll ns s = Returned b s'.
Proof. destruct (stopAll_spec ns s) as [E _]. eauto. Qed.

Lemma stopAll_consistent ns s b s' :
  Consistent s -> stopAll ns s = Returned b s' -> Consistent s'.
Proof.
  intros H E. destruct (stopAll_spec ns s) as [E' _].
  rewrite E' in E. injection E as _ <-. now apply stopEach_consistent.
Qed.

Lemma start_proceed now r s b s2 :
  stopAll (namespaceOf (mergeOptions r s) r) (mergeOptions r s) = Returned b s2 ->
  start now r s = proceed now r s2.
Proof.
  intros E. unfold start, namespaceOf in *. cbv zeta. now rewrite E.
Qed.

Lemma selects_own s r : selects (namespaceOf s r) s r = true.
Proof.
  unfold selects, namespaceOf. rewrite strictEqString_refl. apply orb_true_r.
Qed.

Lemma selects_falsy ns s r : Js.truthyString ns = false -> selects ns s r = true.
Proof. unfold selects. now intros ->. Qed.

Lemma selects_truthy ns s r :
  Js.truthyString ns = true ->
  selects ns s r = Js.strictEqString (namespaceOf s r) ns.
Proof. unfold selects, namespaceOf. now intros ->. Qed.

(** After the [stopAll] of [start], the instance itself is idle and no
    running instance carries its namespace. *)
Lemma start_cleared r s b s2 :
  Consistent s ->
  stopAll (namespaceOf (mergeOptions r s) r) (mergeOptions r s) = Returned b s2 ->
  Consistent s2 /\
  ~ In r (runningInstances s2) /\
  timer (store s2 r) = None /\
  interruptListenersAttached (store s2 r) = false /\
  spread (config s2) (pageScrollOptions (store s2 r)) = pageScrollOptions (store s2 r) /\
  ~ In (namespaceOf s2 r) (map (namespaceOf s2) (runningInstances s2)).
Proof.
  intros H E.
  set (s1 := mergeOptions r s) in *.
  assert (H1 : Consistent s1) by now apply mergeOptions_consistent.
  assert (H2 : Consistent s2) by (eapply stopAll_consistent; eassumption).
  destruct (stopAll_spec (namespaceOf s1 r) s1) as [E1 E2].
  rewrite E1 in E. injection E as _ E.
  assert (E3 : runningInstances s2
               = filter (fun x => negb (selects (namespaceOf s1 r) s1 x))
                   (runningInstances s1)).
  { rewrite <- E. exact E2. }
  clear E2. rename E3 into E2.
  assert (Ho : forall x, pageScrollOptions (store s2 x) = pageScrollOptions (store s1 x)).
  { intros x. rewrite <- E. apply stopEach_options. }
  assert (Hr : ~ In r (runningInstances s2)).
  { rewrite E2. intros Hin. apply filter_In in Hin.
    rewrite selects_own in Hin. destruct Hin as [_ Hin]. discriminate. }
  assert (Ht : timer (store s2 r) = None).
  { destruct (timer (store s2 r)) eqn:Et; [|reflexivity].
    exfalso. apply Hr. apply (running_timer H2). congruence. }
  refine (conj H2 (conj Hr (conj Ht (conj _ (conj _ _))))).
  - destruct (interruptListenersAttached (store s2 r)) eqn:Ea; [|reflexivity].
    exfalso. now apply (attached_timer H2) in Ea.
  - rewrite Ho. replace (config s2) with (config s).
    + unfold s1, mergeOptions. norm. rewrite Nat.eqb_refl. norm.
      apply spread_idempotent.
    + rewrite <- E, stopEach_config. reflexivity.
  - intros Hin. apply in_map_iff in Hin. destruct Hin as [x [Hx Hin]].
    rewrite E2 in Hin. apply filter_In in Hin. destruct Hin as [_ Hin].
    apply negb_true_iff in Hin. unfold selects in Hin.
    apply orb_false_iff in Hin. destruct Hin as [_ Hin].
    unfold namespaceOf in Hx. rewrite !Ho in Hx. fold (namespaceOf s1 r) in Hx.
    rewrite Hx, strictEqString_refl in Hin. discriminate.
Qed.

Lemma emit_consistent e s : Consistent s -> Consistent (emit e s).
Proof. intros H. now apply (consistent_frame s _ H). Qed.

Lemma log_consistent msg s : Consistent s -> Consistent (log msg s).
Proof. unfold log. destruct (logs s); [apply emit_consistent | auto]. Qed.

Lemma warn_consistent msg s : Consistent s -> Consistent (warn msg s).
Proof. unfold warn. destruct (logs s); [apply emit_consistent | auto]. Qed.

Lemma with_document_consistent w s : Consistent s -> Consistent (with_document w s).
Proof. intros H. now apply (consistent_frame s _ H). Qed.

Lemma jump_consistent allReady r s : Consistent s -> Consistent (jump allReady r s).
Proof.
  intros H. unfold jump. unfold fireEvent.
  now apply emit_consistent, with_document_consistent, log_consistent.
Qed.

Lemma proceed_consistent now r s s' :
  Consistent s ->
  ~ In r (runningInstances s) ->
  spread (config s) (pageScrollOptions (store s r)) = pageScrollOptions (store s r) ->
  ~ In (namespaceOf s r) (map (namespaceOf s) (runningInstances s)) ->
  finalState (proceed now r s) = Some s' ->
  Consistent s'.
Proof.
  intros H Hr Hm Hns. unfold proceed.
  destruct (Js.read (scrollViews _)) as [| |[|v views]];
    try (cbn [finalState]; intros E; injection E as <-;
         now auto using warn_consistent).
  set (s3 := measure r (v :: views) s).
  assert (R3 : Retunes r s s3) by apply measure_retunes.
  assert (H3 : Consistent s3) by (eapply retunes_consistent; eassumption).
  destruct (Js.isNaN _).
  { cbn [finalState]. intros E; injection E as <-. unfold fireEvent.
    now apply emit_consistent, log_consistent. }
  set (s4 := computeExecutionDuration r s3).
  assert (R4 : Retunes r s s4).
  { eapply Retunes_trans; [exact R3 | apply computeExecutionDuration_retunes]. }
  assert (H4 : Consistent s4) by (eapply retunes_consistent; eassumption).
  destruct (_ || _); cbn [finalState]; intros E; injection E as <-.
  - now apply jump_consistent.
  - destruct R4 as [A1 A2 A3 A4 A5 A6 A7 A8 A9 A10 A11].
    assert (En : forall x, namespaceOf s4 x = namespaceOf s x).
    { intros x. apply namespaceOf_options.
      destruct (Nat.eq_dec x r) as [->|Hne]; [assumption | now rewrite A8]. }
    apply schedule_consistent; try assumption.
    + now rewrite A2.
    + now rewrite A1, A9.
    + rewrite A2, En. erewrite map_ext by exact En. assumption.
Qed.

Lemma start_consistent now r s s' :
  Consistent s -> finalState (start now r s) = Some s' -> Consistent s'.
Proof.
  intros H E.
  destruct (stopAll_returns (namespaceOf (mergeOptions r s) r) (mergeOptions r s))
    as [b [s2 E2]].
  rewrite (start_proceed now r s b s2 E2) in E.
  destruct (start_cleared r s b s2 H E2) as (C & Hr & _ & _ & Hm & Hns).
  eapply proceed_consistent; eassumption.
Qed.

(** *** Ticks, events and the reachable states *)

Lemma tick_consistent now r s s' :
  Consistent s -> finalState (tick now r s) = Some s' -> Consistent s'.
Proof.
  intros H. unfold tick.
  destruct (nextPosition now (store s r)) as [[p stopNow]|].
  - cbv zeta.
    destruct (if negb _ then true else stopNow);
      cbn [finalState]; intros E; injection E as <-.
    + now apply stopInternal_consistent, with_document_consistent.
    + now apply with_document_consistent.
  - cbn [finalState]. intros E; injection E as <-. assumption.
Qed.

Lemma report_consistent event r s s' :
  Consistent s -> finalState (report event r s) = Some s' -> Consistent s'.
Proof.
  intros H. unfold report.
  destruct (negb _); [cbn; intros E; injection E as <-; assumption|].
  destruct (shouldStop event r s) as [[|]|];
    try (cbn; intros E; injection E as <-; assumption).
  destruct (stopAll_returns (Js.read (namespace (pageScrollOptions (store s r)))) s)
    as [b [s2 E2]].
  rewrite E2. cbn. intros E; injection E as <-.
  eapply stopAll_consistent; eassumption.
Qed.

Lemma initial_consistent s : Initial s -> Consistent s.
Proof.
  intros (Hr & Hi & Hs).
  constructor; rewrite ?Hr, ?Hi; cbn.
  - constructor.
  - intros r. destruct (Hs r) as [Ht _]. rewrite Ht. split; [tauto | congruence].
  - intros r. destruct (Hs r) as [_ Ha]. rewrite Ha. discriminate.
  - intros h r. destruct (Hs r) as [Ht _]. rewrite Ht. split; [tauto | discriminate].
  - intros h r [].
  - intros h r r' [].
  - intros r [].
  - constructor.
Qed.

Lemma step_consistent s s' : Consistent s -> Step s s' -> Consistent s'.
Proof.
  intros H Hstep. revert H.
  destruct Hstep as [now r s0 s1 E | r s0 | ns s0 s1 E | now h r s0 s1 _ E
                    | event r s0 s1 _ E | w s0]; intros H.
  - eapply start_consistent; eassumption.
  - now apply stopInternal_consistent.
  - destruct (stopAll_returns ns s0) as [b [s2 E2]].
    rewrite E2 in E. cbn in E. injection E as <-.
    eapply stopAll_consistent; eassumption.
  - eapply tick_consistent; eassumption.
  - eapply report_consistent; eassumption.
  - now apply with_document_consistent.
Qed.

(** Every state the system reaches is consistent. *)
Lemma reachable_consistent s : Reachable s -> Consistent s.
Proof.
  induction 1 as [s H | s s' _ IH Hstep].
  - now apply initial_consistent.
  - eapply step_consistent; eassumption.
Qed.

(* ================================================================== *)
(** ** The tick handler and the public stop *)
(* ================================================================== *)

Lemma nextPosition_at_end now (i : PageScrollInstance) :
  PrimFloat.leb (endTime i) now = true ->
  nextPosition now i = Some (targetScrollPosition i, true).
Proof. unfold nextPosition. now intros ->. Qed.

(** A tick whose write fails for every scroll view runs the stop sequence
    as not interrupted; a tick before the end time whose write works only
    moves the scroll views. *)
Lemma tick_write now r s p stopNow :
  nextPosition now (store s r) = Some (p, stopNow) ->
  let written := setScrollPosition r (store s r) p (document s) in
  tick now r s
  = if negb (fst written) || stopNow
    then Returned tt (snd (stopInternal false r (with_document (snd written) s)))
    else Returned tt (with_document (snd written) s).
Proof.
  intros E. unfold tick. rewrite E. cbv zeta.
  destruct (fst (setScrollPosition r (store s r) p (document s))); reflexivity.
Qed.

(** C1: in the tick handler, whenever the animation is marked for stop ---
    because the current time has reached the end time, or because the new
    position could not be applied to any scroll view --- the stop sequence
    is run with [interrupted = false]; the completion callback of the
    running instance is therefore delivered with success [true] in both
    cases, the write failure included. *)
Theorem tick_marked_for_stop_reports_success now r s :
  (PrimFloat.leb (endTime (store s r)) now = true
   \/ exists p, nextPosition now (store s r) = Some (p, false)
                /\ fst (setScrollPosition r (store s r) p (document s)) = false) ->
  exists p stopNow,
    nextPosition now (store s r) = Some (p, stopNow) /\
    let s1 :=
      with_document (snd (setScrollPosition r (store s r) p (document s))) s in
    tick now r s = Returned tt (snd (stopInternal false r s1)) /\
    forall h, timer (store s r) = Some h ->
      firedFor r (effects (snd (stopInternal false r s1)))
      = firedFor r (effects s) ++ [true].
Proof.
  intros H.
  assert (E : exists p stopNow,
             nextPosition now (store s r) = Some (p, stopNow) /\
             negb (fst (setScrollPosition r (store s r) p (document s)))
             || stopNow = true).
  { destruct H as [Hend | [p [Hp Hw]]].
    - exists (targetScrollPosition (store s r)), true.
      split; [now apply nextPosition_at_end | apply orb_true_r].
    - exists p, false. split; [assumption|]. now rewrite Hw. }
  destruct E as (p & stopNow & Hp & Hstop).
  exists p, stopNow. split; [assumption|]. cbv zeta. split.
  - rewrite (tick_write now r s p stopNow Hp). cbv zeta. now rewrite Hstop.
  - intros h Ht. rewrite stopInternal_fired, Nat.eqb_refl. norm.
    now rewrite Ht.
Qed.

(** C7: [stop] on an instance that is not running returns [false] and
    changes nothing; on a running instance it clears the timer, delivers
    the completion callback with success [false] and returns [true]; a
    second [stop] on the same instance returns [false]. *)
Theorem stop_running_once r s :
  (Reachable s -> timer (store s r) = None -> stop r s = (false, s)) /\
  (forall h, timer (store s r) = Some h ->
     fst (stop r s) = true /\
     timer (store (snd (stop r s)) r) = None /\
     (forall x, ~ In (h, x) (intervals (snd (stop r s)))) /\
     In (IntervalCleared h) (effects (snd (stop r s))) /\
     firedFor r (effects (snd (stop r s))) = firedFor r (effects s) ++ [false]) /\
  fst (stop r (snd (stop r s))) = false.
Proof.
  unfold stop. repeat split.
  - intros Hreach Ht. apply reachable_consistent in Hreach.
    apply stopInternal_idle; [assumption | |].
    + intros Hin. now apply (running_timer Hreach) in Hin.
    + destruct (interruptListenersAttached (store s r)) eqn:Ha; [|reflexivity].
      now apply (attached_timer Hreach) in Ha.
  - now rewrite stopInternal_fst, H.
  - apply stopInternal_timer.
  - intros x Hin. rewrite stopInternal_intervals, H in Hin.
    apply filter_In in Hin. destruct Hin as [_ Hin]. cbn [fst] in Hin.
    now rewrite Pos.eqb_refl in Hin.
  - rewrite stopInternal_effects, H.
    apply in_or_app. right. apply in_or_app. right. now left.
  - now rewrite stopInternal_fired, Nat.eqb_refl, H.
  - now rewrite stopInternal_fst, stopInternal_timer.
Qed.

(* ================================================================== *)
(** ** The paths of start *)
(* ================================================================== *)

Lemma proceed_no_views now r s :
  Js.read (scrollViews (pageScrollOptions (store s r))) = Js.null
  \/ Js.read (scrollViews (pageScrollOptions (store s r))) = Js.val [] ->
  proceed now r s
  = Returned tt
      (warn "No scrollViews specified, this ngx-page-scroll does not know which DOM elements to scroll" s).
Proof. unfold proceed. now intros [-> | ->]. Qed.

Lemma proceed_unresolved now r s v views :
  Js.read (scrollViews (pageScrollOptions (store s r))) = Js.val (v :: views) ->
  Js.isNaN (distanceToScroll (store (measure r (v :: views) s) r)) = true ->
  proceed now r s
  = Returned tt
      (fireEvent r false
         (log "Scrolling not possible, as we can't find the specified target"
            (measure r (v :: views) s))).
Proof. unfold proceed. now intros -> ->. Qed.

Lemma proceed_jump now r s v views :
  Js.read (scrollViews (pageScrollOptions (store s r))) = Js.val (v :: views) ->
  Js.isNaN (distanceToScroll (store (measure r (v :: views) s) r)) = false ->
  allReadyAtDestination r (measure r (v :: views) s)
  || tooShortInterval r (computeExecutionDuration r (measure r (v :: views) s))
  = true ->
  proceed now r s
  = Returned tt
      (jump (allReadyAtDestination r (measure r (v :: views) s)) r
         (computeExecutionDuration r (measure r (v :: views) s))).
Proof. unfold proceed. now intros -> -> ->. Qed.

Lemma proceed_schedule now r s v views :
  Js.read (scrollViews (pageScrollOptions (store s r))) = Js.val (v :: views) ->
  Js.isNaN (distanceToScroll (store (measure r (v :: views) s) r)) = false ->
  allReadyAtDestination r (measure r (v :: views) s)
  || tooShortInterval r (computeExecutionDuration r (measure r (v :: views) s))
  = false ->
  proceed now r s
  = Returned tt
      (schedule now r (computeExecutionDuration r (measure r (v :: views) s))).
Proof. unfold proceed. now intros -> -> ->. Qed.

Lemma prepared_retunes r views s :
  Retunes r s (computeExecutionDuration r (measure r views s)).
Proof.
  eapply Retunes_trans;
    [apply measure_retunes | apply computeExecutionDuration_retunes].
Qed.

Lemma firedFor_log r msg (c : bool) :
  firedFor r (if c then [ConsoleLog msg] else []) = [].
Proof. now destruct c. Qed.

Lemma timersSet_log msg (c : bool) :
  timersSet (if c then [ConsoleLog msg] else []) = [].
Proof. now destruct c. Qed.

Lemma firedFor_own r b : firedFor r [Fired r b] = [b].
Proof. cbn. now rewrite Nat.eqb_refl. Qed.

(** What the [stopAll] of [start] leaves of the running set, the timers and
    the trace of timers set. *)
Lemma start_stopAll_frame r s b s2 :
  stopAll (namespaceOf (mergeOptions r s) r) (mergeOptions r s) = Returned b s2 ->
  runningInstances s2
  = filter (fun x => negb (selects (namespaceOf (mergeOptions r s) r)
                             (mergeOptions r s) x)) (runningInstances s) /\
  (forall e, In e (intervals s2) -> In e (intervals s)) /\
  nextTimer s2 = nextTimer s /\
  timersSet (effects s2) = timersSet (effects s) /\
  config s2 = config s /\
  document s2 = document s.
Proof.
  intros E.
  destruct (stopAll_spec (namespaceOf (mergeOptions r s) r) (mergeOptions r s))
    as [E1 E2].
  rewrite E1 in E. injection E as _ E. rewrite <- E.
  split; [exact E2|]. split; [|split; [|split; [|split]]].
  - intros e He. now apply stopEach_intervals_incl in He.
  - now rewrite stopEach_nextTimer.
  - now rewrite stopEach_timersSet.
  - now rewrite stopEach_config.
  - now rewrite stopEach_document.
Qed.

(** C4: when the distance is below the minimum scroll distance, or the
    execution duration is at most the tick interval, [start] returns having
    set the scroll position to the target position and delivered the
    completion callback with success [true]; it sets no timer and adds no
    entry to the running set. *)
Theorem start_short_circuit now r s b s2 v views :
  stopAll (namespaceOf (mergeOptions r s) r) (mergeOptions r s) = Returned b s2 ->
  Js.read (scrollViews (pageScrollOptions (store s2 r))) = Js.val (v :: views) ->
  Js.isNaN (distanceToScroll (store (measure r (v :: views) s2) r)) = false ->
  allReadyAtDestination r (measure r (v :: views) s2) = true
  \/ tooShortInterval r (computeExecutionDuration r (measure r (v :: views) s2))
     = true ->
  exists s',
    start now r s = Returned tt s' /\
    document s'
    = snd (setScrollPosition r (store s' r) (targetScrollPosition (store s' r))
             (document s2)) /\
    firedFor r (effects s') = firedFor r (effects s2) ++ [true] /\
    timersSet (effects s') = timersSet (effects s) /\
    intervals s' = intervals s2 /\
    nextTimer s' = nextTimer s /\
    runningInstances s' = runningInstances s2 /\
    (forall x, In x (runningInstances s') -> In x (runningInstances s)) /\
    (Reachable s -> ~ In r (runningInstances s') /\ timer (store s' r) = None).
Proof.
  intros E Hviews Hnan Hshort.
  set (s4 := computeExecutionDuration r (measure r (v :: views) s2)).
  set (allReady := allReadyAtDestination r (measure r (v :: views) s2)).
  exists (jump allReady r s4).
  destruct (jump_frame allReady r s4) as (J1 & J2 & J3 & J4 & J5 & J6 & msg & J7).
  destruct (prepared_retunes r (v :: views) s2)
    as [A1 A2 A3 A4 A5 A6 A7 A8 A9 A10 A11].
  fold s4 in A1, A2, A3, A4, A5, A6, A7, A8, A9, A10, A11.
  destruct (start_stopAll_frame r s b s2 E) as (S1 & S2 & S3 & S4 & S5 & S6).
  repeat split.
  - rewrite (start_proceed now r s b s2 E).
    apply proceed_jump; try assumption.
    destruct Hshort as [-> | ->]; [reflexivity | apply orb_true_r].
  - now rewrite J6, J3, A5.
  - now rewrite J7, !firedFor_app, firedFor_log, firedFor_own, A7.
  - rewrite J7, !timersSet_app, timersSet_log, A7, S4. cbn.
    now rewrite app_nil_r.
  - now rewrite J4, A3.
  - now rewrite J5, A4.
  - now rewrite J2, A2.
  - rewrite J2, A2, S1. intros x Hx. apply filter_In in Hx. tauto.
  - rewrite J2, A2. apply reachable_consistent in H.
    now destruct (start_cleared r s b s2 H E) as (_ & Hr & _).
  - rewrite J3, A10. apply reachable_consistent in H.
    now destruct (start_cleared r s b s2 H E) as (_ & _ & Ht & _).
Qed.

(** C10: on the jump path of [start] the boolean that tells whether the
    target position could be written is not looked at: the completion
    callback is delivered with success [true] and nothing is stopped even
    when the write failed for every scroll view --- whereas in the tick
    handler a write that fails for every scroll view runs the stop
    sequence, and one that works does not. *)
Theorem jump_ignores_write_result now r s b s2 v views :
  stopAll (namespaceOf (mergeOptions r s) r) (mergeOptions r s) = Returned b s2 ->
  Js.read (scrollViews (pageScrollOptions (store s2 r))) = Js.val (v :: views) ->
  Js.isNaN (distanceToScroll (store (measure r (v :: views) s2) r)) = false ->
  allReadyAtDestination r (measure r (v :: views) s2)
  || tooShortInterval r (computeExecutionDuration r (measure r (v :: views) s2))
  = true ->
  (exists s',
     start now r s = Returned tt s' /\
     (fst (setScrollPosition r (store s' r) (targetScrollPosition (store s' r))
             (document s2)) = false ->
      firedFor r (effects s') = firedFor r (effects s2) ++ [true] /\
      runningInstances s' = runningInstances s2 /\
      intervals s' = intervals s2)) /\
  (forall now' (t : System World) p,
     nextPosition now' (store t r) = Some (p, false) ->
     let written := setScrollPosition r (store t r) p (document t) in
     (fst written = false ->
      tick now' r t
      = Returned tt (snd (stopInternal false r (with_document (snd written) t)))) /\
     (fst written = true ->
      tick now' r t = Returned tt (with_document (snd written) t))).
Proof.
  intros E Hviews Hnan Hshort. split.
  - set (s4 := computeExecutionDuration r (measure r (v :: views) s2)).
    set (allReady := allReadyAtDestination r (measure r (v :: views) s2)).
    exists (jump allReady r s4).
    destruct (jump_frame allReady r s4) as (J1 & J2 & J3 & J4 & J5 & J6 & msg & J7).
    destruct (prepared_retunes r (v :: views) s2)
      as [A1 A2 A3 A4 A5 A6 A7 A8 A9 A10 A11].
    fold s4 in A1, A2, A3, A4, A5, A6, A7, A8, A9, A10, A11.
    split.
    + rewrite (start_proceed now r s b s2 E). now apply proceed_jump.
    + intros _. repeat split.
      * now rewrite J7, !firedFor_app, firedFor_log, firedFor_own, A7.
      * now rewrite J2, A2.
      * now rewrite J4, A3.
  - intros now' t p Hp written. split; intros Hw.
    + rewrite (tick_write now' r t p false Hp). cbv zeta. fold written.
      now rewrite Hw.
    + rewrite (tick_write now' r t p false Hp). cbv zeta. fold written.
      now rewrite Hw.
Qed.

(** The duration phase: the configured duration, unless it is missing and
    a speed is set. *)
Lemma computeExecutionDuration_value r s :
  executionDuration (store (computeExecutionDuration r s) r)
  = match Js.read (duration (pageScrollOptions (store s r))) with
    | Js.val d => Js.val d
    | missing =>
        match Js.read (speed (pageScrollOptions (store s r))) with
        | Js.val v =>
            Js.val (PrimFloat.mul
                      (PrimFloat.div (Js.Math_abs (distanceToScroll (store s r))) v)
                      1000%float)
        | _ => missing
        end
    end
  /\ distanceToScroll (store (computeExecutionDuration r s) r)
     = distanceToScroll (store s r).
Proof.
  unfold computeExecutionDuration. norm. rewrite Nat.eqb_refl. norm.
  destruct (Js.read (speed (pageScrollOptions (store s r)))) eqn:Hs,
    (Js.read (duration (pageScrollOptions (store s r)))) eqn:Hd;
    norm; rewrite ?Nat.eqb_refl; norm; rewrite ?Hd; split; reflexivity.
Qed.

(** C8: the execution duration [start] computes is the configured duration
    whenever one is given; it is |distance| / speed * 1000 only when no
    duration is given and a speed is; with neither it stays missing. *)
Theorem start_execution_duration now r s s' v views :
  finalState (start now r s) = Some s' ->
  Js.read (scrollViews (pageScrollOptions (store s' r))) = Js.val (v :: views) ->
  Js.isNaN (distanceToScroll (store s' r)) = false ->
  executionDuration (store s' r)
  = match Js.read (duration (pageScrollOptions (store s' r))) with
    | Js.val d => Js.val d
    | missing =>
        match Js.read (speed (pageScrollOptions (store s' r))) with
        | Js.val speed =>
            Js.val (PrimFloat.mul
                      (PrimFloat.div (Js.Math_abs (distanceToScroll (store s' r)))
                         speed)
                      1000%float)
        | _ => missing
        end
    end.
Proof.
  intros E Hviews Hnan.
  destruct (stopAll_returns (namespaceOf (mergeOptions r s) r) (mergeOptions r s))
    as [b [s2 E2]].
  rewrite (start_proceed now r s b s2 E2) in E. unfold proceed in E.
  destruct (Js.read (scrollViews (pageScrollOptions (store s2 r))))
    as [| |[|v' views']] eqn:Hv.
  - injection E as <-. congruence.
  - injection E as <-.
    destruct (warn_frame "No scrollViews specified, this ngx-page-scroll does not know which DOM elements to scroll" s2)
      as (_ & _ & W & _).
    rewrite W in Hviews. congruence.
  - injection E as <-.
    destruct (warn_frame "No scrollViews specified, this ngx-page-scroll does not know which DOM elements to scroll" s2)
      as (_ & _ & W & _).
    rewrite W in Hviews. congruence.
  - set (s3 := measure r (v' :: views') s2) in *.
    destruct (computeExecutionDuration_value r s3) as [V1 V2].
    destruct (computeExecutionDuration_retunes r s3)
      as [A1 A2 A3 A4 A5 A6 A7 A8 A9 A10 A11].
    set (s4 := computeExecutionDuration r s3) in *.
    destruct (Js.isNaN (distanceToScroll (store s3 r))) eqn:Hn.
    + injection E as <-. exfalso.
      destruct (log_frame "Scrolling not possible, as we can't find the specified target" s3)
        as (_ & _ & L & _).
      unfold fireEvent in Hnan. norm. rewrite L in Hnan. congruence.
    + destruct (_ || _); injection E as <-.
      * destruct (jump_frame (allReadyAtDestination r s3) r s4)
          as (_ & _ & J & _).
        rewrite J, V1, V2, A9. reflexivity.
      * destruct (schedule_frame now r s4)
          as (_ & _ & _ & _ & _ & _ & F7 & _ & F9 & _).
        rewrite F9, F7, V1, A9.
        assert (D : distanceToScroll (store (schedule now r s4) r)
                    = distanceToScroll (store s3 r)).
        { rewrite <- V2. unfold schedule.
          destruct (Js.readBool _); norm; rewrite ?Nat.eqb_refl; reflexivity. }
        rewrite D. reflexivity.
Qed.

(* ================================================================== *)
(** ** stopAll *)
(* ================================================================== *)

Lemma existsb_pointwise {A : Type} (f g : A -> bool) (l : list A) :
  (forall x, f x = g x) -> existsb f l = existsb g l.
Proof.
  intros H. induction l as [|x l IH]; [reflexivity|].
  cbn. now rewrite H, IH.
Qed.

(** What a call of [stopAll] does, in terms of the instances its condition
    selects. *)
Lemma stopAll_result ns s :
  exists s',
    stopAll ns s = Returned (existsb (selects ns s) (runningInstances s)) s' /\
    runningInstances s'
    = filter (fun r => negb (selects ns s r)) (runningInstances s) /\
    (forall r, In r (runningInstances s) -> selects ns s r = true ->
       store s' r
       = set_timer None (set_interruptListenersAttached false (store s r)) /\
       firedFor r (effects s')
       = firedFor r (effects s)
         ++ match timer (store s r) with
            | Some _ => [false]
            | None => []
            end /\
       forall h, timer (store s r) = Some h ->
                 forall x, ~ In (h, x) (intervals s')) /\
    (forall r, ~ (In r (runningInstances s) /\ selects ns s r = true) ->
       store s' r = store s r /\
       firedFor r (effects s') = firedFor r (effects s)) /\
    (forall h r, In (h, r) (intervals s) ->
       (forall y, In y (runningInstances s) -> selects ns s y = true ->
                  timer (store s y) <> Some h) ->
       In (h, r) (intervals s')).
Proof.
  destruct (stopAll_spec ns s) as [E1 E2].
  set (l := filter (selects ns s) (runningInstances s)) in *.
  assert (Hl : forall r, In r l <-> In r (runningInstances s) /\ selects ns s r = true).
  { intros r. apply filter_In. }
  exists (stopEach l s).
  split; [exact E1|]. split; [exact E2|]. split; [|split].
  - intros r Hin Hsel.
    assert (Hr : In r l) by (apply Hl; now split).
    split; [now apply stopEach_self|]. split.
    + rewrite stopEach_fired.
      apply existsb_eqb_In in Hr. now rewrite Hr.
    + intros h Ht x. now apply (stopEach_intervals_cleared l h r).
  - intros r Hr.
    assert (Hout : ~ In r l) by (intros Hin; apply Hr; now apply Hl).
    split; [now apply stopEach_other|].
    rewrite stopEach_fired.
    destruct (existsb (Nat.eqb r) l) eqn:Ex.
    + apply existsb_eqb_In in Ex. contradiction.
    + apply app_nil_r.
  - intros h r Hin Hy. apply stopEach_intervals_keep; [assumption|].
    intros y Hyl. apply Hl in Hyl. now apply Hy.
Qed.

(** C5: [stopAll(ns)] with a non-empty namespace stops, as interrupted,
    exactly the running instances whose namespace equals [ns]: none of
    them is skipped, every other instance stays in the running set with
    its timer uncleared, and the result is [true] exactly when some
    instance was stopped. *)
Theorem stopAll_namespace ns s :
  Js.truthyString ns = true ->
  exists s',
    stopAll ns s
    = Returned
        (existsb (fun r => Js.strictEqString (namespaceOf s r) ns)
           (runningInstances s)) s' /\
    runningInstances s'
    = filter (fun r => negb (Js.strictEqString (namespaceOf s r) ns))
        (runningInstances s) /\
    (forall r, In r (runningInstances s) -> namespaceOf s r = ns ->
       timer (store s' r) = None /\
       firedFor r (effects s')
       = firedFor r (effects s)
         ++ match timer (store s r) with
            | Some _ => [false]
            | None => []
            end /\
       forall h, timer (store s r) = Some h ->
                 In (h, r) (intervals s) -> ~ In (h, r) (intervals s')) /\
    (forall r, ~ (In r (runningInstances s) /\ namespaceOf s r = ns) ->
       store s' r = store s r /\
       firedFor r (effects s') = firedFor r (effects s) /\
       (Reachable s -> forall h, In (h, r) (intervals s) -> In (h, r) (intervals s'))).
Proof.
  intros Hns.
  assert (Hsel : forall r, selects ns s r = Js.strictEqString (namespaceOf s r) ns).
  { intros r. now apply selects_truthy. }
  destruct (stopAll_result ns s) as (s' & E & Hrun & Hin & Hout & Hkeep).
  exists s'. split; [|split; [|split]].
  - rewrite E. f_equal. now apply existsb_pointwise.
  - rewrite Hrun. apply filter_ext. intros r. now rewrite Hsel.
  - intros r Hr Hr'.
    assert (Hs : selects ns s r = true).
    { rewrite Hsel. now apply strictEqString_eq. }
    destruct (Hin r Hr Hs) as (H1 & H2 & H3).
    split; [now rewrite H1|]. split; [assumption|].
    intros h Ht _. now apply H3.
  - intros r Hr.
    assert (Hs : ~ (In r (runningInstances s) /\ selects ns s r = true)).
    { intros [H1 H2]. apply Hr. split; [assumption|].
      apply strictEqString_eq. now rewrite <- Hsel. }
    destruct (Hout r Hs) as [H1 H2].
    split; [assumption|]. split; [assumption|].
    intros Hreach h Hh. apply reachable_consistent in Hreach.
    apply Hkeep; [assumption|].
    intros y Hy Hy' Hty. apply Hs.
    apply (interval_timer Hreach) in Hty.
    assert (r = y) by (eapply (interval_unique Hreach); eassumption).
    subst y. now split.
Qed.

(** With a namespace argument that is [undefined], [null] or empty, the
    condition selects every instance. *)
Lemma stopAll_everything ns s :
  Js.truthyString ns = false ->
  exists s',
    stopAll ns s
    = Returned (match runningInstances s with [] => false | _ => true end) s' /\
    runningInstances s' = [] /\
    (forall r, In r (runningInstances s) ->
       timer (store s' r) = None /\
       firedFor r (effects s')
       = firedFor r (effects s)
         ++ match timer (store s r) with
            | Some _ => [false]
            | None => []
            end) /\
    (forall r, ~ In r (runningInstances s) ->
       store s' r = store s r /\ firedFor r (effects s') = firedFor r (effects s)).
Proof.
  intros Hns.
  assert (Hsel : forall r, selects ns s r = true).
  { intros r. now apply selects_falsy. }
  destruct (stopAll_result ns s) as (s' & E & Hrun & Hin & Hout & _).
  exists s'. split; [|split; [|split]].
  - rewrite E. f_equal.
    destruct (runningInstances s) as [|x l]; [reflexivity|].
    cbn. now rewrite Hsel.
  - rewrite Hrun. clear - Hsel.
    induction (runningInstances s) as [|x l IH]; [reflexivity|].
    cbn. now rewrite Hsel.
  - intros r Hr. destruct (Hin r Hr (Hsel r)) as (H1 & H2 & _).
    split; [now rewrite H1 | assumption].
  - intros r Hr. apply Hout. tauto.
Qed.

(* ================================================================== *)
(** ** The completion callback of a start *)
(* ================================================================== *)

Lemma firedFor_other r x b : x <> r -> firedFor x [Fired r b] = [].
Proof.
  intros H. cbn. apply Nat.eqb_neq in H. rewrite Nat.eqb_sym in H. now rewrite H.
Qed.

Lemma firedFor_warn x msg (c : bool) :
  firedFor x (if c then [ConsoleWarn msg] else []) = [].
Proof. now destruct c. Qed.

Lemma firedFor_attach x r (c : bool) :
  firedFor x (if c then [ListenersAttached r] else []) = [].
Proof. now destruct c. Qed.

(** The callbacks [start] delivers before it returns, once the namespace
    has been cleared: none without scroll views, [false] for a target that
    cannot be resolved, [true] for a jump, none for a scheduled animation.
    Other instances are not touched, and the running set grows by the
    instance at most. *)
Lemma proceed_frame now r s s' :
  finalState (proceed now r s) = Some s' ->
  firedFor r (effects s')
  = firedFor r (effects s)
    ++ match Js.read (scrollViews (pageScrollOptions (store s r))) with
       | Js.val (v :: views) =>
           if Js.isNaN (distanceToScroll (store (measure r (v :: views) s) r))
           then [false]
           else if allReadyAtDestination r (measure r (v :: views) s)
                   || tooShortInterval r
                        (computeExecutionDuration r (measure r (v :: views) s))
                then [true]
                else []
       | _ => []
       end /\
  (runningInstances s' = runningInstances s
   \/ runningInstances s' = runningInstances s ++ [r]) /\
  (forall x, x <> r ->
     store s' x = store s x /\ firedFor x (effects s') = firedFor x (effects s)).
Proof.
  unfold proceed.
  destruct (Js.read (scrollViews (pageScrollOptions (store s r))))
    as [| |[|v views]] eqn:Hv.
  - intros E; injection E as <-. rewrite app_nil_r. auto.
  - intros E; injection E as <-.
    destruct (warn_frame "No scrollViews specified, this ngx-page-scroll does not know which DOM elements to scroll" s)
      as (_ & W2 & W3 & _ & _ & _ & W7).
    rewrite W2, W3, W7. split; [|split; [now left|]].
    + now rewrite firedFor_app, firedFor_warn.
    + intros x _. now rewrite firedFor_app, firedFor_warn, app_nil_r.
  - intros E; injection E as <-.
    destruct (warn_frame "No scrollViews specified, this ngx-page-scroll does not know which DOM elements to scroll" s)
      as (_ & W2 & W3 & _ & _ & _ & W7).
    rewrite W2, W3, W7. split; [|split; [now left|]].
    + now rewrite firedFor_app, firedFor_warn.
    + intros x _. now rewrite firedFor_app, firedFor_warn, app_nil_r.
  - set (s3 := measure r (v :: views) s).
    destruct (measure_retunes r (v :: views) s)
      as [M1 M2 M3 M4 M5 M6 M7 M8 M9 M10 M11].
    fold s3 in M1, M2, M3, M4, M5, M6, M7, M8, M9, M10, M11.
    destruct (prepared_retunes r (v :: views) s)
      as [A1 A2 A3 A4 A5 A6 A7 A8 A9 A10 A11].
    fold s3 in A1, A2, A3, A4, A5, A6, A7, A8, A9, A10, A11.
    set (s4 := computeExecutionDuration r s3) in *.
    destruct (Js.isNaN (distanceToScroll (store s3 r))).
    + intros E; injection E as <-.
      destruct (log_frame "Scrolling not possible, as we can't find the specified target" s3)
        as (_ & L2 & L3 & _ & _ & _ & L7).
      unfold fireEvent. norm. rewrite L2, L3, L7, M2, M7.
      split; [|split; [now left|]].
      * now rewrite !firedFor_app, firedFor_log, firedFor_own, app_nil_r.
      * intros x Hx. split; [now apply M8|].
        now rewrite !firedFor_app, firedFor_log, firedFor_other, !app_nil_r.
    + destruct (allReadyAtDestination r s3 || tooShortInterval r s4).
      * intros E; injection E as <-.
        destruct (jump_frame (allReadyAtDestination r s3) r s4)
          as (_ & J2 & J3 & _ & _ & _ & msg & J7).
        rewrite J2, J3, J7, A2, A7.
        split; [|split; [now left|]].
        -- now rewrite !firedFor_app, firedFor_log, firedFor_own.
        -- intros x Hx. split; [now apply A8|].
           now rewrite !firedFor_app, firedFor_log, firedFor_other, !app_nil_r.
      * intros E; injection E as <-.
        destruct (schedule_frame now r s4)
          as (_ & F2 & _ & _ & _ & F6 & _ & _ & _ & F10).
        rewrite F2, F10, A2, A7.
        split; [|split; [now right|]].
        -- rewrite !firedFor_app, firedFor_attach. cbn. now rewrite !app_nil_r.
        -- intros x Hx. rewrite F6 by assumption. split; [now apply A8|].
           rewrite !firedFor_app, firedFor_attach. cbn. now rewrite !app_nil_r.
Qed.

(** A scheduled instance has its timer set and is registered. *)
Lemma proceed_scheduled now r s v views :
  Js.read (scrollViews (pageScrollOptions (store s r))) = Js.val (v :: views) ->
  Js.isNaN (distanceToScroll (store (measure r (v :: views) s) r)) = false ->
  allReadyAtDestination r (measure r (v :: views) s)
  || tooShortInterval r (computeExecutionDuration r (measure r (v :: views) s))
  = false ->
  exists s',
    proceed now r s = Returned tt s' /\
    timer (store s' r) = Some (nextTimer s) /\
    runningInstances s' = runningInstances s ++ [r] /\
    intervals s' = (nextTimer s, r) :: intervals s /\
    timersSet (effects s') = timersSet (effects s) ++ [nextTimer s].
Proof.
  intros Hv Hn Hs.
  rewrite (proceed_schedule now r s v views Hv Hn Hs).
  set (s4 := computeExecutionDuration r (measure r (v :: views) s)).
  destruct (prepared_retunes r (v :: views) s)
    as [A1 A2 A3 A4 A5 A6 A7 A8 A9 A10 A11].
  fold s4 in A1, A2, A3, A4, A5, A6, A7, A8, A9, A10, A11.
  destruct (schedule_frame now r s4)
    as (_ & F2 & F3 & _ & _ & _ & _ & F8 & _ & F10).
  exists (schedule now r s4). rewrite F2, F3, F8, F10, A2, A3, A4, A7.
  repeat split.
  rewrite !timersSet_app.
  destruct (Js.readBool _); cbn; now rewrite ?app_nil_r.
Qed.

Lemma mergeOptions_frame r s :
  config (mergeOptions r s) = config s /\
  runningInstances (mergeOptions r s) = runningInstances s /\
  intervals (mergeOptions r s) = intervals s /\
  effects (mergeOptions r s) = effects s /\
  (forall x, timer (store (mergeOptions r s) x) = timer (store s x)) /\
  (forall x, x <> r -> store (mergeOptions r s) x = store s x) /\
  (forall x, startScrollPosition (store (mergeOptions r s) x)
             = startScrollPosition (store s x) /\
             targetScrollPosition (store (mergeOptions r s) x)
             = targetScrollPosition (store s x) /\
             distanceToScroll (store (mergeOptions r s) x)
             = distanceToScroll (store s x) /\
             executionDuration (store (mergeOptions r s) x)
             = executionDuration (store s x)).
Proof.
  unfold mergeOptions. norm. repeat split.
  - intros x. now destruct (Nat.eqb x r).
  - intros x Hx. apply Nat.eqb_neq in Hx. now rewrite Hx.
  - now destruct (Nat.eqb x r).
  - now destruct (Nat.eqb x r).
  - now destruct (Nat.eqb x r).
  - now destruct (Nat.eqb x r).
Qed.

(** The callbacks the [stopAll] of [start] delivers to the instance being
    started: one with [false] for its earlier run, when it is still
    registered with a timer, and none otherwise. *)
Lemma start_stops_earlier_run r s b s2 :
  stopAll (namespaceOf (mergeOptions r s) r) (mergeOptions r s) = Returned b s2 ->
  firedFor r (effects s2)
  = firedFor r (effects s)
    ++ (if existsb (Nat.eqb r) (runningInstances s)
        then match timer (store s r) with
             | Some _ => [false]
             | None => []
             end
        else []).
Proof.
  intros E.
  destruct (mergeOptions_frame r s) as (M1 & M2 & M3 & M4 & M5 & M6 & M7).
  destruct (stopAll_result (namespaceOf (mergeOptions r s) r) (mergeOptions r s))
    as (s2' & E' & _ & Hin & Hout & _).
  rewrite E in E'. injection E' as _ <-.
  destruct (existsb (Nat.eqb r) (runningInstances s)) eqn:Hex.
  - apply existsb_eqb_In in Hex. rewrite <- M2 in Hex.
    destruct (Hin r Hex (selects_own (mergeOptions r s) r)) as (_ & H & _).
    now rewrite H, M4, M5.
  - assert (Hn : ~ (In r (runningInstances (mergeOptions r s))
                    /\ selects (namespaceOf (mergeOptions r s) r)
                         (mergeOptions r s) r = true)).
    { intros [Hr _]. rewrite M2 in Hr. apply existsb_eqb_In in Hr. congruence. }
    destruct (Hout r Hn) as [_ H]. now rewrite H, M4, app_nil_r.
Qed.

(** C2 (as amended): for each start attempt the completion callback is
    delivered at most once before [start] returns --- not at all when the
    scroll views are [null] or empty, once with [false] when the target
    cannot be resolved, once with [true] when it jumps to the target, not
    at all when it schedules the animation.  Before that, an instance that
    is still running from an earlier start receives one callback with
    [false] for that earlier run, because [start] stops the namespace
    first; nothing else is delivered to the instance during the call.  A
    scheduled instance has its timer set; a tick that writes its position
    before the end time delivers nothing; the stop sequence then delivers
    exactly one callback and clears the timer, with success [false] when
    it is run as interrupted and [true] when the tick handler runs it at
    the end time, and it delivers nothing for an instance whose timer is
    cleared. *)
Theorem start_callback_contract now r s b s2 :
  stopAll (namespaceOf (mergeOptions r s) r) (mergeOptions r s) = Returned b s2 ->
  (forall s', finalState (start now r s) = Some s' ->
     firedFor r (effects s')
     = firedFor r (effects s)
       ++ (if existsb (Nat.eqb r) (runningInstances s)
           then match timer (store s r) with
                | Some _ => [false]
                | None => []
                end
           else [])
       ++ match Js.read (scrollViews (pageScrollOptions (store s2 r))) with
          | Js.val (v :: views) =>
              if Js.isNaN (distanceToScroll (store (measure r (v :: views) s2) r))
              then [false]
              else if allReadyAtDestination r (measure r (v :: views) s2)
                      || tooShortInterval r
                           (computeExecutionDuration r (measure r (v :: views) s2))
                   then [true]
                   else []
          | _ => []
          end) /\
  (Reachable s ->
   existsb (Nat.eqb r) (runningInstances s)
   = match timer (store s r) with
     | Some _ => true
     | None => false
     end) /\
  (forall v views,
     Js.read (scrollViews (pageScrollOptions (store s2 r))) = Js.val (v :: views) ->
     Js.isNaN (distanceToScroll (store (measure r (v :: views) s2) r)) = false ->
     allReadyAtDestination r (measure r (v :: views) s2)
     || tooShortInterval r (computeExecutionDuration r (measure r (v :: views) s2))
     = false ->
     exists s', start now r s = Returned tt s' /\
                timer (store s' r) = Some (nextTimer s2) /\
                In r (runningInstances s')) /\
  (forall interrupted (t : System World),
     firedFor r (effects (snd (stopInternal interrupted r t)))
     = firedFor r (effects t)
       ++ match timer (store t r) with
          | Some _ => [negb interrupted]
          | None => []
          end /\
     timer (store (snd (stopInternal interrupted r t)) r) = None) /\
  (forall now' (t : System World),
     PrimFloat.leb (endTime (store t r)) now' = true ->
     exists w,
       tick now' r t = Returned tt (snd (stopInternal false r (with_document w t)))) /\
  (forall now' (t : System World) p,
     nextPosition now' (store t r) = Some (p, false) ->
     fst (setScrollPosition r (store t r) p (document t)) = true ->
     exists t', tick now' r t = Returned tt t' /\ effects t' = effects t /\
                timer (store t' r) = timer (store t r)).
Proof.
  intros E. split; [|split; [|split; [|split; [|split]]]].
  - intros s' Hs'. rewrite (start_proceed now r s b s2 E) in Hs'.
    destruct (proceed_frame now r s2 s' Hs') as [H _].
    now rewrite H, (start_stops_earlier_run r s b s2 E), <- app_assoc.
  - intros Hreach. apply reachable_consistent in Hreach.
    destruct (timer (store s r)) as [h|] eqn:Ht.
    + apply existsb_eqb_In, (running_timer Hreach). congruence.
    + apply not_true_is_false. intros Hex.
      apply existsb_eqb_In, (running_timer Hreach) in Hex. congruence.
  - intros v views Hv Hn Hs.
    destruct (proceed_scheduled now r s2 v views Hv Hn Hs)
      as (s' & P1 & P2 & P3 & _).
    exists s'. rewrite (start_proceed now r s b s2 E).
    split; [assumption|]. split; [assumption|].
    rewrite P3. apply in_or_app. right. now left.
  - intros interrupted t.
    rewrite stopInternal_fired, Nat.eqb_refl, stopInternal_timer. now split.
  - intros now' t Hend.
    exists (snd (setScrollPosition r (store t r) (targetScrollPosition (store t r))
                   (document t))).
    rewrite (tick_write now' r t _ true (nextPosition_at_end now' _ Hend)).
    cbv zeta. now rewrite orb_true_r.
  - intros now' t p Hp Hw.
    exists (with_document (snd (setScrollPosition r (store t r) p (document t))) t).
    rewrite (tick_write now' r t p false Hp). cbv zeta. rewrite Hw.
    repeat split.
Qed.

Lemma namespace_falsy_cases (ns : Js.value string) :
  Js.truthyString ns = false <->
  ns = Js.undefined \/ ns = Js.null \/ ns = Js.val EmptyString.
Proof.
  split.
  - destruct ns as [| |x]; cbn; auto.
    intros H. apply negb_false_iff, String.eqb_eq in H. subst. auto.
  - intros [-> | [-> | ->]]; reflexivity.
Qed.

(** C9: when the namespace argument of [stopAll] is [undefined] (or [null])
    or the empty string, every running instance is stopped whatever its
    namespace; so starting an instance whose merged options leave the
    namespace undefined or empty first stops all running instances, of
    every namespace. *)
Theorem stopAll_without_namespace_stops_all ns s :
  ns = Js.undefined \/ ns = Js.null \/ ns = Js.val EmptyString ->
  (exists s',
     stopAll ns s
     = Returned (match runningInstances s with [] => false | _ => true end) s' /\
     runningInstances s' = [] /\
     forall x, In x (runningInstances s) ->
       timer (store s' x) = None /\
       firedFor x (effects s')
       = firedFor x (effects s)
         ++ match timer (store s x) with
            | Some _ => [false]
            | None => []
            end) /\
  (forall now r,
     namespaceOf (mergeOptions r s) r = ns ->
     exists b s2,
       stopAll ns (mergeOptions r s) = Returned b s2 /\
       start now r s = proceed now r s2 /\
       runningInstances s2 = [] /\
       (forall x, In x (runningInstances s) ->
          timer (store s2 x) = None /\
          firedFor x (effects s2)
          = firedFor x (effects s)
            ++ match timer (store s x) with
               | Some _ => [false]
               | None => []
               end) /\
       forall s', finalState (start now r s) = Some s' ->
         (forall x, In x (runningInstances s') -> x = r) /\
         (forall x, In x (runningInstances s) -> x <> r ->
            timer (store s' x) = None)).
Proof.
  intros Hns. apply namespace_falsy_cases in Hns. split.
  - destruct (stopAll_everything ns s Hns) as (s' & E & Hrun & Hin & _).
    exists s'. auto.
  - intros now r Hr.
    destruct (mergeOptions_frame r s) as (M1 & M2 & M3 & M4 & M5 & M6 & _).
    destruct (stopAll_everything ns (mergeOptions r s) Hns)
      as (s2 & E & Hrun & Hin & _).
    rewrite M2 in E, Hin.
    exists (match runningInstances s with [] => false | _ => true end), s2.
    assert (Es : start now r s = proceed now r s2).
    { eapply start_proceed. rewrite Hr. exact E. }
    split; [assumption|]. split; [assumption|]. split; [assumption|].
    split.
    + intros x Hx. destruct (Hin x Hx) as [H1 H2].
      now rewrite M4, M5 in H2.
    + intros s' Hs'. rewrite Es in Hs'.
      destruct (proceed_frame now r s2 s' Hs') as (_ & Hrun' & Hother).
      split.
      * intros x Hx. rewrite Hrun in Hrun'.
        destruct Hrun' as [R | R]; rewrite R in Hx; cbn in Hx;
          intuition congruence.
      * intros x Hx Hne. destruct (Hother x Hne) as [-> _].
        now destruct (Hin x Hx).
Qed.

(* ================================================================== *)
(** ** One animation per namespace *)
(* ================================================================== *)

(** C3: [start] first stops, as interrupted, every running instance that
    carries the merged namespace of the new instance, before any parameter
    of the new run is computed; and after a [start] no two running
    instances carry the same namespace. *)
Theorem start_clears_namespace now r s :
  Reachable s ->
  exists b s2,
    stopAll (namespaceOf (mergeOptions r s) r) (mergeOptions r s) = Returned b s2 /\
    start now r s = proceed now r s2 /\
    (forall x, In x (runningInstances s) ->
       namespaceOf (mergeOptions r s) x = namespaceOf (mergeOptions r s) r ->
       ~ In x (runningInstances s2) /\
       timer (store s2 x) = None /\
       firedFor x (effects s2) = firedFor x (effects s) ++ [false]) /\
    (startScrollPosition (store s2 r) = startScrollPosition (store s r) /\
     targetScrollPosition (store s2 r) = targetScrollPosition (store s r) /\
     distanceToScroll (store s2 r) = distanceToScroll (store s r) /\
     executionDuration (store s2 r) = executionDuration (store s r)) /\
    forall s', finalState (start now r s) = Some s' ->
      NoDup (map (namespaceOf s') (runningInstances s')).
Proof.
  intros Hreach.
  assert (C : Consistent s) by now apply reachable_consistent.
  set (s1 := mergeOptions r s).
  set (ns := namespaceOf s1 r).
  destruct (mergeOptions_frame r s) as (M1 & M2 & M3 & M4 & M5 & M6 & M7).
  fold s1 in M1, M2, M3, M4, M5, M6, M7.
  destruct (stopAll_result ns s1) as (s2 & E & Hrun & Hin & Hout & _).
  exists (existsb (selects ns s1) (runningInstances s1)), s2.
  split; [assumption|]. split; [eapply start_proceed; exact E|].
  split; [|split].
  - intros x Hx Hsame.
    assert (Hsel : selects ns s1 x = true).
    { unfold selects. fold (namespaceOf s1 x). rewrite Hsame.
      fold ns. rewrite strictEqString_refl. apply orb_true_r. }
    rewrite <- M2 in Hx.
    destruct (Hin x Hx Hsel) as (H1 & H2 & _).
    split; [|split].
    + rewrite Hrun. intros Hf. apply filter_In in Hf.
      rewrite Hsel in Hf. now destruct Hf.
    + now rewrite H1.
    + rewrite H2, M4, M5.
      destruct (timer (store s x)) eqn:Ht; [reflexivity|].
      exfalso. rewrite M2 in Hx. now apply (running_timer C) in Hx.
  - destruct (M7 r) as (P1 & P2 & P3 & P4).
    destruct (in_dec Nat.eq_dec r (runningInstances s1)) as [Hr | Hr].
    + destruct (Hin r Hr (selects_own s1 r)) as (H1 & _).
      rewrite H1. norm. auto.
    + assert (Hn : ~ (In r (runningInstances s1) /\ selects ns s1 r = true)) by tauto.
      destruct (Hout r Hn) as [H1 _]. rewrite H1. auto.
  - intros s' Hs'.
    apply (namespace_nodup (start_consistent now r s s' C Hs')).
Qed.

(* ================================================================== *)
(** ** The interrupt reporter *)
(* ================================================================== *)

(** Events on an instance that is not interruptible are ignored. *)
Lemma report_not_interruptible event r s :
  Js.readBool (interruptible (pageScrollOptions (store s r))) = false ->
  report event r s = Returned tt s.
Proof. unfold report. now intros ->. Qed.

(** A key release whose code is not an interrupt key stops nothing. *)
Lemma report_other_key event r s keys :
  type event = "keyup"%string ->
  interruptKeys (config s) = Some keys ->
  Js.indexOfNumber (keyCode event) keys = None ->
  report event r s = Returned tt s.
Proof.
  intros Ht Hk Hi. unfold report, shouldStop. rewrite Ht, Hk, Hi. cbn.
  now destruct (negb _).
Qed.

(** A key release with an interrupt key stops the namespace of an
    interruptible instance through [stopAll]. *)
Lemma report_interrupt_key event r s keys i :
  Js.readBool (interruptible (pageScrollOptions (store s r))) = true ->
  type event = "keyup"%string ->
  interruptKeys (config s) = Some keys ->
  Js.indexOfNumber (keyCode event) keys = Some i ->
  exists b s',
    stopAll (namespaceOf s r) s = Returned b s' /\
    report event r s = Returned tt s'.
Proof.
  intros Hi Ht Hk Hx.
  destruct (stopAll_returns (namespaceOf s r) s) as (b & s' & E).
  exists b, s'. split; [assumption|].
  unfold report, shouldStop. rewrite Hi, Ht, Hk, Hx. cbn.
  unfold namespaceOf in E. now rewrite E.
Qed.

(** A mouse press whose target lies in none of the scroll views, all of
    them present, stops nothing. *)
Lemma report_click_outside event r s views :
  type event = "mousedown"%string ->
  Js.read (scrollViews (pageScrollOptions (store s r))) = Js.val views ->
  someContains views (target event) (document s) = Some false ->
  report event r s = Returned tt s.
Proof.
  intros Ht Hv Hc. unfold report, shouldStop. rewrite Ht, Hv, Hc. cbn.
  now destruct (negb _).
Qed.

(** A mouse press inside a scroll view that no missing entry precedes stops
    the namespace of an interruptible instance through [stopAll]. *)
Lemma report_click_inside event r s views :
  Js.readBool (interruptible (pageScrollOptions (store s r))) = true ->
  type event = "mousedown"%string ->
  Js.read (scrollViews (pageScrollOptions (store s r))) = Js.val views ->
  someContains views (target event) (document s) = Some true ->
  exists b s',
    stopAll (namespaceOf s r) s = Returned b s' /\
    report event r s = Returned tt s'.
Proof.
  intros Hi Ht Hv Hc.
  destruct (stopAll_returns (namespaceOf s r) s) as (b & s' & E).
  exists b, s'. split; [assumption|].
  unfold report, shouldStop. rewrite Hi, Ht, Hv, Hc. cbn.
  unfold namespaceOf in E. now rewrite E.
Qed.

(** A mouse press on an instance whose scroll views hold [undefined] or
    [null] before any view containing the target throws: nothing is
    stopped, wherever the target lies. *)
Lemma report_click_missing_view event r s views :
  Js.readBool (interruptible (pageScrollOptions (store s r))) = true ->
  type event = "mousedown"%string ->
  Js.read (scrollViews (pageScrollOptions (store s r))) = Js.val views ->
  someContains views (target event) (document s) = None ->
  report event r s = Threw s.
Proof.
  intros Hi Ht Hv Hc. unfold report, shouldStop. now rewrite Hi, Ht, Hv, Hc.
Qed.

(** [start] always ends: it returns, or throws on scroll views that are
    [undefined]. *)
Lemma start_returns now r s : exists s', finalState (start now r s) = Some s'.
Proof.
  destruct (stopAll_returns (namespaceOf (mergeOptions r s) r) (mergeOptions r s))
    as (b & s2 & E).
  rewrite (start_proceed now r s b s2 E). unfold proceed.
  destruct (Js.read (scrollViews _)) as [| |[|v views]]; cbn [finalState]; eauto.
  destruct (Js.isNaN _); cbn [finalState]; eauto.
  destruct (_ || _); cbn [finalState]; eauto.
Qed.

End Properties.

(* ================================================================== *)
(** ** The sample system *)
(* ================================================================== *)

Lemma sampleSystem_initial : Initial sampleSystem.
Proof. repeat split. Qed.

Lemma sampleSystem_reachable : Reachable sampleSystem.
Proof. apply reach_initial, sampleSystem_initial. Qed.

Lemma start_final now r (s : System Page) :
  finalState (start now r s) = Some (after (start now r s) s).
Proof.
  unfold after. destruct (start_returns now r s) as [s' E]. now rewrite E.
Qed.

Lemma running0_reachable : Reachable running0.
Proof.
  apply (reach_step sampleSystem_reachable).
  apply (step_start 1000%float 0). apply start_final.
Qed.

Lemma running1_reachable : Reachable running1.
Proof.
  apply (reach_step sampleSystem_reachable).
  apply (step_start 1000%float 1). apply start_final.
Qed.

Lemma running12_reachable : Reachable running12.
Proof.
  apply (reach_step running1_reachable).
  apply (step_start 1001%float 2). apply start_final.
Qed.

(** With an empty running set, the [stopAll] of [start] returns at once. *)
Lemma sample_stopAll r :
  stopAll (namespaceOf (mergeOptions r sampleSystem) r) (mergeOptions r sampleSystem)
  = Returned false (mergeOptions r sampleSystem).
Proof. reflexivity. Qed.

(** Instance 6 scrolls a node that refuses every write: its first tick
    stops it, and the callback reports success. *)
Lemma tick_marked_for_stop_reports_success_witness :
  (exists p, nextPosition 1500%float (store running6 6) = Some (p, false)
             /\ fst (setScrollPosition 6 (store running6 6) p (document running6))
                = false)
  /\ firedFor 6 (effects (after (tick 1500%float 6 running6) running6)) = [true].
Proof.
  assert (H : exists p, nextPosition 1500%float (store running6 6) = Some (p, false)
                        /\ fst (setScrollPosition 6 (store running6 6) p
                                  (document running6)) = false).
  { exists 200%float. split; vm_compute; reflexivity. }
  split; [exact H|].
  destruct (tick_marked_for_stop_reports_success 1500%float 6 running6 (or_intror H))
    as (p & stopNow & Hp & Ht & Hf).
  unfold after. rewrite Ht. cbn [finalState].
  rewrite (Hf 1%positive) by (vm_compute; reflexivity).
  vm_compute. reflexivity.
Defined.

(** C2 fails as stated: [start] on instance 3, which has no scroll views,
    returns without delivering any completion callback. *)
Lemma start_without_scroll_views_delivers_no_callback :
  exists s',
    start 1000%float 3 sampleSystem = Returned tt s' /\
    firedFor 3 (effects s') = [] /\
    forall success, firedFor 3 (effects s') <> [success].
Proof.
  exists (warn "No scrollViews specified, this ngx-page-scroll does not know which DOM elements to scroll"
            (mergeOptions 3 sampleSystem)).
  split; [reflexivity|].
  split; [vm_compute; reflexivity|].
  intros success. vm_compute. discriminate.
Qed.

(** Instance 0 is scheduled: no callback during [start], one callback with
    [false] when it is stopped.  Started again while it runs, with node 1
    scrolled to within the minimum distance of the target, it receives
    [false] for the earlier run and [true] for the jump. *)
Lemma start_callback_contract_witness :
  firedFor 0 (effects running0) = []
  /\ timer (store running0 0) = Some 1%positive
  /\ firedFor 0 (effects (snd (stop 0 running0))) = [false]
  /\ firedFor 0 (effects (after (start 1100%float 0 running0Near) running0Near))
     = [false; true].
Proof.
  destruct (start_callback_contract 1000%float 0 sampleSystem false _
              (sample_stopAll 0)) as (H1 & _ & H2 & H3 & H4 & H5).
  assert (F : finalState (start 1000%float 0 sampleSystem) = Some running0)
    by apply start_final.
  split; [|split; [|split]].
  - rewrite (H1 running0 F). vm_compute. reflexivity.
  - vm_compute. reflexivity.
  - unfold stop. destruct (H3 true running0) as [H _]. rewrite H.
    vm_compute. reflexivity.
  - destruct (stopAll_spec (namespaceOf (mergeOptions 0 running0Near) 0)
                (mergeOptions 0 running0Near)) as [E1 _].
    destruct (start_callback_contract 1100%float 0 running0Near _ _ E1)
      as (K1 & _).
    rewrite (K1 _ (start_final 1100%float 0 running0Near)).
    vm_compute. reflexivity.
Defined.

(** Instances 1 (namespace "a") and 2 run; starting instance 0 in namespace
    "a" stops instance 1 and leaves 2 and 0 running. *)
Lemma start_clears_namespace_witness :
  Reachable running12 /\
  runningInstances (after (start 1002%float 0 running12) running12) = [2; 0] /\
  NoDup (map (namespaceOf (after (start 1002%float 0 running12) running12))
           (runningInstances (after (start 1002%float 0 running12) running12))).
Proof.
  split; [exact running12_reachable|].
  destruct (start_clears_namespace 1002%float 0 running12 running12_reachable)
    as (b & s2 & E & Es & Hstop & Hpar & Hnodup).
  split; [vm_compute; reflexivity|].
  apply Hnodup. apply start_final.
Defined.

(** Instance 4 has a duration of 5 with a tick interval of 10. *)
Lemma start_short_circuit_witness :
  tooShortInterval 4
    (computeExecutionDuration 4
       (measure 4 [Js.val 7] (mergeOptions 4 sampleSystem))) = true /\
  exists s',
    start 1000%float 4 sampleSystem = Returned tt s' /\
    firedFor 4 (effects s') = [true] /\
    timersSet (effects s') = [] /\
    runningInstances s' = [].
Proof.
  assert (H : tooShortInterval 4
                (computeExecutionDuration 4
                   (measure 4 [Js.val 7] (mergeOptions 4 sampleSystem))) = true)
    by (vm_compute; reflexivity).
  split; [exact H|].
  destruct (start_short_circuit 1000%float 4 sampleSystem false
              (mergeOptions 4 sampleSystem) (Js.val 7) [])
    as (s' & E & D & F & T & I & N & R & _).
  - apply sample_stopAll.
  - vm_compute. reflexivity.
  - vm_compute. reflexivity.
  - right. exact H.
  - exists s'. split; [exact E|]. split; [|split].
    + rewrite F. vm_compute. reflexivity.
    + rewrite T. vm_compute. reflexivity.
    + rewrite R. vm_compute. reflexivity.
Defined.

(** With instances 1 ("a") and 2 ("default") running, [stopAll("a")] stops
    instance 1 and leaves instance 2 as it is. *)
Lemma stopAll_namespace_witness :
  Js.truthyString (Js.val "a"%string) = true /\
  exists s',
    stopAll (Js.val "a"%string) running12 = Returned true s' /\
    runningInstances s' = [2] /\
    firedFor 1 (effects s') = [false] /\
    store s' 2 = store running12 2.
Proof.
  split; [reflexivity|].
  destruct (stopAll_namespace (Js.val "a"%string) running12 eq_refl)
    as (s' & E & Hrun & Hin & Hout).
  exists s'. split; [|split; [|split]].
  - rewrite E. vm_compute. reflexivity.
  - rewrite Hrun. vm_compute. reflexivity.
  - destruct (Hin 1) as (_ & H & _).
    + vm_compute. auto.
    + vm_compute. reflexivity.
    + rewrite H. vm_compute. reflexivity.
  - destruct (Hout 2) as (H & _); [|exact H].
    intros [_ H]. vm_compute in H. discriminate.
Defined.

(** Stopping the idle instance 0 does nothing; stopping it while it runs
    works once. *)
Lemma stop_running_once_witness :
  Reachable sampleSystem /\
  stop 0 sampleSystem = (false, sampleSystem) /\
  fst (stop 0 running0) = true /\
  firedFor 0 (effects (snd (stop 0 running0))) = [false] /\
  fst (stop 0 (snd (stop 0 running0))) = false.
Proof.
  destruct (stop_running_once 0 sampleSystem) as (A & _ & _).
  destruct (stop_running_once 0 running0) as (_ & B & C).
  destruct (B 1%positive) as (B1 & _ & _ & _ & B5); [vm_compute; reflexivity|].
  split; [exact sampleSystem_reachable|].
  split; [apply A; [exact sampleSystem_reachable | reflexivity]|].
  split; [exact B1|]. split; [|exact C].
  rewrite B5. vm_compute. reflexivity.
Defined.

(** Instance 8 has a speed of 100 and no duration: 500 / 100 * 1000. *)
Lemma start_execution_duration_witness :
  finalState (start 1000%float 8 sampleSystem)
  = Some (after (start 1000%float 8 sampleSystem) sampleSystem) /\
  executionDuration (store (after (start 1000%float 8 sampleSystem) sampleSystem) 8)
  = Js.val 5000%float.
Proof.
  assert (F : finalState (start 1000%float 8 sampleSystem)
              = Some (after (start 1000%float 8 sampleSystem) sampleSystem))
    by apply start_final.
  split; [exact F|].
  rewrite (start_execution_duration 1000%float 8 sampleSystem _ (Js.val 1) [] F).
  - vm_compute. reflexivity.
  - vm_compute. reflexivity.
  - vm_compute. reflexivity.
Defined.

(** With instances 1 and 2 running in two namespaces, [stopAll()] stops
    both, and so does starting instance 10, whose namespace is [undefined]. *)
Lemma stopAll_without_namespace_stops_all_witness :
  (exists s', stopAll Js.undefined running12 = Returned true s'
              /\ runningInstances s' = []) /\
  runningInstances (after (start 1002%float 10 running12) running12) = [10] /\
  timer (store (after (start 1002%float 10 running12) running12) 1) = None /\
  timer (store (after (start 1002%float 10 running12) running12) 2) = None.
Proof.
  destruct (stopAll_without_namespace_stops_all Js.undefined running12
              (or_introl eq_refl)) as [(s' & E & R & _) Hstart].
  split; [exists s'; split; [exact E | exact R]|].
  destruct (Hstart 1002%float 10) as (b & s2 & _ & _ & _ & _ & Hfinal);
    [vm_compute; reflexivity|].
  destruct (Hfinal (after (start 1002%float 10 running12) running12))
    as [_ Hothers]; [apply start_final|].
  split; [vm_compute; reflexivity|].
  split; apply Hothers; vm_compute; auto; discriminate.
Defined.

(** Instance 4 jumps to its target although node 7 refuses the write. *)
Lemma jump_ignores_write_result_witness :
  fst (setScrollPosition 4
         (store (after (start 1000%float 4 sampleSystem) sampleSystem) 4)
         500%float (document sampleSystem)) = false /\
  firedFor 4 (effects (after (start 1000%float 4 sampleSystem) sampleSystem))
  = [true].
Proof.
  split; [vm_compute; reflexivity|].
  destruct (jump_ignores_write_result 1000%float 4 sampleSystem false
              (mergeOptions 4 sampleSystem) (Js.val 7) [])
    as [(s' & E & H) _].
  - apply sample_stopAll.
  - vm_compute. reflexivity.
  - vm_compute. reflexivity.
  - vm_compute. reflexivity.
  - unfold after. rewrite E. cbn [finalState].
    assert (Hs : s' = after (start 1000%float 4 sampleSystem) sampleSystem).
    { unfold after. rewrite E. reflexivity. }
    destruct H as (F & _).
    + rewrite Hs. vm_compute. reflexivity.
    + rewrite F. vm_compute. reflexivity.
Defined.

(** C6 (the code at the failing input): instance 5 is interruptible and
    running, its scroll views are [[null, node 1]], and the mouse is
    pressed on node 3, inside node 1: the reporter throws on the [null]
    entry and stops nothing, where the claim has the namespace stopped. *)
Theorem report_click_inside_after_null_view_throws :
  Js.readBool (interruptible (pageScrollOptions (store running5 5))) = true /\
  Js.read (scrollViews (pageScrollOptions (store running5 5)))
  = Js.val [Js.null; Js.val 1] /\
  runningInstances running5 = [5] /\
  contains 1 (target pressInsideNode1) (document running5) = true /\
  report pressInsideNode1 5 running5 = Threw running5 /\
  runningInstances (after (report pressInsideNode1 5 running5) running5) = [5].
Proof.
  assert (H : report pressInsideNode1 5 running5 = Threw running5).
  { apply (report_click_missing_view pressInsideNode1 5 running5 [Js.null; Js.val 1]);
      vm_compute; reflexivity. }
  split; [vm_compute; reflexivity|].
  split; [vm_compute; reflexivity|].
  split; [vm_compute; reflexivity|].
  split; [vm_compute; reflexivity|].
  split; [exact H|].
  unfold after. rewrite H. vm_compute. reflexivity.
Qed.

(* ================================================================== *)
(** ** Arithmetic with NaN *)
(* ================================================================== *)

Lemma Prim2SF_nan_inv (x : float) : Prim2SF x = S754_nan -> x = nan.
Proof. intros H. rewrite <- (SF2Prim_Prim2SF x), H. reflexivity. Qed.

Lemma add_nan_r (x : float) : PrimFloat.add x nan = nan.
Proof.
  apply Prim2SF_nan_inv. rewrite add_spec.
  replace (Prim2SF nan) with S754_nan by reflexivity.
  unfold SF64add, SFadd.
  destruct (Prim2SF x) as [sg|sg| |sg m e]; try destruct sg; reflexivity.
Qed.

Lemma leb_nan_l (y : float) : PrimFloat.leb nan y = false.
Proof.
  rewrite leb_spec. replace (Prim2SF nan) with S754_nan by reflexivity.
  reflexivity.
Qed.

(* ================================================================== *)
(** ** Further properties of the service *)
(* ================================================================== *)

Section MoreProperties.

Context {World : Type} {methods : PageScrollInstanceMethods World}.

Implicit Types (s : System World) (r : Ref) (l : list Ref).

Ltac fields :=
  cbn [config runningInstances store intervals nextTimer document devMode effects
       with_runningInstances with_store with_intervals with_document emit update
       with_service
       detachInterruptListeners attachInterruptListeners fireEvent
       clearInterval setInterval
       pageScrollOptions startScrollPosition targetScrollPosition
       distanceToScroll executionDuration startTime endTime timer
       interruptListenersAttached
       set_pageScrollOptions set_startScrollPosition set_targetScrollPosition
       set_distanceToScroll set_executionDuration set_startTime set_endTime
       set_timer set_interruptListenersAttached fst snd] in *.

Lemma start_cases now r s s' :
  finalState (start now r s) = Some s' ->
  exists b s2,
    stopAll (namespaceOf (mergeOptions r s) r) (mergeOptions r s) = Returned b s2 /\
    finalState (proceed now r s2) = Some s'.
Proof.
  intros E.
  destruct (stopAll_returns (namespaceOf (mergeOptions r s) r) (mergeOptions r s))
    as (b & s2 & E2).
  exists b, s2. split; [assumption|].
  now rewrite <- (start_proceed now r s b s2 E2).
Qed.

Lemma logs_frame s s' :
  config s' = config s -> devMode s' = devMode s -> logs s' = logs s.
Proof. unfold logs. now intros -> ->. Qed.

(** X1: in every state the system reaches, an instance is in the running
    set exactly when its timer handle is set, and then exactly once; its
    handle is that of exactly one active interval timer, which no other
    instance shares; and listeners are attached to running instances only. *)
Theorem reachable_running_iff_timer s :
  Reachable s ->
  NoDup (runningInstances s) /\
  (forall r, In r (runningInstances s) <-> exists h, timer (store s r) = Some h) /\
  (forall h r, In (h, r) (intervals s) <-> timer (store s r) = Some h) /\
  (forall h r r', In (h, r) (intervals s) -> In (h, r') (intervals s) -> r = r') /\
  (forall r, interruptListenersAttached (store s r) = true ->
             In r (runningInstances s)).
Proof.
  intros H. apply reachable_consistent in H.
  destruct H as [C1 C2 C3 C4 C5 C6 C7 C8].
  split; [assumption|]. split; [|split; [assumption|split; [assumption|]]].
  - intros r. rewrite C2. split.
    + destruct (timer (store s r)) as [h|]; [eauto | congruence].
    + intros [h ->]. discriminate.
  - intros r Ha. apply C2. now apply C3.
Qed.

(** X2: when the merged scroll views are [null] or empty, [start] still
    stops the running instances of the namespace first, then returns: it
    writes the severity-gated warning and nothing else --- no callback,
    no timer, no change to any instance or to the document. *)
Theorem start_without_scroll_views now r s b s2 :
  stopAll (namespaceOf (mergeOptions r s) r) (mergeOptions r s) = Returned b s2 ->
  Js.read (scrollViews (pageScrollOptions (store s2 r))) = Js.null
  \/ Js.read (scrollViews (pageScrollOptions (store s2 r))) = Js.val [] ->
  exists s',
    start now r s = Returned tt s' /\
    runningInstances s'
    = filter (fun x => negb (selects (namespaceOf (mergeOptions r s) r)
                               (mergeOptions r s) x)) (runningInstances s) /\
    store s' = store s2 /\
    intervals s' = intervals s2 /\
    nextTimer s' = nextTimer s /\
    document s' = document s /\
    effects s'
    = effects s2
      ++ (if logs s
          then [ConsoleWarn "No scrollViews specified, this ngx-page-scroll does not know which DOM elements to scroll"]
          else []).
Proof.
  intros E Hv.
  destruct (start_stopAll_frame r s b s2 E) as (S1 & S2 & S3 & S4 & S5 & S6).
  destruct (warn_frame "No scrollViews specified, this ngx-page-scroll does not know which DOM elements to scroll" s2)
    as (W1 & W2 & W3 & W4 & W5 & W6 & W7).
  eexists. split.
  - rewrite (start_proceed now r s b s2 E). now apply proceed_no_views.
  - rewrite W2, W3, W4, W5, W6, W7, S1, S3, S6.
    repeat split. f_equal.
    rewrite (logs_frame s s2); [reflexivity | assumption |].
    destruct (stopAll_spec (namespaceOf (mergeOptions r s) r) (mergeOptions r s))
      as [E1 _].
    rewrite E1 in E. injection E as _ <-. now rewrite stopEach_devMode.
Qed.

(** X3: when the distance is not a number (the target could not be
    resolved), [start], once it has stopped the namespace, adds only the
    severity-gated log line and one completion callback with [false] for
    this attempt; it sets no timer, registers nothing and leaves the
    document alone. *)
Theorem start_unresolved_target now r s b s2 v views :
  stopAll (namespaceOf (mergeOptions r s) r) (mergeOptions r s) = Returned b s2 ->
  Js.read (scrollViews (pageScrollOptions (store s2 r))) = Js.val (v :: views) ->
  Js.isNaN (distanceToScroll (store (measure r (v :: views) s2) r)) = true ->
  exists s',
    start now r s = Returned tt s' /\
    effects s'
    = effects s2
      ++ (if logs s
          then [ConsoleLog "Scrolling not possible, as we can't find the specified target"]
          else [])
      ++ [Fired r false] /\
    runningInstances s' = runningInstances s2 /\
    intervals s' = intervals s2 /\
    nextTimer s' = nextTimer s /\
    timer (store s' r) = timer (store s2 r) /\
    document s' = document s.
Proof.
  intros E Hv Hn.
  destruct (start_stopAll_frame r s b s2 E) as (S1 & S2 & S3 & S4 & S5 & S6).
  destruct (measure_retunes r (v :: views) s2)
    as [M1 M2 M3 M4 M5 M6 M7 M8 M9 M10 M11].
  destruct (log_frame "Scrolling not possible, as we can't find the specified target"
              (measure r (v :: views) s2))
    as (L1 & L2 & L3 & L4 & L5 & L6 & L7).
  eexists. split.
  - rewrite (start_proceed now r s b s2 E).
    exact (proceed_unresolved now r s2 v views Hv Hn).
  - unfold fireEvent. fields.
    rewrite L2, L3, L4, L5, L6, L7, M2, M3, M4, M5, M7, M10, S3, S6.
    repeat split. rewrite <- app_assoc. do 2 f_equal.
    rewrite (logs_frame s2 (measure r (v :: views) s2)) by assumption.
    rewrite (logs_frame s s2); [reflexivity | assumption |].
    destruct (stopAll_spec (namespaceOf (mergeOptions r s) r) (mergeOptions r s))
      as [E1 _].
    rewrite E1 in E. injection E as _ <-. now rewrite stopEach_devMode.
Qed.

(** X4: when the merged options have no [scrollViews] (the key is absent
    or [undefined]), [start] throws at line 80 --- after it has merged the
    options and stopped the running instances of the namespace, which stay
    stopped. *)
Theorem start_missing_scroll_views_throws now r s :
  Js.read (scrollViews (spread (config s) (pageScrollOptions (store s r))))
  = Js.undefined ->
  exists b s2,
    stopAll (namespaceOf (mergeOptions r s) r) (mergeOptions r s) = Returned b s2 /\
    start now r s = Threw s2 /\
    runningInstances s2
    = filter (fun x => negb (selects (namespaceOf (mergeOptions r s) r)
                               (mergeOptions r s) x)) (runningInstances s) /\
    (forall x, In x (runningInstances s) ->
       namespaceOf (mergeOptions r s) x = namespaceOf (mergeOptions r s) r ->
       timer (store s2 x) = None /\
       firedFor x (effects s2)
       = firedFor x (effects s)
         ++ match timer (store s x) with
            | Some _ => [false]
            | None => []
            end).
Proof.
  intros Hv.
  set (s1 := mergeOptions r s).
  destruct (mergeOptions_frame r s) as (M1 & M2 & M3 & M4 & M5 & M6 & M7).
  fold s1 in M1, M2, M3, M4, M5, M6, M7.
  destruct (stopAll_result (namespaceOf s1 r) s1) as (s2 & E & Hrun & Hin & Hout & _).
  exists (existsb (selects (namespaceOf s1 r) s1) (runningInstances s1)), s2.
  split; [assumption|]. split; [|split].
  - rewrite (start_proceed now r s _ s2 E). unfold proceed.
    destruct (stopAll_spec (namespaceOf s1 r) s1) as [E1 _].
    rewrite E1 in E. injection E as <-. rewrite stopEach_options.
    unfold s1, mergeOptions. fields. rewrite Nat.eqb_refl. fields.
    now rewrite Hv.
  - now rewrite Hrun, M2.
  - intros x Hx Hsame.
    assert (Hsel : selects (namespaceOf s1 r) s1 x = true).
    { unfold selects. fold (namespaceOf s1 x). rewrite Hsame.
      rewrite strictEqString_refl. apply orb_true_r. }
    rewrite <- M2 in Hx. destruct (Hin x Hx Hsel) as (H1 & H2 & _).
    split; [now rewrite H1|]. now rewrite H2, M4, M5.
Qed.

Lemma schedule_times now r s :
  startTime (store (schedule now r s) r) = now /\
  endTime (store (schedule now r s) r)
  = PrimFloat.add now (Js.ToNumber (executionDuration (store s r))) /\
  interruptListenersAttached (store (schedule now r s) r)
  = (if Js.readBool (interruptible (pageScrollOptions (store s r)))
     then true
     else interruptListenersAttached (store s r)) /\
  distanceToScroll (store (schedule now r s) r) = distanceToScroll (store s r) /\
  startScrollPosition (store (schedule now r s) r) = startScrollPosition (store s r) /\
  targetScrollPosition (store (schedule now r s) r)
  = targetScrollPosition (store s r).
Proof.
  unfold schedule.
  destruct (Js.readBool (interruptible (pageScrollOptions (store s r))));
    fields; rewrite ?Nat.eqb_refl; fields; repeat split.
Qed.

(** X5: when [start] schedules the animation it records the call time as
    start time and start time + execution duration as end time, stores a
    fresh timer handle, registers the instance at the end of the running
    set, attaches the interrupt listeners exactly when the merged options
    are interruptible, and delivers no callback for the new run (all this
    after it has stopped the namespace).  The timer runs at the
    interval of the service configuration, whatever [_interval] the
    instance's own options carry. *)
Theorem start_schedules now r s b s2 v views :
  stopAll (namespaceOf (mergeOptions r s) r) (mergeOptions r s) = Returned b s2 ->
  Js.read (scrollViews (pageScrollOptions (store s2 r))) = Js.val (v :: views) ->
  Js.isNaN (distanceToScroll (store (measure r (v :: views) s2) r)) = false ->
  allReadyAtDestination r (measure r (v :: views) s2)
  || tooShortInterval r (computeExecutionDuration r (measure r (v :: views) s2))
  = false ->
  exists s',
    start now r s = Returned tt s' /\
    startTime (store s' r) = now /\
    endTime (store s' r)
    = PrimFloat.add now (Js.ToNumber (executionDuration (store s' r))) /\
    timer (store s' r) = Some (nextTimer s) /\
    intervals s' = (nextTimer s, r) :: intervals s2 /\
    nextTimer s' = Pos.succ (nextTimer s) /\
    runningInstances s' = runningInstances s2 ++ [r] /\
    interruptListenersAttached (store s' r)
    = (if Js.readBool (interruptible (pageScrollOptions (store s' r)))
       then true
       else interruptListenersAttached (store s2 r)) /\
    effects s'
    = effects s2
      ++ (if Js.readBool (interruptible (pageScrollOptions (store s' r)))
          then [ListenersAttached r] else [])
      ++ [IntervalSet (nextTimer s) r (Js.readNumber (_interval (config s)))] /\
    document s' = document s.
Proof.
  intros E Hv Hn Hs.
  destruct (start_stopAll_frame r s b s2 E) as (S1 & S2 & S3 & S4 & S5 & S6).
  set (s4 := computeExecutionDuration r (measure r (v :: views) s2)).
  destruct (prepared_retunes r (v :: views) s2)
    as [A1 A2 A3 A4 A5 A6 A7 A8 A9 A10 A11].
  fold s4 in A1, A2, A3, A4, A5, A6, A7, A8, A9, A10, A11.
  destruct (schedule_frame now r s4)
    as (F1 & F2 & F3 & F4 & F5 & F6 & F7 & F8 & F9 & F10).
  destruct (schedule_times now r s4) as (T1 & T2 & T3 & _).
  exists (schedule now r s4). split.
  - rewrite (start_proceed now r s b s2 E).
    exact (proceed_schedule now r s2 v views Hv Hn Hs).
  - rewrite T1, T2, T3, F2, F3, F4, F5, F7, F8, F9, F10.
    rewrite A1, A2, A3, A4, A5, A7, A11, S3, S5, S6.
    repeat split.
Qed.

(* ================================================================== *)
(** ** The start position *)
(* ================================================================== *)

(** Once a start position has been found, the rest of the scroll views is
    only read. *)
Lemma probe_found r views :
  forall s, probeStartScrollPosition r views true s = s.
Proof.
  induction views as [|v views IH]; intros s; [reflexivity|].
  destruct v as [| |n]; cbn [probeStartScrollPosition negb andb]; apply IH.
Qed.

Lemma probe_skips r pre :
  forall rest s,
    (forall u, In u pre -> givesNoPosition r (store s r) (document s) u) ->
    probeStartScrollPosition r (pre ++ rest) false s
    = probeStartScrollPosition r rest false s.
Proof.
  induction pre as [|u pre IH]; intros rest s H; [reflexivity|].
  assert (Hu := H u (or_introl eq_refl)).
  assert (Hpre : forall u', In u' pre ->
                            givesNoPosition r (store s r) (document s) u')
    by (intros u' Hin; apply H; now right).
  destruct u as [| |n]; cbn [app probeStartScrollPosition];
    try (now apply IH).
  cbn [givesNoPosition] in Hu. rewrite Hu. cbn [negb andb]. now apply IH.
Qed.

(** X6: the start position [start] computes is the scroll offset of the
    first scroll view that is present and has a truthy offset --- entries
    that are [undefined] or [null], and offsets that are missing, [NaN] or
    zero, are passed over --- and it is 0 when there is no such view. *)
Theorem start_position_first_truthy r s pre :
  (forall u, In u pre ->
     givesNoPosition r (set_startScrollPosition zero (store s r)) (document s) u) ->
  startScrollPosition (store (measure r pre s) r) = zero /\
  forall n x rest,
    getScrollPropertyValue r (set_startScrollPosition zero (store s r)) n (document s)
    = Js.val x ->
    Js.truthyNumber x = true ->
    startScrollPosition (store (measure r (pre ++ Js.val n :: rest) s) r) = x.
Proof.
  intros Hpre.
  set (s1 := update r (set_startScrollPosition zero) s).
  assert (Hi : store s1 r = set_startScrollPosition zero (store s r)).
  { unfold s1. fields. now rewrite Nat.eqb_refl. }
  assert (Hpre1 : forall u, In u pre ->
                            givesNoPosition r (store s1 r) (document s1) u).
  { intros u Hu. rewrite Hi. now apply Hpre. }
  split.
  - unfold measure. fold s1.
    rewrite <- (app_nil_r pre), (probe_skips r pre [] s1 Hpre1).
    cbn [probeStartScrollPosition]. fields. rewrite !Nat.eqb_refl. fields.
    now rewrite Hi.
  - intros n x rest Hn Hx.
    unfold measure. fold s1.
    rewrite (probe_skips r pre (Js.val n :: rest) s1 Hpre1).
    cbn [probeStartScrollPosition]. rewrite Hi.
    replace (document s1) with (document s) by reflexivity.
    rewrite Hn. cbn [Js.truthy Js.ToNumber]. rewrite Hx. cbn [negb andb].
    rewrite probe_found.
    fields. rewrite !Nat.eqb_refl. fields. reflexivity.
Qed.

(* ================================================================== *)
(** ** Options and duration *)
(* ================================================================== *)

Lemma mergeOptions_options r s :
  pageScrollOptions (store (mergeOptions r s) r)
  = spread (config s) (pageScrollOptions (store s r)).
Proof. unfold mergeOptions. fields. now rewrite Nat.eqb_refl. Qed.

(** Past the scroll-view and NaN checks, [proceed] ends in a jump or in a
    scheduled animation, on the state the duration phase left. *)
Lemma proceed_prepared now r s s' v views :
  finalState (proceed now r s) = Some s' ->
  Js.read (scrollViews (pageScrollOptions (store s r))) = Js.val (v :: views) ->
  Js.isNaN (distanceToScroll (store (measure r (v :: views) s) r)) = false ->
  pageScrollOptions (store s' r) = pageScrollOptions (store s r) /\
  distanceToScroll (store s' r)
  = distanceToScroll (store (measure r (v :: views) s) r) /\
  executionDuration (store s' r)
  = executionDuration
      (store (computeExecutionDuration r (measure r (v :: views) s)) r).
Proof.
  intros E Hv Hn. unfold proceed in E. rewrite Hv, Hn in E.
  set (s3 := measure r (v :: views) s) in *.
  destruct (computeExecutionDuration_value r s3) as [_ V2].
  destruct (prepared_retunes r (v :: views) s)
    as [A1 A2 A3 A4 A5 A6 A7 A8 A9 A10 A11].
  fold s3 in A1, A2, A3, A4, A5, A6, A7, A8, A9, A10, A11.
  set (s4 := computeExecutionDuration r s3) in *.
  destruct (_ || _); injection E as <-.
  - destruct (jump_frame (allReadyAtDestination r s3) r s4) as (_ & _ & J & _).
    rewrite J. auto.
  - destruct (schedule_frame now r s4)
      as (_ & _ & _ & _ & _ & _ & F7 & _ & F9 & _).
    destruct (schedule_times now r s4) as (_ & _ & _ & T4 & _).
    rewrite F7, F9, T4. auto.
Qed.

(** The options and the measured distance of an instance whose [start]
    went past the scroll-view and NaN checks. *)
Lemma start_prepared now r s s' v views :
  finalState (start now r s) = Some s' ->
  Js.read (scrollViews (pageScrollOptions (store s' r))) = Js.val (v :: views) ->
  Js.isNaN (distanceToScroll (store s' r)) = false ->
  exists s3,
    pageScrollOptions (store s' r) = spread (config s) (pageScrollOptions (store s r)) /\
    pageScrollOptions (store s3 r) = pageScrollOptions (store s' r) /\
    distanceToScroll (store s3 r) = distanceToScroll (store s' r) /\
    executionDuration (store s' r)
    = executionDuration (store (computeExecutionDuration r s3) r).
Proof.
  intros E Hv Hn.
  destruct (start_cases now r s s' E) as (b & s2 & E2 & Ep).
  assert (Ho2 : pageScrollOptions (store s2 r)
                = spread (config s) (pageScrollOptions (store s r))).
  { destruct (stopAll_spec (namespaceOf (mergeOptions r s) r) (mergeOptions r s))
      as [E1 _].
    rewrite E1 in E2. injection E2 as _ <-.
    now rewrite stopEach_options, mergeOptions_options. }
  unfold proceed in Ep.
  destruct (Js.read (scrollViews (pageScrollOptions (store s2 r))))
    as [| |[|v' views']] eqn:Hv2.
  - injection Ep as <-. congruence.
  - injection Ep as <-.
    destruct (warn_frame "No scrollViews specified, this ngx-page-scroll does not know which DOM elements to scroll" s2)
      as (_ & _ & W & _).
    rewrite W in Hv. congruence.
  - injection Ep as <-.
    destruct (warn_frame "No scrollViews specified, this ngx-page-scroll does not know which DOM elements to scroll" s2)
      as (_ & _ & W & _).
    rewrite W in Hv. congruence.
  - destruct (Js.isNaN (distanceToScroll (store (measure r (v' :: views') s2) r)))
      eqn:Hn2.
    + injection Ep as <-. exfalso.
      destruct (log_frame "Scrolling not possible, as we can't find the specified target"
                  (measure r (v' :: views') s2)) as (_ & _ & L & _).
      unfold fireEvent in Hn. fields. rewrite L in Hn. congruence.
    + assert (Ep' : finalState (proceed now r s2) = Some s').
      { unfold proceed. now rewrite Hv2, Hn2. }
      destruct (proceed_prepared now r s2 s' v' views' Ep' Hv2 Hn2)
        as (P1 & P2 & P3).
      destruct (measure_retunes r (v' :: views') s2)
        as [M1 M2 M3 M4 M5 M6 M7 M8 M9 M10 M11].
      exists (measure r (v' :: views') s2).
      rewrite P1, Ho2, M9, Ho2, P2, P3. auto.
Qed.

(** X7: a duration in the service configuration makes the speed option
    ineffective: when the instance's own options have no [duration] key,
    the execution duration is the configured one, whatever speed is set;
    the speed is used once the instance sets [duration] to [undefined] or
    [null] itself. *)
Theorem speed_needs_duration_override now r s s' v views d :
  finalState (start now r s) = Some s' ->
  Js.read (scrollViews (pageScrollOptions (store s' r))) = Js.val (v :: views) ->
  Js.isNaN (distanceToScroll (store s' r)) = false ->
  duration (config s) = Some (Js.val d) ->
  (duration (pageScrollOptions (store s r)) = None ->
   executionDuration (store s' r) = Js.val d) /\
  (forall sp,
     duration (pageScrollOptions (store s r)) = Some Js.undefined
     \/ duration (pageScrollOptions (store s r)) = Some Js.null ->
     Js.read (speed (pageScrollOptions (store s' r))) = Js.val sp ->
     executionDuration (store s' r)
     = Js.val (PrimFloat.mul
                 (PrimFloat.div (Js.Math_abs (distanceToScroll (store s' r))) sp)
                 1000%float)).
Proof.
  intros E Hv Hn Hd.
  destruct (start_prepared now r s s' v views E Hv Hn) as (s3 & O1 & O3 & D3 & X).
  destruct (computeExecutionDuration_value r s3) as [V _].
  rewrite X, V, O3, D3, O1. cbn [spread duration]. rewrite Hd.
  split.
  - intros ->. reflexivity.
  - intros sp Hmiss Hsp.
    destruct Hmiss as [-> | ->]; cbn [spreadKey Js.read]; now rewrite Hsp.
Qed.

(** X8: with neither a duration nor a speed in the merged options, the
    execution duration is [undefined]; an instance that is not already at
    its destination is then scheduled with an end time that is not a
    number, so that no tick ever finds the end time reached: the animation
    ends only by a stop or a failed write. *)
Theorem undefined_duration_never_completes now r s b s2 v views :
  stopAll (namespaceOf (mergeOptions r s) r) (mergeOptions r s) = Returned b s2 ->
  Js.read (scrollViews (pageScrollOptions (store s2 r))) = Js.val (v :: views) ->
  Js.isNaN (distanceToScroll (store (measure r (v :: views) s2) r)) = false ->
  allReadyAtDestination r (measure r (v :: views) s2) = false ->
  Js.read (duration (pageScrollOptions (store s2 r))) = Js.undefined ->
  Js.read (speed (pageScrollOptions (store s2 r))) = Js.undefined
  \/ Js.read (speed (pageScrollOptions (store s2 r))) = Js.null ->
  exists s',
    start now r s = Returned tt s' /\
    In r (runningInstances s') /\
    executionDuration (store s' r) = Js.undefined /\
    forall now' p stopNow,
      nextPosition now' (store s' r) = Some (p, stopNow) -> stopNow = false.
Proof.
  intros E Hv Hn Ha Hd Hsp.
  set (s3 := measure r (v :: views) s2) in *.
  destruct (measure_retunes r (v :: views) s2)
    as [M1 M2 M3 M4 M5 M6 M7 M8 M9 M10 M11].
  fold s3 in M1, M2, M3, M4, M5, M6, M7, M8, M9, M10, M11.
  destruct (computeExecutionDuration_value r s3) as [V _].
  rewrite M9, Hd in V.
  assert (V' : executionDuration (store (computeExecutionDuration r s3) r)
               = Js.undefined).
  { rewrite V. destruct Hsp as [-> | ->]; reflexivity. }
  assert (Hshort : allReadyAtDestination r s3
                   || tooShortInterval r (computeExecutionDuration r s3) = false).
  { rewrite Ha. unfold tooShortInterval. rewrite V'. cbn [Js.ToNumber orb].
    apply leb_nan_l. }
  set (s4 := computeExecutionDuration r s3) in *.
  destruct (schedule_frame now r s4)
    as (_ & F2 & _ & _ & _ & _ & _ & _ & F9 & _).
  destruct (schedule_times now r s4) as (_ & T2 & _).
  exists (schedule now r s4). split; [|split; [|split]].
  - rewrite (start_proceed now r s b s2 E).
    exact (proceed_schedule now r s2 v views Hv Hn Hshort).
  - rewrite F2. apply in_or_app. right. now left.
  - now rewrite F9.
  - intros now' p stopNow Hp. unfold nextPosition in Hp.
    rewrite T2, V' in Hp. cbn [Js.ToNumber] in Hp.
    rewrite add_nan_r, leb_nan_l in Hp.
    destruct (easingLogic _); [|discriminate].
    now injection Hp as _ <-.
Qed.

(* ================================================================== *)
(** ** Restarting, ticking and stopping *)
(* ================================================================== *)

(** X9: [start] on an instance that is still running, when the new
    attempt is scheduled, restarts it: the old run is stopped as
    interrupted (one callback with [false], its interval
    timer cleared), and the instance is registered once again, under a new
    timer handle. *)
Theorem restart_running_instance now r s h b s2 v views :
  Reachable s ->
  timer (store s r) = Some h ->
  stopAll (namespaceOf (mergeOptions r s) r) (mergeOptions r s) = Returned b s2 ->
  Js.read (scrollViews (pageScrollOptions (store s2 r))) = Js.val (v :: views) ->
  Js.isNaN (distanceToScroll (store (measure r (v :: views) s2) r)) = false ->
  allReadyAtDestination r (measure r (v :: views) s2)
  || tooShortInterval r (computeExecutionDuration r (measure r (v :: views) s2))
  = false ->
  exists s',
    start now r s = Returned tt s' /\
    firedFor r (effects s') = firedFor r (effects s) ++ [false] /\
    timer (store s' r) = Some (nextTimer s) /\
    nextTimer s <> h /\
    (forall x, ~ In (h, x) (intervals s')) /\
    In (nextTimer s, r) (intervals s') /\
    In r (runningInstances s') /\
    NoDup (runningInstances s').
Proof.
  intros Hreach Ht E Hv Hn Hs.
  assert (C : Consistent s) by now apply reachable_consistent.
  set (s1 := mergeOptions r s) in *.
  destruct (mergeOptions_frame r s) as (M1 & M2 & M3 & M4 & M5 & M6 & M7).
  fold s1 in M1, M2, M3, M4, M5, M6, M7.
  destruct (stopAll_result (namespaceOf s1 r) s1) as (s2' & E' & _ & Hin & _ & _).
  rewrite E in E'. injection E' as _ <-.
  assert (Hr : In r (runningInstances s1)).
  { rewrite M2. apply (running_timer C). congruence. }
  destruct (Hin r Hr (selects_own s1 r)) as (_ & H2 & H3).
  rewrite M4, M5, Ht in H2.
  destruct (start_stopAll_frame r s b s2 E) as (_ & _ & S3 & _).
  destruct (proceed_scheduled now r s2 v views Hv Hn Hs)
    as (s' & P1 & P2 & P3 & P4 & _).
  assert (Es : start now r s = Returned tt s').
  { now rewrite (start_proceed now r s b s2 E). }
  assert (Hfresh : (h < nextTimer s)%positive).
  { apply (interval_fresh C h r). now apply (interval_timer C). }
  assert (F : finalState (proceed now r s2) = Some s') by now rewrite P1.
  destruct (proceed_frame now r s2 s' F) as (Hf & _).
  rewrite Hv, Hn, Hs, app_nil_r in Hf.
  exists s'. split; [assumption|]. split; [congruence|].
  split; [now rewrite P2, S3|]. split; [lia|].
  split; [|split; [|split]].
  - intros x. rewrite P4. intros [Heq | Hx].
    + injection Heq as Heq _. rewrite S3 in Heq. lia.
    + revert Hx. apply H3. now rewrite M5.
  - rewrite P4, S3. now left.
  - rewrite P3. apply in_or_app. right. now left.
  - apply (running_nodup (start_consistent now r s s' C
                            ltac:(rewrite Es; reflexivity))).
Qed.

(** X10: a tick never reports a failure and meddles with nothing else: it
    delivers to its instance either no callback or one with success
    [true], none to any other instance, sets no timer, adds nothing to the
    running set and leaves every other instance untouched. *)
Theorem tick_never_reports_failure now r s s' :
  finalState (tick now r s) = Some s' ->
  (firedFor r (effects s') = firedFor r (effects s)
   \/ firedFor r (effects s') = firedFor r (effects s) ++ [true]) /\
  (forall x, x <> r ->
     firedFor x (effects s') = firedFor x (effects s) /\
     store s' x = store s x) /\
  timersSet (effects s') = timersSet (effects s) /\
  (forall x, In x (runningInstances s') -> In x (runningInstances s)).
Proof.
  unfold tick.
  destruct (nextPosition now (store s r)) as [[p stopNow]|].
  - cbv zeta.
    set (w := snd (setScrollPosition r (store s r) p (document s))).
    destruct (if negb _ then true else stopNow);
      cbn [finalState]; intros E; injection E as <-.
    + rewrite stopInternal_timersSet, stopInternal_running. fields.
      split; [|split; [|split]].
      * rewrite stopInternal_fired, Nat.eqb_refl. fields.
        destruct (timer (store s r)); [now right | left; apply app_nil_r].
      * intros x Hx. rewrite stopInternal_fired, stopInternal_other by assumption.
        fields. apply Nat.eqb_neq in Hx. rewrite Nat.eqb_sym in Hx.
        now rewrite Hx, app_nil_r.
      * reflexivity.
      * intros x. apply removeOne_incl.
    + fields. auto.
  - cbn [finalState]. intros E; injection E as <-. auto.
Qed.

(** X11: [stop] stops its instance only: the running set loses that one
    entry, every other instance --- of the same namespace or not --- stays
    registered and untouched with its interval timer active, and nobody
    else receives a callback. *)
Theorem stop_touches_one_instance r s :
  runningInstances (snd (stop r s)) = removeOne r (runningInstances s) /\
  (forall x, x <> r ->
     store (snd (stop r s)) x = store s x /\
     firedFor x (effects (snd (stop r s))) = firedFor x (effects s) /\
     (In x (runningInstances s) -> In x (runningInstances (snd (stop r s))))) /\
  (Reachable s ->
   forall h x, x <> r -> In (h, x) (intervals s) ->
               In (h, x) (intervals (snd (stop r s)))).
Proof.
  unfold stop. split; [apply stopInternal_running|]. split.
  - intros x Hx. split; [now apply stopInternal_other|]. split.
    + rewrite stopInternal_fired.
      apply Nat.eqb_neq in Hx. rewrite Nat.eqb_sym in Hx.
      now rewrite Hx, app_nil_r.
    + rewrite stopInternal_running. now apply removeOne_other.
  - intros Hreach h x Hx Hin.
    apply reachable_consistent in Hreach.
    rewrite stopInternal_intervals.
    destruct (timer (store s r)) as [h0|] eqn:Ht; [|assumption].
    apply filter_In. split; [assumption|]. cbn [fst].
    destruct (Pos.eqb_spec h h0) as [->|_]; [|reflexivity].
    exfalso. apply Hx. apply (interval_unique Hreach h0); [assumption|].
    now apply (interval_timer Hreach).
Qed.

(** X12: [stopAll] is idempotent: a second call with the same namespace
    finds nothing to stop, returns [false] and changes nothing. *)
Theorem stopAll_idempotent ns s b s1 :
  stopAll ns s = Returned b s1 ->
  stopAll ns s1 = Returned false s1.
Proof.
  intros E.
  destruct (stopAll_spec ns s) as [E1 E2].
  rewrite E1 in E. injection E as _ E.
  assert (Hrun : runningInstances s1
                 = filter (fun x => negb (selects ns s x)) (runningInstances s)).
  { rewrite <- E. exact E2. }
  assert (Hsel : forall x, selects ns s1 x = selects ns s x).
  { intros x. apply selects_options. rewrite <- E. apply stopEach_options. }
  assert (Hnone : filter (selects ns s1) (runningInstances s1) = []).
  { rewrite Hrun. clear - Hsel.
    induction (runningInstances s) as [|x l IH]; [reflexivity|].
    cbn [filter]. destruct (selects ns s x) eqn:Hx; cbn [negb]; [assumption|].
    cbn [filter]. now rewrite Hsel, Hx. }
  destruct (stopAll_spec ns s1) as [E3 _].
  rewrite E3, Hnone. f_equal.
  apply not_true_is_false. intros Hex.
  apply existsb_exists in Hex. destruct Hex as [x [Hx Hsx]].
  assert (Hf : In x (filter (selects ns s1) (runningInstances s1)))
    by (apply filter_In; now split).
  now rewrite Hnone in Hf.
Qed.

(* ================================================================== *)
(** ** Interrupts and namespaces *)
(* ================================================================== *)

(** X13: only key releases and mouse presses are filtered: an event of any
    other type reported for an interruptible instance stops its namespace
    through [stopAll], whatever the event carries. *)
Theorem report_unfiltered_event event r s :
  Js.readBool (interruptible (pageScrollOptions (store s r))) = true ->
  type event <> "keyup"%string ->
  type event <> "mousedown"%string ->
  exists b s',
    stopAll (namespaceOf s r) s = Returned b s' /\
    report event r s = Returned tt s'.
Proof.
  intros Hi Hk Hm.
  destruct (stopAll_returns (namespaceOf s r) s) as (b & s' & E).
  exists b, s'. split; [assumption|].
  apply String.eqb_neq in Hk, Hm.
  unfold report, shouldStop. rewrite Hi, Hk, Hm. cbn [negb].
  unfold namespaceOf in E. now rewrite E.
Qed.

(** X14: an interrupt that passes the filter stops the instance it was
    reported for: the instance leaves the running set, its timer is
    cleared, its listeners are detached and it receives one callback with
    [false]; with a non-empty namespace, instances of other namespaces are
    left untouched. *)
Theorem interrupt_stops_the_instance event r s h :
  Reachable s ->
  timer (store s r) = Some h ->
  Js.readBool (interruptible (pageScrollOptions (store s r))) = true ->
  shouldStop event r s = Some true ->
  exists s',
    report event r s = Returned tt s' /\
    ~ In r (runningInstances s') /\
    timer (store s' r) = None /\
    interruptListenersAttached (store s' r) = false /\
    (forall x, ~ In (h, x) (intervals s')) /\
    firedFor r (effects s') = firedFor r (effects s) ++ [false] /\
    (Js.truthyString (namespaceOf s r) = true ->
     forall x, namespaceOf s x <> namespaceOf s r ->
               store s' x = store s x /\
               firedFor x (effects s') = firedFor x (effects s)).
Proof.
  intros Hreach Ht Hi Hstop.
  assert (C : Consistent s) by now apply reachable_consistent.
  destruct (stopAll_result (namespaceOf s r) s) as (s' & E & Hrun & Hin & Hout & _).
  assert (Hr : In r (runningInstances s)).
  { apply (running_timer C). congruence. }
  destruct (Hin r Hr (selects_own s r)) as (H1 & H2 & H3).
  exists s'. split; [|split; [|split; [|split; [|split; [|split]]]]].
  - unfold report. rewrite Hi, Hstop. cbn [negb].
    unfold namespaceOf in E. now rewrite E.
  - rewrite Hrun. intros Hf. apply filter_In in Hf.
    rewrite selects_own in Hf. now destruct Hf.
  - now rewrite H1.
  - now rewrite H1.
  - now apply H3.
  - now rewrite H2, Ht.
  - intros Hns x Hx. apply Hout. intros [_ Hsel].
    rewrite (selects_truthy _ s x Hns) in Hsel.
    now apply strictEqString_eq in Hsel.
Qed.

Lemma proceed_intervals now r s s' :
  finalState (proceed now r s) = Some s' ->
  forall e, In e (intervals s) -> In e (intervals s').
Proof.
  unfold proceed.
  destruct (Js.read (scrollViews (pageScrollOptions (store s r))))
    as [| |[|v views]].
  - intros E; injection E as <-. auto.
  - intros E; injection E as <-. intros e.
    destruct (warn_frame "No scrollViews specified, this ngx-page-scroll does not know which DOM elements to scroll" s)
      as (_ & _ & _ & W & _).
    now rewrite W.
  - intros E; injection E as <-. intros e.
    destruct (warn_frame "No scrollViews specified, this ngx-page-scroll does not know which DOM elements to scroll" s)
      as (_ & _ & _ & W & _).
    now rewrite W.
  - set (s3 := measure r (v :: views) s).
    destruct (measure_retunes r (v :: views) s)
      as [M1 M2 M3 M4 M5 M6 M7 M8 M9 M10 M11].
    fold s3 in M1, M2, M3, M4, M5, M6, M7, M8, M9, M10, M11.
    destruct (prepared_retunes r (v :: views) s)
      as [A1 A2 A3 A4 A5 A6 A7 A8 A9 A10 A11].
    fold s3 in A1, A2, A3, A4, A5, A6, A7, A8, A9, A10, A11.
    set (s4 := computeExecutionDuration r s3) in *.
    destruct (Js.isNaN _).
    + intros E; injection E as <-. intros e.
      destruct (log_frame "Scrolling not possible, as we can't find the specified target" s3)
        as (_ & _ & _ & L & _).
      unfold fireEvent. fields. now rewrite L, M3.
    + destruct (_ || _); intros E; injection E as <-; intros e.
      * destruct (jump_frame (allReadyAtDestination r s3) r s4)
          as (_ & _ & _ & J & _).
        now rewrite J, A3.
      * destruct (schedule_frame now r s4) as (_ & _ & F & _).
        rewrite F, A3. now right.
Qed.

(** X15: [start] in a non-empty namespace leaves the other namespaces
    alone: an instance of another namespace keeps its state, its place in
    the running set and its interval timer, and receives no callback. *)
Theorem start_leaves_other_namespaces now r s s' x :
  finalState (start now r s) = Some s' ->
  Js.truthyString (namespaceOf (mergeOptions r s) r) = true ->
  x <> r ->
  namespaceOf s x <> namespaceOf (mergeOptions r s) r ->
  store s' x = store s x /\
  firedFor x (effects s') = firedFor x (effects s) /\
  (In x (runningInstances s) <-> In x (runningInstances s')) /\
  (Reachable s -> forall h, In (h, x) (intervals s) -> In (h, x) (intervals s')).
Proof.
  intros E Hns Hx Hother.
  set (s1 := mergeOptions r s) in *.
  destruct (mergeOptions_frame r s) as (M1 & M2 & M3 & M4 & M5 & M6 & M7).
  fold s1 in M1, M2, M3, M4, M5, M6, M7.
  destruct (start_cases now r s s' E) as (b & s2 & E2 & Ep).
  fold s1 in E2.
  destruct (stopAll_result (namespaceOf s1 r) s1)
    as (s2' & E' & Hrun & Hin & Hout & Hkeep).
  rewrite E2 in E'. injection E' as _ <-.
  assert (Hnot : selects (namespaceOf s1 r) s1 x = false).
  { rewrite (selects_truthy _ s1 x Hns).
    apply not_true_is_false. intros Heq. apply strictEqString_eq in Heq.
    apply Hother. rewrite <- Heq. unfold namespaceOf. now rewrite M6. }
  assert (Hn : ~ (In x (runningInstances s1)
                  /\ selects (namespaceOf s1 r) s1 x = true)).
  { intros [_ H]. congruence. }
  destruct (Hout x Hn) as [O1 O2].
  destruct (proceed_frame now r s2 s' Ep) as (_ & Hrun' & Hfr).
  destruct (Hfr x Hx) as [P1 P2].
  split; [now rewrite P1, O1, M6|]. split; [now rewrite P2, O2, M4|].
  split.
  - assert (H2 : In x (runningInstances s) <-> In x (runningInstances s2)).
    { rewrite Hrun, M2, filter_In, Hnot. cbn [negb]. tauto. }
    rewrite H2.
    destruct Hrun' as [-> | ->]; [tauto|].
    rewrite in_app_iff. cbn [In]. split; [tauto|].
    intros [H | [H | []]]; [assumption | congruence].
  - intros Hreach h Hh. apply reachable_consistent in Hreach.
    apply (proceed_intervals now r s2 s' Ep).
    apply Hkeep; [now rewrite M3|].
    intros y Hy Hsel Hty. rewrite M5 in Hty.
    apply (interval_timer Hreach) in Hty.
    assert (x = y) by (eapply (interval_unique Hreach); eassumption).
    subst y. congruence.
Qed.

(* ================================================================== *)
(** ** The constructor and the dialog component *)
(* ================================================================== *)

(** X16: the constructor counts the services constructed, gives the new
    service the custom configuration merged over the defaults and an empty
    running set, and warns of a second service only: the first
    construction writes nothing whatever the log level, a later one writes
    the warning exactly when the merged log level of the new service
    passes the gate.  A service constructed where no timer is set and no
    listener attached starts in a reachable state. *)
Theorem construct_warns_from_the_second n d c (w : System World) :
  fst (construct n d c w) = S n /\
  config (snd (construct n d c w)) = spread d c /\
  runningInstances (snd (construct n d c w)) = [] /\
  effects (snd (construct n d c w))
  = effects w
    ++ (if Nat.ltb 0 n && logs (with_service (spread d c) [] w)
        then [ConsoleWarn "An instance of PageScrollService already exists, usually including one provider should be enough, so double check."]
        else []) /\
  (intervals w = [] ->
   (forall r, timer (store w r) = None
              /\ interruptListenersAttached (store w r) = false) ->
   Reachable (snd (construct n d c w))).
Proof.
  unfold construct. cbn [fst snd].
  destruct (warn_frame "An instance of PageScrollService already exists, usually including one provider should be enough, so double check."
              (with_service (spread d c) [] w))
    as (W1 & W2 & W3 & W4 & W5 & W6 & W7).
  split; [reflexivity|].
  destruct (Nat.ltb 0 n); cbn [andb].
  - rewrite W1, W2, W7. repeat split.
    intros Hi Hs. apply reach_initial. unfold Initial.
    rewrite W2, W3, W4. repeat split; try assumption; apply Hs.
  - cbn [config runningInstances effects with_service]. rewrite app_nil_r.
    repeat split.
    intros Hi Hs. apply reach_initial. unfold Initial.
    cbn [runningInstances intervals store with_service].
    repeat split; try assumption; apply Hs.
Qed.

(** X17: the dialog component.  [scrollIt] on an idle instance that has a
    scroll view, followed by [closeClick], delivers exactly one completion
    callback to the instance over the two calls, closes the dialog and
    leaves the instance stopped and unregistered; closing again changes
    nothing. *)
Theorem dialog_scroll_then_close now (c : ScrollDialogComponent) s v views :
  Reachable s ->
  timer (store s (pageScrollInstance c)) = None ->
  Js.read (scrollViews (spread (config s)
                          (pageScrollOptions (store s (pageScrollInstance c)))))
  = Js.val (v :: views) ->
  exists s1,
    scrollIt now c s = Returned tt s1 /\
    dialogOpen (fst (closeClick c s1)) = false /\
    (exists success,
       firedFor (pageScrollInstance c) (effects (snd (closeClick c s1)))
       = firedFor (pageScrollInstance c) (effects s) ++ [success]) /\
    timer (store (snd (closeClick c s1)) (pageScrollInstance c)) = None /\
    ~ In (pageScrollInstance c) (runningInstances (snd (closeClick c s1))) /\
    closeClick (fst (closeClick c s1)) (snd (closeClick c s1)) = closeClick c s1.
Proof.
  destruct c as [r o]. cbn [pageScrollInstance].
  intros Hreach Ht Hv.
  assert (C : Consistent s) by now apply reachable_consistent.
  set (s1 := mergeOptions r s) in *.
  destruct (mergeOptions_frame r s) as (M1 & M2 & M3 & M4 & M5 & M6 & M7).
  fold s1 in M1, M2, M3, M4, M5, M6, M7.
  destruct (stopAll_result (namespaceOf s1 r) s1) as (s2 & E & _ & _ & Hout & _).
  assert (Hidle : ~ (In r (runningInstances s1)
                     /\ selects (namespaceOf s1 r) s1 r = true)).
  { intros [Hin _]. rewrite M2 in Hin. now apply (running_timer C) in Hin. }
  destruct (Hout r Hidle) as [O1 O2].
  assert (Hv2 : Js.read (scrollViews (pageScrollOptions (store s2 r)))
                = Js.val (v :: views)).
  { rewrite O1. unfold s1. now rewrite mergeOptions_options. }
  assert (Ht2 : timer (store s2 r) = None) by now rewrite O1, M5.
  assert (Es : forall s', proceed now r s2 = Returned tt s' ->
                          start now r s = Returned tt s').
  { intros s' Hp. now rewrite (start_proceed now r s _ s2 E). }
  (* the state after scrollIt, the callbacks it delivered and its timer *)
  assert (Hpath : exists s' delivered,
             proceed now r s2 = Returned tt s' /\
             firedFor r (effects s') = firedFor r (effects s) ++ delivered /\
             ((exists success, delivered = [success]) /\ timer (store s' r) = None
              \/ delivered = [] /\ exists h, timer (store s' r) = Some h)).
  { destruct (measure_retunes r (v :: views) s2)
      as [N1 N2 N3 N4 N5 N6 N7 N8 N9 N10 N11].
    destruct (prepared_retunes r (v :: views) s2)
      as [A1 A2 A3 A4 A5 A6 A7 A8 A9 A10 A11].
    destruct (Js.isNaN (distanceToScroll (store (measure r (v :: views) s2) r)))
      eqn:Hn;
      [|destruct (allReadyAtDestination r (measure r (v :: views) s2)
                  || tooShortInterval r
                       (computeExecutionDuration r (measure r (v :: views) s2)))
          eqn:Hs].
    - eexists. exists [false].
      split; [exact (proceed_unresolved now r s2 v views Hv2 Hn)|].
      destruct (log_frame "Scrolling not possible, as we can't find the specified target"
                  (measure r (v :: views) s2)) as (_ & _ & L3 & _ & _ & _ & L7).
      unfold fireEvent. fields. rewrite L3, L7, N7, N10.
      split; [|left; eauto].
      now rewrite !firedFor_app, firedFor_log, firedFor_own, app_nil_r, O2, M4.
    - eexists. exists [true].
      split; [exact (proceed_jump now r s2 v views Hv2 Hn Hs)|].
      destruct (jump_frame (allReadyAtDestination r (measure r (v :: views) s2)) r
                  (computeExecutionDuration r (measure r (v :: views) s2)))
        as (_ & _ & J3 & _ & _ & _ & msg & J7).
      rewrite J3, J7, A7, A10.
      split; [|left; eauto].
      now rewrite !firedFor_app, firedFor_log, firedFor_own, O2, M4.
    - destruct (proceed_scheduled now r s2 v views Hv2 Hn Hs)
        as (s' & P1 & P2 & _).
      exists s', []. split; [assumption|].
      assert (F : finalState (proceed now r s2) = Some s') by now rewrite P1.
      destruct (proceed_frame now r s2 s' F) as (Hf & _).
      rewrite Hv2, Hn, Hs in Hf.
      split; [now rewrite Hf, O2, M4 | right; eauto]. }
  destruct Hpath as (s' & delivered & Hp & Hf & Hcase).
  assert (C' : Consistent s').
  { apply (start_consistent now r s s' C). now rewrite (Es s' Hp). }
  assert (C'' : Consistent (snd (stopInternal true r s')))
    by now apply stopInternal_consistent.
  exists s'. unfold scrollIt, closeClick, stop.
  cbn [pageScrollInstance dialogOpen fst snd].
  split; [now apply Es|]. split; [reflexivity|].
  split; [|split; [apply stopInternal_timer|split]].
  - rewrite stopInternal_fired, Nat.eqb_refl, Hf.
    destruct Hcase as [[[success ->] ->] | [-> [h ->]]].
    + exists success. now rewrite app_nil_r.
    + exists false. now rewrite app_nil_r.
  - intros Hin. apply (running_timer C'') in Hin.
    now rewrite stopInternal_timer in Hin.
  - f_equal. rewrite stopInternal_idle; [reflexivity | apply stopInternal_timer | |
                                         apply stopInternal_attached].
    intros Hin. apply (running_timer C'') in Hin.
    now rewrite stopInternal_timer in Hin.
Qed.

End MoreProperties.

(* ================================================================== *)
(** ** The further properties on the sample systems *)
(* ================================================================== *)

Lemma tick_final now r (s : System Page) :
  finalState (tick now r s) = Some (after (tick now r s) s).
Proof.
  unfold after, tick.
  destruct (nextPosition now (store s r)) as [[p stopNow]|]; [|reflexivity].
  cbv zeta. now destruct (if negb _ then true else stopNow).
Qed.

Lemma more_stopAll r :
  stopAll (namespaceOf (mergeOptions r moreSystem) r) (mergeOptions r moreSystem)
  = Returned false (mergeOptions r moreSystem).
Proof. reflexivity. Qed.

Lemma moreRunning1_reachable : Reachable moreRunning1.
Proof.
  apply (reach_step (s := moreSystem)).
  - apply reach_initial. repeat split.
    + unfold moreSystem, moreStore. cbn [store].
      do 24 (destruct r as [|r]; [reflexivity|]). reflexivity.
    + unfold moreSystem, moreStore. cbn [store].
      do 24 (destruct r as [|r]; [reflexivity|]). reflexivity.
  - apply (step_start 1000%float 1). apply start_final.
Qed.

(** With instances 1 and 2 running, each is registered once. *)
Lemma reachable_running_iff_timer_witness :
  Reachable running12 /\
  NoDup (runningInstances running12) /\
  (In 1 (runningInstances running12)
   <-> exists h, timer (store running12 1) = Some h).
Proof.
  split; [exact running12_reachable|].
  destruct (reachable_running_iff_timer running12 running12_reachable)
    as (H1 & H2 & _).
  split; [exact H1 | apply H2].
Defined.

(** Instance 3 has no scroll views and the configured namespace, that of
    the running instance 2: starting it stops instance 2 and warns. *)
Lemma start_without_scroll_views_witness :
  exists s',
    start 1002%float 3 running12 = Returned tt s' /\
    runningInstances s' = [1] /\
    firedFor 2 (effects s') = [false].
Proof.
  destruct (stopAll_spec (namespaceOf (mergeOptions 3 running12) 3)
              (mergeOptions 3 running12)) as [E1 _].
  destruct (start_without_scroll_views 1002%float 3 running12 _ _ E1)
    as (s' & E & Hrun & _ & _ & _ & _ & Heff).
  - right. rewrite stopEach_options. vm_compute. reflexivity.
  - exists s'. split; [exact E|]. split.
    + rewrite Hrun. vm_compute. reflexivity.
    + rewrite Heff. vm_compute. reflexivity.
Defined.

(** The target of instance 9 cannot be resolved. *)
Lemma start_unresolved_target_witness :
  Js.isNaN (distanceToScroll
              (store (measure 9 [Js.val 1] (mergeOptions 9 sampleSystem)) 9)) = true /\
  exists s',
    start 1000%float 9 sampleSystem = Returned tt s' /\
    effects s'
    = [ConsoleLog "Scrolling not possible, as we can't find the specified target";
       Fired 9 false] /\
    runningInstances s' = [].
Proof.
  assert (H : Js.isNaN (distanceToScroll
                (store (measure 9 [Js.val 1] (mergeOptions 9 sampleSystem)) 9))
              = true) by (vm_compute; reflexivity).
  split; [exact H|].
  destruct (start_unresolved_target 1000%float 9 sampleSystem false
              (mergeOptions 9 sampleSystem) (Js.val 1) [] (sample_stopAll 9))
    as (s' & E & Heff & Hrun & _).
  - vm_compute. reflexivity.
  - exact H.
  - exists s'. split; [exact E|]. split.
    + rewrite Heff. vm_compute. reflexivity.
    + rewrite Hrun. vm_compute. reflexivity.
Defined.

(** Instance 21 has no scroll views key and the namespace of the running
    instance 1: starting it stops instance 1 and then throws. *)
Lemma start_missing_scroll_views_throws_witness :
  exists s2,
    start 1001%float 21 moreRunning1 = Threw s2 /\
    runningInstances s2 = [] /\
    firedFor 1 (effects s2) = [false].
Proof.
  destruct (start_missing_scroll_views_throws 1001%float 21 moreRunning1)
    as (b & s2 & _ & E & Hrun & Hstop).
  - vm_compute. reflexivity.
  - exists s2. split; [exact E|]. split.
    + rewrite Hrun. vm_compute. reflexivity.
    + destruct (Hstop 1) as [_ H].
      * vm_compute. auto.
      * vm_compute. reflexivity.
      * rewrite H. vm_compute. reflexivity.
Defined.

(** Instance 0 is scheduled from 1000 to 2250 under timer handle 1. *)
Lemma start_schedules_witness :
  exists s',
    start 1000%float 0 sampleSystem = Returned tt s' /\
    startTime (store s' 0) = 1000%float /\
    timer (store s' 0) = Some 1%positive /\
    runningInstances s' = [0] /\
    effects s' = [ListenersAttached 0; IntervalSet 1%positive 0 10%float].
Proof.
  destruct (start_schedules 1000%float 0 sampleSystem false
              (mergeOptions 0 sampleSystem) (Js.val 1) [] (sample_stopAll 0))
    as (s' & E & T1 & _ & T3 & _ & _ & R & _ & Heff & _).
  - vm_compute. reflexivity.
  - vm_compute. reflexivity.
  - vm_compute. reflexivity.
  - assert (Hs : s' = running0).
    { unfold running0, after. now rewrite E. }
    exists s'. split; [exact E|]. split; [exact T1|]. split; [exact T3|].
    split.
    + rewrite R. vm_compute. reflexivity.
    + rewrite Heff, Hs. vm_compute. reflexivity.
Defined.

(** Instance 23 scrolls [[null, node 2, node 1]]; node 2 is at offset 0 and
    node 1 at offset 120. *)
Lemma start_position_first_truthy_witness :
  startScrollPosition
    (store (measure 23 ([Js.null; Js.val 2] ++ Js.val 1 :: [])
              (mergeOptions 23 moreSystem)) 23) = 120%float.
Proof.
  destruct (start_position_first_truthy 23 (mergeOptions 23 moreSystem)
              [Js.null; Js.val 2]) as [_ H].
  - intros u [<- | [<- | []]]; vm_compute; auto.
  - apply H.
    + vm_compute. reflexivity.
    + vm_compute. reflexivity.
Defined.

(** Instance 20 sets a speed of 100 and no duration: the configured 1250
    stays.  Instance 8 sets the duration to [undefined] as well: 380 / 100
    * 1000. *)
Lemma speed_needs_duration_override_witness :
  executionDuration (store (after (start 1000%float 20 moreSystem) moreSystem) 20)
  = Js.val 1250%float /\
  executionDuration (store (after (start 1000%float 8 moreSystem) moreSystem) 8)
  = Js.val 3800%float.
Proof.
  split.
  - destruct (speed_needs_duration_override 1000%float 20 moreSystem
                (after (start 1000%float 20 moreSystem) moreSystem)
                (Js.val 1) [] 1250%float) as [H _].
    + apply start_final.
    + vm_compute. reflexivity.
    + vm_compute. reflexivity.
    + reflexivity.
    + apply H. vm_compute. reflexivity.
  - destruct (speed_needs_duration_override 1000%float 8 moreSystem
                (after (start 1000%float 8 moreSystem) moreSystem)
                (Js.val 1) [] 1250%float) as [_ H].
    + apply start_final.
    + vm_compute. reflexivity.
    + vm_compute. reflexivity.
    + reflexivity.
    + rewrite (H 100%float).
      * vm_compute. reflexivity.
      * left. vm_compute. reflexivity.
      * vm_compute. reflexivity.
Defined.

(** Instance 22 has duration and speed both [undefined]. *)
Lemma undefined_duration_never_completes_witness :
  exists s',
    start 1000%float 22 moreSystem = Returned tt s' /\
    In 22 (runningInstances s') /\
    executionDuration (store s' 22) = Js.undefined.
Proof.
  destruct (undefined_duration_never_completes 1000%float 22 moreSystem false
              (mergeOptions 22 moreSystem) (Js.val 1) [] (more_stopAll 22))
    as (s' & E & Hin & Hd & _).
  - vm_compute. reflexivity.
  - vm_compute. reflexivity.
  - vm_compute. reflexivity.
  - vm_compute. reflexivity.
  - left. vm_compute. reflexivity.
  - exists s'. auto.
Defined.

(** Instance 0 runs under timer handle 1 and is started again. *)
Lemma restart_running_instance_witness :
  Reachable running0 /\
  timer (store running0 0) = Some 1%positive /\
  exists s',
    start 1100%float 0 running0 = Returned tt s' /\
    firedFor 0 (effects s') = [false] /\
    timer (store s' 0) = Some 2%positive /\
    NoDup (runningInstances s').
Proof.
  assert (Ht : timer (store running0 0) = Some 1%positive)
    by (vm_compute; reflexivity).
  split; [exact running0_reachable|]. split; [exact Ht|].
  destruct (stopAll_spec (namespaceOf (mergeOptions 0 running0) 0)
              (mergeOptions 0 running0)) as [E1 _].
  destruct (restart_running_instance 1100%float 0 running0 1%positive _ _
              (Js.val 1) [] running0_reachable Ht E1)
    as (s' & E & F & T & _ & _ & _ & _ & N).
  - rewrite stopEach_options. vm_compute. reflexivity.
  - vm_compute. reflexivity.
  - vm_compute. reflexivity.
  - exists s'. split; [exact E|]. split; [|split; [|exact N]].
    + rewrite F. vm_compute. reflexivity.
    + rewrite T. vm_compute. reflexivity.
Defined.

(** A tick of instance 0 before its end time delivers nothing and leaves
    instance 9 as it is. *)
Lemma tick_never_reports_failure_witness :
  finalState (tick 1500%float 0 running0)
  = Some (after (tick 1500%float 0 running0) running0) /\
  store (after (tick 1500%float 0 running0) running0) 9 = store running0 9 /\
  timersSet (effects (after (tick 1500%float 0 running0) running0))
  = timersSet (effects running0).
Proof.
  assert (F := tick_final 1500%float 0 running0).
  split; [exact F|].
  destruct (tick_never_reports_failure 1500%float 0 running0 _ F)
    as (_ & Hother & Hset & _).
  split; [|exact Hset].
  apply Hother. discriminate.
Defined.

(** With instances 1 and 2 running, [stop] of 1 leaves 2 registered with
    its interval timer. *)
Lemma stop_touches_one_instance_witness :
  Reachable running12 /\
  store (snd (stop 1 running12)) 2 = store running12 2 /\
  In 2 (runningInstances (snd (stop 1 running12))) /\
  In (2%positive, 2) (intervals (snd (stop 1 running12))).
Proof.
  destruct (stop_touches_one_instance 1 running12) as (_ & Hother & Hint).
  destruct (Hother 2) as (H1 & _ & H3); [discriminate|].
  split; [exact running12_reachable|]. split; [exact H1|]. split.
  - apply H3. vm_compute. auto.
  - apply (Hint running12_reachable); [discriminate|].
    vm_compute. auto.
Defined.

(** [stopAll("a")] twice on the system with instances 1 and 2 running. *)
Lemma stopAll_idempotent_witness :
  exists b s1,
    stopAll (Js.val "a"%string) running12 = Returned b s1 /\
    stopAll (Js.val "a"%string) s1 = Returned false s1.
Proof.
  destruct (stopAll_spec (Js.val "a"%string) running12) as [E1 _].
  eexists. eexists. split; [exact E1|].
  exact (stopAll_idempotent _ _ _ _ E1).
Defined.

(** A wheel event on the running instance 0. *)
Lemma report_unfiltered_event_witness :
  Js.readBool (interruptible (pageScrollOptions (store running0 0))) = true /\
  exists b s',
    stopAll (namespaceOf running0 0) running0 = Returned b s' /\
    report wheelEvent 0 running0 = Returned tt s'.
Proof.
  assert (H : Js.readBool (interruptible (pageScrollOptions (store running0 0)))
              = true) by (vm_compute; reflexivity).
  split; [exact H|].
  apply (report_unfiltered_event wheelEvent 0 running0 H);
    vm_compute; discriminate.
Defined.

(** A mouse press inside node 1, the scroll view of the running instance 0. *)
Lemma interrupt_stops_the_instance_witness :
  shouldStop pressInsideNode1 0 running0 = Some true /\
  exists s',
    report pressInsideNode1 0 running0 = Returned tt s' /\
    ~ In 0 (runningInstances s') /\
    firedFor 0 (effects s') = [false].
Proof.
  assert (H : shouldStop pressInsideNode1 0 running0 = Some true)
    by (vm_compute; reflexivity).
  split; [exact H|].
  destruct (interrupt_stops_the_instance pressInsideNode1 0 running0 1%positive
              running0_reachable)
    as (s' & E & Hr & _ & _ & _ & F & _).
  - vm_compute. reflexivity.
  - vm_compute. reflexivity.
  - exact H.
  - exists s'. split; [exact E|]. split; [exact Hr|].
    rewrite F. vm_compute. reflexivity.
Defined.

(** Starting instance 0 in namespace "a" leaves the running instance 2, of
    the configured namespace, alone. *)
Lemma start_leaves_other_namespaces_witness :
  Js.truthyString (namespaceOf (mergeOptions 0 running12) 0) = true /\
  store (after (start 1002%float 0 running12) running12) 2 = store running12 2 /\
  In 2 (runningInstances (after (start 1002%float 0 running12) running12)).
Proof.
  assert (H : Js.truthyString (namespaceOf (mergeOptions 0 running12) 0) = true)
    by (vm_compute; reflexivity).
  split; [exact H|].
  destruct (start_leaves_other_namespaces 1002%float 0 running12 _ 2
              (start_final 1002%float 0 running12) H)
    as (H1 & _ & H3 & _).
  - discriminate.
  - vm_compute. discriminate.
  - split; [exact H1|]. apply H3. vm_compute. auto.
Defined.

(** A second service constructed in the world of the sample system, at log
    level 1 in development mode, warns and starts in a reachable state. *)
Lemma construct_warns_from_the_second_witness :
  fst (construct 1 sampleConfig (callerOptions Js.null None None None) sampleSystem)
  = 2 /\
  effects (snd (construct 1 sampleConfig (callerOptions Js.null None None None)
                  sampleSystem))
  = [ConsoleWarn "An instance of PageScrollService already exists, usually including one provider should be enough, so double check."] /\
  Reachable (snd (construct 1 sampleConfig (callerOptions Js.null None None None)
                    sampleSystem)).
Proof.
  destruct (construct_warns_from_the_second 1 sampleConfig
              (callerOptions Js.null None None None) sampleSystem)
    as (H1 & _ & _ & H4 & H5).
  split; [exact H1|]. split.
  - rewrite H4. vm_compute. reflexivity.
  - apply H5; [reflexivity|]. intros r. split; reflexivity.
Defined.

(** The dialog scrolls instance 0 and is closed. *)
Lemma dialog_scroll_then_close_witness :
  Reachable sampleSystem /\
  exists s1,
    scrollIt 1000%float sampleDialog sampleSystem = Returned tt s1 /\
    dialogOpen (fst (closeClick sampleDialog s1)) = false /\
    timer (store (snd (closeClick sampleDialog s1)) 0) = None.
Proof.
  split; [exact sampleSystem_reachable|].
  destruct (dialog_scroll_then_close 1000%float sampleDialog sampleSystem
              (Js.val 1) [] sampleSystem_reachable)
    as (s1 & E & D & _ & T & _).
  - reflexivity.
  - vm_compute. reflexivity.
  - exists s1. split; [exact E|]. split; [exact D | exact T].
Defined.
